(** * GenerateFlentTestReport: a shallow embedding of the flent report pipeline

    The development follows [network/GenerateFlentTestReport.py]:

    - Python values as [json.load] returns them, with the few operations the
      script applies to them (subscripting, [.keys()], [!=], [// 1024]);
    - the regular expression of the test-type extraction, compiled by hand;
    - [FlentTestReporter]: its class-level accumulators, the loader, the
      KPI extractor, the batch stage, the report frame and the CSV sink;
    - [generate_flent_test_report], the driver that turns stage results
      into the exit status of the process.

    The interpreter is Python 3 (the shebang of the script), so the branch
    [if '' == b''] is never taken and [_byteify] is dead code. *)

From Stdlib Require Import ZArith Lia Bool List Ascii String.
From Stdlib Require Import Floats.SpecFloat.
From Stdlib Require Import Sorting.Permutation Sorting.Sorted.
From stdpp Require Import base option list strings pretty sorting gmap.

Import ListNotations.
Set Warnings "-register-all,-clear-no-such-hyp".
Local Open Scope string_scope.
Local Open Scope Z_scope.

(** ** Python values *)

Module Py.

(** A Python [float] is an IEEE-754 binary64 number. *)
Definition prec : Z := 53.
Definition emax : Z := 1024.

(** The values [json.load] builds. A [dict] keeps its insertion order, so
    it is an association list; Python keeps its keys unique. *)
Inductive value : Type :=
| None_
| Bool (b : bool)
| Int (n : Z)
| Float (f : spec_float)
| Str (s : string)
| List (l : list value)
| Dict (d : list (string * value)).

(** The exceptions the script can meet, all subclasses of [Exception]. *)
Inductive exn : Type :=
| KeyError (key : string)
| TypeError
| AttributeError
| ValueError
| OSError
| JSONDecodeError
| Exception (msg : string).

Inductive result (A : Type) : Type :=
| Ok (a : A)
| Raise (e : exn).
Arguments Ok {A} a.
Arguments Raise {A} e.

Definition bind {A B} (r : result A) (k : A -> result B) : result B :=
  match r with
  | Ok a => k a
  | Raise e => Raise e
  end.

(** [d[k]] on the association list of a dict: the entry of key [k]. *)
Fixpoint dict_get (k : string) (d : list (string * value)) : option value :=
  match d with
  | [] => None
  | (k', v) :: d' => if String.eqb k k' then Some v else dict_get k d'
  end.

(** [v[k]] with a string subscript: only a dict accepts it. *)
Definition getitem (v : value) (k : string) : result value :=
  match v with
  | Dict d =>
      match dict_get k d with
      | Some x => Ok x
      | None => Raise (KeyError k)
      end
  | _ => Raise TypeError
  end.

(** [v.keys()]: the keys in insertion order; other values have no such
    attribute. *)
Definition keys (v : value) : result (list string) :=
  match v with
  | Dict d => Ok (map fst d)
  | _ => Raise AttributeError
  end.

(** [v == s] and [v != s] for a string literal [s]. *)
Definition eq_str (v : value) (s : string) : bool :=
  match v with
  | Str s' => String.eqb s' s
  | _ => false
  end.

Definition ne_str (v : value) (s : string) : bool := negb (eq_str v s).

(** [x // 1024.0] on binary64: the floor of the exact quotient; a zero
    result takes the sign of [x]; [nan] and the infinities give [nan]. *)
Definition float_floordiv_1024 (x : spec_float) : spec_float :=
  match x with
  | S754_nan | S754_infinity _ => S754_nan
  | S754_zero s => S754_zero s
  | S754_finite s m e =>
      let q := Z.shiftl (cond_Zopp s (Z.pos m)) (e - 10) in
      binary_normalize prec emax q 0 false
  end.

(** [v // 1024]: floor division on [int] (and [bool], an [int]), float
    floor division on [float], [TypeError] on everything else. *)
Definition floordiv_1024 (v : value) : result value :=
  match v with
  | Int n => Ok (Int (n / 1024))
  | Bool b => Ok (Int ((if b then 1 else 0) / 1024))
  | Float f => Ok (Float (float_floordiv_1024 f))
  | _ => Raise TypeError
  end.

End Py.

(** [x ← r; k] runs [r] and, unless it raised, continues with [k]. *)
#[export] Instance result_bind : MBind Py.result :=
  fun A B k r => Py.bind r k.
#[export] Instance result_ret : MRet Py.result := @Py.Ok.

(** ** The regular expression [\s-t\s(.*?)\s] *)

Module Re.

(** Strings are sequences of code points below 256. On those, [\s]
    (Unicode [str] patterns) accepts the characters [str.isspace]
    accepts: TAB to CR, FS to US, SPACE, NEL and NBSP. *)
Definition is_space (c : ascii) : bool :=
  let n := Z.of_N (N_of_ascii c) in
  ((9 <=? n) && (n <=? 13)) || ((28 <=? n) && (n <=? 32))
  || (n =? 133) || (n =? 160).

(** [.] accepts everything but a line feed. *)
Definition is_dot (c : ascii) : bool :=
  negb (Z.of_N (N_of_ascii c) =? 10).

(** [(.*?)\s] anchored at the head of [s]: the lazy group first tries to
    end here, and otherwise takes one more character. *)
Fixpoint lazy_group (s : string) : option string :=
  match s with
  | EmptyString => None
  | String c rest =>
      if is_space c then Some EmptyString
      else if is_dot c then String c <$> lazy_group rest
      else None
  end.

(** The whole pattern anchored at the head of [s]; the result is group 1. *)
Definition match_here (s : string) : option string :=
  match s with
  | String c0 (String a (String b (String c1 rest))) =>
      if is_space c0 && Ascii.eqb a "-" && Ascii.eqb b "t" && is_space c1
      then lazy_group rest
      else None
  | _ => None
  end.

(** [re.search(pattern, s)]: the leftmost position where the pattern
    matches; [None] when there is none. *)
Fixpoint search (s : string) : option string :=
  match match_here s with
  | Some g => Some g
  | None =>
      match s with
      | EmptyString => None
      | String _ rest => search rest
      end
  end.

(** [re.search(r'\s-t\s(.*?)\s', command).group(1)]: [re.search] wants a
    string, and [None] has no [group]. *)
Definition search_group1 (command : Py.value) : Py.result string :=
  match command with
  | Py.Str s =>
      match search s with
      | Some g => Py.Ok g
      | None => Py.Raise Py.AttributeError
      end
  | _ => Py.Raise Py.TypeError
  end.

End Re.

(** ** The pandas calls of the report stages

    pandas is an external library. The model keeps what the script relies
    on: a frame is a list of labelled rows under a list of column labels;
    a column of Python numbers is stored as [int64], [uint64] or [float64],
    any other column holds the objects as they are. *)

Module Pd.

(** A missing cell is the float [nan]. *)
Definition nan : Py.value := Py.Float S754_nan.

(** Each row carries its index label and its cells, one per column. *)
Record DataFrame : Type := mkDataFrame {
  columns : list string;
  rows : list (Z * list Py.value)
}.

(** *** Column types *)

Definition is_int (v : Py.value) : bool :=
  match v with
  | Py.Int _ => true
  | _ => false
  end.

(** The integers a numeric column can hold: those of [int64] and of
    [uint64]. *)
Definition is_integer (v : Py.value) : bool :=
  match v with
  | Py.Int n => (- 2 ^ 63 <=? n) && (n <? 2 ^ 64)
  | _ => false
  end.

(** A negative integer needs [int64], one from [2^63] on needs [uint64];
    no numeric column holds both. *)
Definition is_sint (v : Py.value) : bool :=
  match v with
  | Py.Int n => (- 2 ^ 63 <=? n) && (n <? 0)
  | _ => false
  end.

Definition is_uint (v : Py.value) : bool :=
  match v with
  | Py.Int n => (2 ^ 63 <=? n) && (n <? 2 ^ 64)
  | _ => false
  end.

Definition is_float (v : Py.value) : bool :=
  match v with
  | Py.Float _ => true
  | _ => false
  end.

Definition is_none (v : Py.value) : bool :=
  match v with
  | Py.None_ => true
  | _ => false
  end.

(** [isna]: [None] and [nan] count as missing. *)
Definition isna (v : Py.value) : bool :=
  match v with
  | Py.None_ | Py.Float S754_nan => true
  | _ => false
  end.

(** A column becomes [float64] when it holds only integers of [int64] or
    [uint64], floats and [None], does not need both integer types, and is
    neither all integers nor all [None]. (A column of integers alone keeps
    them exactly, whatever their size.) *)
Definition infers_float64 (col : list Py.value) : bool :=
  forallb (fun v => is_integer v || is_float v || is_none v) col
  && negb (existsb is_sint col && existsb is_uint col)
  && negb (forallb is_int col) && negb (forallb is_none col).

(** The [float64] column stores every cell as a binary64 number. *)
Definition to_float64 (v : Py.value) : Py.value :=
  match v with
  | Py.Int n => Py.Float (binary_normalize Py.prec Py.emax n 0 false)
  | Py.None_ => nan
  | _ => v
  end.

Definition column (j : nat) (m : list (list Py.value)) : list Py.value :=
  map (fun r => nth j r nan) m.

Definition infer_objects (m : list (list Py.value)) : list (list Py.value) :=
  map (imap (fun j v => if infers_float64 (column j m) then to_float64 v
                        else v)) m.

(** [pd.DataFrame(data, columns=cols)] for a list of dicts: one row per
    dict, a cell per requested column, [nan] where the dict lacks the key;
    the index is [0 .. n-1]. *)
Definition of_records (data : list (gmap string Py.value))
    (cols : list string) : DataFrame :=
  let m := map (fun d => map (fun c => default nan (d !! c)) cols) data in
  mkDataFrame cols (imap (fun i r => (Z.of_nat i, r)) (infer_objects m)).

(** [df.rename(columns=mapping)]. *)
Definition rename (mapping : list (string * string)) (df : DataFrame)
  : DataFrame :=
  let new_label c :=
    match find (fun kv => String.eqb (fst kv) c) mapping with
    | Some kv => snd kv
    | None => c
    end in
  mkDataFrame (map new_label (columns df)) (rows df).

(** *** Sorting *)

Fixpoint lex {A} (cmp : A -> A -> comparison) (l1 l2 : list A) : comparison :=
  match l1, l2 with
  | [], [] => Eq
  | [], _ :: _ => Lt
  | _ :: _, [] => Gt
  | x :: l1', y :: l2' =>
      match cmp x y with
      | Eq => lex cmp l1' l2'
      | c => c
      end
  end.

(** The exact value of a finite binary64 number, scaled by [2^1074] so
    that it is an integer. *)
Definition scaled (s : bool) (m : positive) (e : Z) : Z :=
  Z.shiftl (cond_Zopp s (Z.pos m)) (e + 1074).

(** The sort key of a cell. Numbers compare by value (Python compares
    [int] and [float] exactly), strings by code points, and missing cells
    come last ([na_position='last']). *)
Definition cell_key (v : Py.value) : list Z :=
  match v with
  | Py.None_ | Py.Float S754_nan => [2]
  | Py.Bool b => [0; 0; Z.shiftl (if b then 1 else 0) 1074]
  | Py.Int n => [0; 0; Z.shiftl n 1074]
  | Py.Float (S754_zero _) => [0; 0; 0]
  | Py.Float (S754_finite s m e) => [0; 0; scaled s m e]
  | Py.Float (S754_infinity s) => [0; if s then -1 else 1; 0]
  | Py.Str s => 1 :: map (fun c => Z.of_N (N_of_ascii c)) (list_ascii_of_string s)
  | Py.List _ | Py.Dict _ => [3]
  end.

Definition is_number (v : Py.value) : bool :=
  match v with
  | Py.Bool _ | Py.Int _ => true
  | Py.Float f => negb (isna v)
  | _ => false
  end.

Definition is_str (v : Py.value) : bool :=
  match v with
  | Py.Str _ => true
  | _ => false
  end.

Definition is_container (v : Py.value) : bool :=
  match v with
  | Py.List _ | Py.Dict _ => true
  | _ => false
  end.

(** A key column can be ordered when its cells are hashable: the sort
    on several columns puts numbers before strings and missing cells last
    (see [cell_key]). A list or a dict in a key column makes pandas raise
    [TypeError]. *)
Definition sortable (col : list Py.value) : bool :=
  negb (existsb is_container col).

Definition position (c : string) (cols : list string) : Py.result nat :=
  match list_find (String.eqb c) cols with
  | Some (j, _) => Py.Ok j
  | None => Py.Raise (Py.KeyError c)
  end.

Fixpoint positions (cs cols : list string) : Py.result (list nat) :=
  match cs with
  | [] => Py.Ok []
  | c :: cs' =>
      j ← position c cols; js ← positions cs' cols; Py.Ok (j :: js)
  end.

Definition row_key (js : list nat) (r : Z * list Py.value) : list (list Z) :=
  map (fun j => cell_key (nth j (snd r) nan)) js.

Definition key_compare : list (list Z) -> list (list Z) -> comparison :=
  lex (lex Z.compare).

(** A stable sort: a row goes before the rows already placed whose key is
    not smaller, so rows with equal keys keep their order. *)
Fixpoint insert_row (js : list nat) (r : Z * list Py.value)
    (l : list (Z * list Py.value)) : list (Z * list Py.value) :=
  match l with
  | [] => [r]
  | r' :: l' =>
      match key_compare (row_key js r) (row_key js r') with
      | Gt => r' :: insert_row js r l'
      | _ => r :: l
      end
  end.

Definition stable_sort (js : list nat) (l : list (Z * list Py.value))
  : list (Z * list Py.value) :=
  foldr (insert_row js) [] l.

(** [df.sort_values(by=labels)]: ascending, lexicographic on the listed
    columns, stable, missing values last. *)
Definition sort_values (by_ : list string) (df : DataFrame)
  : Py.result DataFrame :=
  js ← positions by_ (columns df);
  if forallb (fun j => sortable (column j (map snd (rows df)))) js
  then Py.Ok (mkDataFrame (columns df) (stable_sort js (rows df)))
  else Py.Raise Py.TypeError.

(** [df.reset_index()]: the old labels become a column named [index], the
    rows are numbered from zero. *)
Definition reset_index (df : DataFrame) : Py.result DataFrame :=
  if existsb (String.eqb "index") (columns df)
  then Py.Raise Py.ValueError
  else Py.Ok (mkDataFrame ("index" :: columns df)
                (imap (fun i r => (Z.of_nat i, Py.Int (fst r) :: snd r))
                      (rows df))).

(** [df.drop(columns=labels)]. *)
Definition drop (labels : list string) (df : DataFrame)
  : Py.result DataFrame :=
  _ ← positions labels (columns df);
  let keep (c : string) := negb (existsb (String.eqb c) labels) in
  let keep_cells (cells : list Py.value) :=
    map snd (List.filter (fun cv => keep (fst cv))
               (zip (columns df) cells)) in
  Py.Ok (mkDataFrame (List.filter keep (columns df))
           (map (fun r => (fst r, keep_cells (snd r))) (rows df))).

(** *** Rounding *)

(** [np.rint]: the nearest integer, ties to even. *)
Definition rint (x : spec_float) : spec_float :=
  match x with
  | S754_finite s m e =>
      if 0 <=? e then x
      else
        let q := Z.shiftr (Z.pos m) (- e) in
        let r := Z.land (Z.pos m) (Z.ones (- e)) in
        let half := Z.shiftl 1 (- e - 1) in
        let n := if r <? half then q
                 else if half <? r then q + 1
                 else if Z.even q then q else q + 1 in
        if n =? 0 then S754_zero s
        else binary_normalize Py.prec Py.emax (cond_Zopp s n) 0 false
  | _ => x
  end.

(** [np.round(x, decimals)] for [decimals >= 0] on binary64: multiply by
    the power of ten, round to an integer, divide. *)
Definition np_round (decimals : Z) (x : spec_float) : spec_float :=
  let f := binary_normalize Py.prec Py.emax (10 ^ decimals) 0 false in
  SFdiv Py.prec Py.emax (rint (SFmul Py.prec Py.emax x f)) f.

(** [df.round(decimals)]: the [float64] columns, those that hold floats
    only, are rounded; integer and object columns are left as they are. *)
Definition round (decimals : Z) (df : DataFrame) : DataFrame :=
  let m := map snd (rows df) in
  let round_cell (j : nat) (v : Py.value) :=
    match v with
    | Py.Float f =>
        if forallb is_float (column j m) then Py.Float (np_round decimals f)
        else v
    | _ => v
    end in
  mkDataFrame (columns df)
    (map (fun r => (fst r, imap round_cell (snd r))) (rows df)).

(** *** CSV text *)

Definition dquote : ascii := ascii_of_N 34.
Definition newline : string := String (ascii_of_N 10) EmptyString.

(** Minimal quoting of the [csv] writer: a field holding a comma, a double
    quote or a line break is wrapped in double quotes, its own double
    quotes doubled. *)
Definition needs_quotes (s : string) : bool :=
  existsb (fun c => let n := N_of_ascii c in
                    (n =? 44)%N || (n =? 34)%N || (n =? 10)%N || (n =? 13)%N)
          (list_ascii_of_string s).

Fixpoint double_quotes (s : string) : string :=
  match s with
  | EmptyString => EmptyString
  | String c rest =>
      if Ascii.eqb c dquote then String c (String c (double_quotes rest))
      else String c (double_quotes rest)
  end.

Definition csv_field (s : string) : string :=
  if needs_quotes s
  then String dquote (double_quotes s ++ String dquote EmptyString)
  else s.

Definition csv_line (fields : list string) : string :=
  String.concat "," (map csv_field fields) ++ newline.

Section to_csv.

(** The text Python gives a number or a container ([repr] of a float,
    [str] of an integer). *)
Variable repr : Py.value -> string.

(** The text of a cell: strings as they are, missing cells empty. *)
Definition cell_text (v : Py.value) : string :=
  match v with
  | Py.Str s => s
  | _ => if isna v then EmptyString else repr v
  end.

(** [df.to_csv()]: a header line with an empty label for the index, then
    one line per row, the index label first. *)
Definition to_csv (df : DataFrame) : string :=
  csv_line (EmptyString :: columns df)
  ++ String.concat EmptyString
       (map (fun r => csv_line (repr (Py.Int (fst r)) :: map cell_text (snd r)))
            (rows df)).

End to_csv.

End Pd.

(** ** Strings and the file system *)

Module Os.

(** [s.endswith(suffix)]. *)
Definition endswith (s suffix : string) : bool :=
  bool_decide (list_ascii_of_string suffix
                 `suffix_of` list_ascii_of_string s).

(** [s.replace(old, new)] for a non-empty [old]: the occurrences of [old]
    are replaced from left to right, without overlap. [skip] counts the
    characters of an occurrence still to be dropped. *)
Fixpoint replace_from (skip : nat) (old new s : string) : string :=
  match s with
  | EmptyString => EmptyString
  | String c rest =>
      match skip with
      | S k => replace_from k old new rest
      | O =>
          if String.prefix old s
          then new ++ replace_from (String.length old - 1) old new rest
          else String c (replace_from O old new rest)
      end
  end.

Definition replace (s old new : string) : string := replace_from O old new s.

Definition sep : string := "/".

(** What a path names: a regular file with its text, or a directory with
    the names [os.listdir] returns, in the order it returns them. *)
Inductive node : Type :=
| File (content : string)
| Directory (entries : list string).

(** What [open(path, 'w')] followed by [f.write(content)] comes to. *)
Inductive write_outcome : Type :=
| Written
    (** the file is opened and the whole text reaches it *)
| Refused
    (** [open] raises (no permission, no parent directory, a directory):
        nothing changes *)
| Cut (n : nat)
    (** [open] creates or truncates the file, then the write raises (disk
        full, I/O error) with the first [n] characters in the file *).

(** The file system as the script sees it: what each path resolves to,
    and how a write to each path ends. *)
Record filesystem : Type := mkFilesystem {
  resolve : string -> option node;
  on_write : string -> write_outcome
}.

(** The write to [path] goes through. *)
Definition writable (fs : filesystem) (path : string) : bool :=
  match on_write fs path with
  | Written => true
  | _ => false
  end.

Definition listdir (fs : filesystem) (path : string)
  : Py.result (list string) :=
  match resolve fs path with
  | Some (Directory entries) => Py.Ok entries
  | _ => Py.Raise Py.OSError
  end.

Definition isfile (fs : filesystem) (path : string) : bool :=
  match resolve fs path with
  | Some (File _) => true
  | _ => false
  end.

(** [open(path, 'r')] and reading the whole file. *)
Definition read (fs : filesystem) (path : string) : Py.result string :=
  match resolve fs path with
  | Some (File content) => Py.Ok content
  | _ => Py.Raise Py.OSError
  end.

(** The file system with [content] as the text of the file [path]. *)
Definition put (path content : string) (fs : filesystem) : filesystem :=
  mkFilesystem
    (fun p => if String.eqb p path then Some (File content)
              else resolve fs p)
    (on_write fs).

(** [with open(path, 'w') as f: f.write(content)]: [open] truncates the
    file before anything is written, so a write that fails later leaves
    the start of the text, or nothing, in place of the old file. *)
Definition write (fs : filesystem) (path content : string)
  : Py.result unit * filesystem :=
  match on_write fs path with
  | Written => (Py.Ok tt, put path content fs)
  | Refused => (Py.Raise Py.OSError, fs)
  | Cut n => (Py.Raise Py.OSError, put path (String.substring 0 n content) fs)
  end.

End Os.

(** ** class FlentTestReporter *)

Module FlentTestReporter.

(** The lines the script prints. *)
Inductive message : Type :=
| ERROR_missing_params (what : string)
| ERROR_json_file (err : Py.exn)
| ERROR_extracting (err : Py.exn)
| NOTE_dumping (report_csv : string)
| NOTE_finished
| ERROR_dumping (err : Py.exn).

(** The state of the process. [raw_data_list] and [perf_kpi_list] are
    attributes of the class: the script binds them once, in the class body,
    and every method reaches them through [self] without ever assigning
    them, so all instances read and append to the same two lists. *)
Record world : Type := mkWorld {
  raw_data_list : list Py.value;
  perf_kpi_list : list (gmap string Py.value);
  fs : Os.filesystem;
  stdout : list message
}.

(** What an instance owns: [df_report], once a method has assigned it;
    until then the lookup falls back to the class attribute, [None]. *)
Record instance : Type := mkInstance {
  df_report : option Pd.DataFrame
}.

(** [FlentTestReporter()]: the class has no [__init__]. *)
Definition new : instance := mkInstance None.

Definition print (m : message) (w : world) : world :=
  mkWorld (raw_data_list w) (perf_kpi_list w) (fs w) (stdout w ++ [m]).

Definition set_fs (f : Os.filesystem) (w : world) : world :=
  mkWorld (raw_data_list w) (perf_kpi_list w) f (stdout w).

(** [self.raw_data_list.append(raw_data)]. *)
Definition raw_data_list_append (raw_data : Py.value) (w : world) : world :=
  mkWorld (raw_data_list w ++ [raw_data]) (perf_kpi_list w) (fs w) (stdout w).

(** [self.perf_kpi_list.append(perf_kpi)]. *)
Definition perf_kpi_list_append (perf_kpi : gmap string Py.value)
    (w : world) : world :=
  mkWorld (raw_data_list w) (perf_kpi_list w ++ [perf_kpi]) (fs w) (stdout w).

(** *** The KPI extractor *)

Definition unit_error : string :=
  "Bandwidth unit is not " ++ String Pd.dquote "Mbits/s"
  ++ String Pd.dquote ".".

(** [name in ('TCP upload', 'TCP download')]. *)
Definition is_tcp_series (name : string) : bool :=
  String.eqb name "TCP upload" || String.eqb name "TCP download".

(** The body of the loop over [series_meta.keys()]. *)
Definition series_kpis (series_meta : Py.value) (name : string)
    (perf_kpi : gmap string Py.value) : Py.result (gmap string Py.value) :=
  if String.eqb name "Ping (ms) ICMP" then Py.Ok perf_kpi
  else if is_tcp_series name then
    series ← Py.getitem series_meta name;
    command ← Py.getitem series "COMMAND";
    type ← Re.search_group1 command;
    let perf_kpi := <["type" := Py.Str type]> perf_kpi in
    series ← Py.getitem series_meta name;
    unit ← Py.getitem series "UNITS";
    if Py.ne_str unit "Mbits/s" then Py.Raise (Py.Exception unit_error)
    else
      series ← Py.getitem series_meta name;
      mean_value ← Py.getitem series "MEAN_VALUE";
      let perf_kpi := <["bw" := mean_value]> perf_kpi in
      series ← Py.getitem series_meta name;
      send_size ← Py.getitem series "SEND_SIZE";
      msize ← Py.floordiv_1024 send_size;
      Py.Ok (<["msize" := msize]> perf_kpi)
  else Py.Ok perf_kpi.

(** [for name in series_meta.keys(): ...]. *)
Fixpoint scan_series (series_meta : Py.value) (names : list string)
    (perf_kpi : gmap string Py.value) : Py.result (gmap string Py.value) :=
  match names with
  | [] => Py.Ok perf_kpi
  | name :: names' =>
      perf_kpi' ← series_kpis series_meta name perf_kpi;
      scan_series series_meta names' perf_kpi'
  end.

(** [if key not in perf_kpi: perf_kpi[key] = 'NaN']. *)
Definition default_NaN (key : string) (perf_kpi : gmap string Py.value)
  : gmap string Py.value :=
  match perf_kpi !! key with
  | Some _ => perf_kpi
  | None => <[key := Py.Str "NaN"]> perf_kpi
  end.

(** The [try] block of [_get_kpis_from_raw_data]. *)
Definition kpis_try (raw_data : Py.value)
  : Py.result (gmap string Py.value) :=
  metadata ← Py.getitem raw_data "metadata";
  series_meta ← Py.getitem metadata "SERIES_META";
  names ← Py.keys series_meta;
  perf_kpi ← scan_series series_meta names ∅;
  Py.Ok (default_NaN "backend"
           (default_NaN "round"
              (default_NaN "format" (default_NaN "driver" perf_kpi)))).

(** [_get_kpis_from_raw_data]: the status and the KPIs, [(1, None)] on
    failure. Every exception of the [try] block is caught and printed. *)
Definition _get_kpis_from_raw_data (raw_data : Py.value) (w : world)
  : (Z * option (gmap string Py.value)) * world :=
  if Py.eq_str raw_data ""
  then ((1, None), print (ERROR_missing_params "raw_data") w)
  else
    match kpis_try raw_data with
    | Py.Ok perf_kpi => ((0, Some perf_kpi), w)
    | Py.Raise err => ((1, None), print (ERROR_extracting err) w)
    end.

(** The loop of [calculate_performance_kpis] over the raw data still to
    visit. A status of 0 always comes with a dict. *)
Fixpoint calculate_loop (todo : list Py.value) (w : world) : Z * world :=
  match todo with
  | [] => (0, w)
  | raw_data :: todo' =>
      let '((result, perf_kpi), w1) := _get_kpis_from_raw_data raw_data w in
      if result =? 0
      then calculate_loop todo'
             (match perf_kpi with
              | Some k => perf_kpi_list_append k w1
              | None => w1
              end)
      else (1, w1)
  end.

(** [calculate_performance_kpis]: [self] only leads to the lists of the
    class, and [params] is not used. *)
Definition calculate_performance_kpis (self : instance) (w : world)
  : Z * world :=
  calculate_loop (raw_data_list w) w.

(** *** The report frame *)

Definition report_columns : list string :=
  ["backend"; "driver"; "format"; "type"; "msize"; "round"; "bw"].

Definition display_names : list (string * string) :=
  [("backend", "Backend"); ("driver", "Driver"); ("format", "Format");
   ("type", "Type"); ("msize", "MSize(Kbits)"); ("round", "Round");
   ("bw", "BW(Mbits/s)")].

Definition sort_keys : list string :=
  ["Backend"; "Driver"; "Format"; "Type"; "MSize(Kbits)"; "Round"].

Definition _create_report_dataframe (self : instance) (w : world)
  : instance :=
  mkInstance
    (Some (Pd.rename display_names
             (Pd.of_records (perf_kpi_list w) report_columns))).

(** An exception here is caught nowhere; the frame of a failed call is
    not observed. *)
Definition _format_report_dataframe (self : instance)
  : Py.result instance :=
  match df_report self with
  | None => Py.Raise Py.AttributeError
  | Some df =>
      sorted ← Pd.sort_values sort_keys df;
      with_index ← Pd.reset_index sorted;
      renumbered ← Pd.drop ["index"] with_index;
      Py.Ok (mkInstance (Some (Pd.round 4 renumbered)))
  end.

Definition generate_report_dataframe (self : instance) (w : world)
  : Py.result instance :=
  _format_report_dataframe (_create_report_dataframe self w).

Section externals.

(** [json.load] on the text of a file: the value, or [None] when the text
    is not JSON. *)
Variable json_load : string -> option Py.value.

(** [os.system(command)]: what the shell command does to the files. *)
Variable os_system : string -> Os.filesystem -> Os.filesystem.

(** Python's text for a number or container (see [Pd.to_csv]). *)
Variable repr : Py.value -> string.

(** *** The loader *)

Definition _get_raw_data_from_flent_log (data_file : string) (w : world)
  : (Z * option Py.value) * world :=
  if String.eqb data_file ""
  then ((1, None), print (ERROR_missing_params "data_file") w)
  else
    match
      content ← Os.read (fs w) data_file;
      match json_load content with
      | Some json_data => Py.Ok json_data
      | None => Py.Raise Py.JSONDecodeError
      end
    with
    | Py.Ok raw_data => ((0, Some raw_data), w)
    | Py.Raise err => ((1, None), print (ERROR_json_file err) w)
    end.

Definition tmpfolder : string := "/tmp/flent-report.tmp".

(** Tarball support: a [.tar.gz] entry is unpacked into [tmpfolder] and
    the [.flent] file of the same name there is the one to load. *)
Definition tarball_support (result_path fname : string) (w : world)
  : string * world :=
  let filename := result_path ++ Os.sep ++ fname in
  if Os.endswith filename ".tar.gz" && Os.isfile (fs w) filename
  then
    let f1 := os_system ("mkdir -p " ++ tmpfolder) (fs w) in
    let f2 := os_system ("tar xf " ++ filename ++ " -C " ++ tmpfolder) f1 in
    (tmpfolder ++ Os.sep ++ Os.replace fname ".tar.gz" ".flent", set_fs f2 w)
  else (filename, w).

(** Load raw data: a status of 0 always comes with the data. *)
Definition load_file (filename : string) (w : world) : world :=
  if Os.endswith filename ".flent" && Os.isfile (fs w) filename
  then
    let '((result, raw_data), w1) :=
      _get_raw_data_from_flent_log filename w in
    match result =? 0, raw_data with
    | true, Some v => raw_data_list_append v w1
    | _, _ => w1
    end
  else w.

Definition cleanup_command : string :=
  "[ -e " ++ tmpfolder ++ " ] && rm -rf " ++ tmpfolder.

Definition cleanup (w : world) : world :=
  set_fs (os_system cleanup_command (fs w)) w.

(** The body of the loop over [os.listdir(params['result_path'])]. *)
Definition load_entry (result_path fname : string) (w : world) : world :=
  let '(filename, w1) := tarball_support result_path fname w in
  cleanup (load_file filename w1).

Definition load_loop (result_path : string) (fnames : list string)
    (w : world) : world :=
  foldl (fun w fname => load_entry result_path fname w) w fnames.

(** [load_raw_data_from_flent_logs]: [os.listdir] is outside any [try]. *)
Definition load_raw_data_from_flent_logs (self : instance)
    (params : gmap string string) (w : world) : Py.result Z * world :=
  match params !! "result_path" with
  | None => (Py.Ok 1, print (ERROR_missing_params "params[result_path]") w)
  | Some result_path =>
      match Os.listdir (fs w) result_path with
      | Py.Raise err => (Py.Raise err, w)
      | Py.Ok fnames => (Py.Ok 0, load_loop result_path fnames w)
      end
  end.

(** *** The CSV sink *)

Definition report_dataframe_to_csv (self : instance)
    (params : gmap string string) (w : world) : Z * world :=
  match params !! "report_csv" with
  | None => (1, print (ERROR_missing_params "params[report_csv]") w)
  | Some report_csv =>
      let w := print (NOTE_dumping report_csv) w in
      match df_report self with
      | None => (1, print (ERROR_dumping Py.AttributeError) w)
      | Some df =>
          match Os.write (fs w) report_csv (Pd.to_csv repr df) with
          | (Py.Ok _, f) => (0, print NOTE_finished (set_fs f w))
          | (Py.Raise err, f) => (1, print (ERROR_dumping err) (set_fs f w))
          end
      end
  end.

End externals.

End FlentTestReporter.

(** ** The driver *)

(** How the process ends: [exit(status)], or an exception nobody caught. *)
Inductive termination : Type :=
| Exit (status : Z)
| Traceback (err : Py.exn).

(** The exit status the shell sees: an uncaught exception gives 1. *)
Definition exit_status (t : termination) : Z :=
  match t with
  | Exit status => status
  | Traceback _ => 1
  end.

Section driver.

Import FlentTestReporter.

Variable json_load : string -> option Py.value.
Variable os_system : string -> Os.filesystem -> Os.filesystem.
Variable repr : Py.value -> string.

Definition generate_flent_test_report (result_path report_csv : string)
    (w : world) : termination * world :=
  let flentreporter := new in
  match load_raw_data_from_flent_logs json_load os_system flentreporter
          {[ "result_path" := result_path ]} w with
  | (Py.Raise err, w1) => (Traceback err, w1)
  | (Py.Ok return_value, w1) =>
      if negb (return_value =? 0) then (Exit 1, w1)
      else
        let '(return_value, w2) :=
          calculate_performance_kpis flentreporter w1 in
        if negb (return_value =? 0) then (Exit 1, w2)
        else
          match generate_report_dataframe flentreporter w2 with
          | Py.Raise err => (Traceback err, w2)
          | Py.Ok flentreporter =>
              let '(return_value, w3) :=
                report_dataframe_to_csv repr flentreporter
                  {[ "report_csv" := report_csv ]} w2 in
              if negb (return_value =? 0) then (Exit 1, w3)
              else (Exit 0, w3)
          end
  end.

End driver.

(** ** Vocabulary of the statements *)

Import FlentTestReporter.

(** [raw_data['metadata']['SERIES_META']] is the dict with the entries [d]. *)
Definition series_meta_of (raw_data : Py.value)
    (d : list (string * Py.value)) : Prop :=
  exists metadata,
    Py.getitem raw_data "metadata" = Py.Ok metadata
    /\ Py.getitem metadata "SERIES_META" = Py.Ok (Py.Dict d).

(** The TCP series of a series map, in iteration order. *)
Definition tcp_names (d : list (string * Py.value)) : list string :=
  List.filter is_tcp_series (map fst d).

(** The fields the extractor derives from one series: the group of the
    pattern in [COMMAND], [MEAN_VALUE], and [SEND_SIZE // 1024], for a
    series that reports in Mbits/s. *)
Definition derived (series : Py.value) (type : string)
    (bw msize : Py.value) : Prop :=
  exists command send_size,
    Py.getitem series "COMMAND" = Py.Ok (Py.Str command)
    /\ Re.search command = Some type
    /\ Py.getitem series "UNITS" = Py.Ok (Py.Str "Mbits/s")
    /\ Py.getitem series "MEAN_VALUE" = Py.Ok bw
    /\ Py.getitem series "SEND_SIZE" = Py.Ok send_size
    /\ Py.floordiv_1024 send_size = Py.Ok msize.

(** Extraction of a record succeeds with [perf_kpi], or fails, whatever
    the rest of the state. *)
Definition extracts (raw_data : Py.value)
    (perf_kpi : gmap string Py.value) : Prop :=
  forall w, _get_kpis_from_raw_data raw_data w = ((0, Some perf_kpi), w).

Definition extraction_fails (raw_data : Py.value) : Prop :=
  forall w, fst (_get_kpis_from_raw_data raw_data w) = (1, None).

Definition contextual_keys : gset string :=
  {[ "driver"; "format"; "round"; "backend" ]}.

Definition derived_keys : gset string := {[ "type"; "bw"; "msize" ]}.

(** Cells of a text column and of a number column, missing ones
    included. *)
Definition text_or_missing (v : Py.value) : bool :=
  Pd.is_str v || Pd.isna v.

Definition number_or_missing (v : Py.value) : bool :=
  match v with
  | Py.Int _ | Py.Float _ => true
  | _ => false
  end.

(** The shape of the dicts the extractor returns. *)
Definition typed_kpi (perf_kpi : gmap string Py.value) : Prop :=
  (forall key, key ∈ contextual_keys ->
               perf_kpi !! key = Some (Py.Str "NaN"))
  /\ text_or_missing (default Pd.nan (perf_kpi !! "type")) = true
  /\ number_or_missing (default Pd.nan (perf_kpi !! "msize")) = true.


(** The six sort columns, by position in the report frame. *)
Definition key_positions : list nat := [0; 1; 2; 3; 4; 5]%nat.

(** The order of the report: the key of the first row is not above the key
    of the second. *)
Definition key_le (r1 r2 : Z * list Py.value) : Prop :=
  Pd.key_compare (Pd.row_key key_positions r1) (Pd.row_key key_positions r2)
  <> Gt.

(** No two rows of the frame have the same sort key and different cells. *)
Definition key_determines_row (df : Pd.DataFrame) : Prop :=
  forall r1 r2,
    In r1 (Pd.rows df) -> In r2 (Pd.rows df) ->
    Pd.row_key key_positions r1 = Pd.row_key key_positions r2 ->
    snd r1 = snd r2.

(** The frame [_create_report_dataframe] builds from a KPI list. *)
Definition report_frame (kpis : list (gmap string Py.value))
  : Pd.DataFrame :=
  Pd.rename display_names (Pd.of_records kpis report_columns).

(** The clean-up command of the loader leaves a path as it is. *)
Definition cleanup_keeps
    (os_system : string -> Os.filesystem -> Os.filesystem)
    (path : string) : Prop :=
  forall f,
    Os.resolve (os_system cleanup_command f) path = Os.resolve f path
    /\ Os.writable (os_system cleanup_command f) path = Os.writable f path.

(** The column labels of the report. *)
Definition display_columns : list string :=
  ["Backend"; "Driver"; "Format"; "Type"; "MSize(Kbits)"; "Round";
   "BW(Mbits/s)"].

(** The header line of the CSV file. *)
Definition header : string :=
  ",Backend,Driver,Format,Type,MSize(Kbits),Round,BW(Mbits/s)"
  ++ Pd.newline.

(** What [round(4)] makes of a cell of a [float64] column: a float goes
    through [np.round(x, 4)]. *)
Definition rounded (v : Py.value) : Py.value :=
  match v with
  | Py.Float f => Py.Float (Pd.np_round 4 f)
  | _ => v
  end.


(** The cells of the report row of a KPI record that is alone in the
    report, in the order of the columns: each column holds one cell, so a
    float is a [float64] column and is rounded, and any other cell stays as
    it is. *)
Definition report_row (perf_kpi : gmap string Py.value) : list Py.value :=
  map (fun c => rounded (default Pd.nan (perf_kpi !! c))) report_columns.

(** The CSV text of a report with that one row. *)
Definition report_text (repr : Py.value -> string)
    (perf_kpi : gmap string Py.value) : string :=
  header
  ++ Pd.csv_line (repr (Py.Int 0)
                  :: map (Pd.cell_text repr) (report_row perf_kpi)).

(** ** Sample data *)

Module Sample.

Definition series (command units : string) (mean_value send_size : Z)
  : Py.value :=
  Py.Dict [("COMMAND", Py.Str command); ("UNITS", Py.Str units);
           ("MEAN_VALUE", Py.Int mean_value);
           ("SEND_SIZE", Py.Int send_size)].

Definition record (series_meta : list (string * Py.value)) : Py.value :=
  Py.Dict [("metadata", Py.Dict [("SERIES_META", Py.Dict series_meta)])].

Definition upload : Py.value :=
  series "flent -t tcp_up -l 60" "Mbits/s" 941 131072.

Definition download : Py.value :=
  series "flent -t tcp_down -l 60" "Mbits/s" 512 65536.


(** The dict the extractor returns for a record with one TCP series. *)
Definition kpi (type : string) (msize bw : Z) : gmap string Py.value :=
  default_NaN "backend"
    (default_NaN "round"
       (default_NaN "format"
          (default_NaN "driver"
             (<["msize" := Py.Int msize]>
                (<["bw" := Py.Int bw]>
                   (<["type" := Py.Str type]> ∅)))))).






(** A series whose command ends right after the test type. *)
Definition upload_at_end : Py.value :=
  series "flent -t tcp_up" "Mbits/s" 941 131072.

Definition upload_kbits : Py.value :=
  series "flent -t tcp_up -l 60" "Kbits/s" 941 131072.

Definition empty_fs : Os.filesystem :=
  Os.mkFilesystem (fun _ => None) (fun _ => Os.Written).

Definition empty_world : world := mkWorld [] [] empty_fs [].

(** Stand-ins for the interpreter and the shell: a [json.load] that knows
    three texts, a shell whose commands change no file (the samples hold
    no tarball and no scratch folder), and the text of an integer. *)
Definition json_load (text : string) : option Py.value :=
  if String.eqb text "upload" then Some (record [("TCP upload", upload)])
  else if String.eqb text "download"
  then Some (record [("TCP download", download)])
  else if String.eqb text "kbits"
  then Some (record [("TCP upload", upload_kbits)])
  else None.

Definition os_system (command : string) (f : Os.filesystem)
  : Os.filesystem := f.

Definition repr (v : Py.value) : string :=
  match v with
  | Py.Int n => pretty n
  | _ => EmptyString
  end.

(** A file system with the directory [logs] holding the given files. *)
Definition logs_fs (files : list (string * string)) : Os.filesystem :=
  Os.mkFilesystem
    (fun path =>
       if String.eqb path "logs" then Some (Os.Directory (map fst files))
       else
         match find (fun f => String.eqb path ("logs/" ++ fst f)) files with
         | Some f => Some (Os.File (snd f))
         | None => None
         end)
    (fun _ => Os.Written).

(** The same directory on a disk where every write ends as [outcome]. *)
Definition failing_fs (files : list (string * string))
    (outcome : Os.write_outcome) : Os.filesystem :=
  Os.mkFilesystem (Os.resolve (logs_fs files)) (fun _ => outcome).

Definition logs_world (files : list (string * string)) : world :=
  mkWorld [] [] (logs_fs files) [].

End Sample.

(** ** The command line *)

(** The lines [cli] prints itself, before the driver starts. *)
Inductive cli_message : Type :=
| ERROR_missing_parameter
| WARNING_no_report_csv (result_path : string).

(** [not value] for an option of the command line: click passes [None]
    for an option that is not given, and the empty string is false too. *)
Definition not_given (value : option string) : bool :=
  match value with
  | None => true
  | Some s => String.eqb s ""
  end.

(** The name [cli] gives the report when [--report_csv] is not given. *)
Definition default_report_csv (result_path : string) : string :=
  result_path ++ Os.sep ++ "flent_report.csv".

Section command_line.

Variable json_load : string -> option Py.value.
Variable os_system : string -> Os.filesystem -> Os.filesystem.
Variable repr : Py.value -> string.

(** The body of [cli], for the option values click hands over. The lines
    it prints come first on the output, before those of the driver. *)
Definition cli (result_path report_csv : option string) (w : world)
  : list cli_message * (termination * world) :=
  match result_path with
  | None => ([ERROR_missing_parameter], (Exit 1, w))
  | Some path =>
      if not_given result_path
      then ([ERROR_missing_parameter], (Exit 1, w))
      else if not_given report_csv
      then ([WARNING_no_report_csv path],
            generate_flent_test_report json_load os_system repr
              path (default_report_csv path) w)
      else ([],
            generate_flent_test_report json_load os_system repr
              path (default "" report_csv) w)
  end.

(** What the loader finds behind a path: the record of a regular file
    whose text parses. *)
Definition parsed_record (f : Os.filesystem) (path : string)
  : option Py.value :=
  match Os.resolve f path with
  | Some (Os.File content) => json_load content
  | _ => None
  end.

End command_line.

(** ** More vocabulary *)

(** The string holds, somewhere, a whitespace character, [-t] and a
    whitespace character in a row: a place where the head [\s-t\s] of the
    pattern matches. *)
Fixpoint delimited_flag (s : string) : bool :=
  match s with
  | EmptyString => false
  | String a rest =>
      match rest with
      | String b (String c (String d _)) =>
          Re.is_space a && Ascii.eqb b "-" && Ascii.eqb c "t"
          && Re.is_space d
      | _ => false
      end
      || delimited_flag rest
  end.

(** A record the extractor accepts: it has the series map, and every TCP
    series of the map has the fields to derive. *)
Definition well_formed_record (raw_data : Py.value) : Prop :=
  exists d,
    series_meta_of raw_data d
    /\ Forall (fun name =>
                 exists series type bw msize,
                   Py.dict_get name d = Some series
                   /\ derived series type bw msize)
         (tcp_names d).

(** The entries of the TCP series of a series map. *)
Definition tcp_entries (d : list (string * Py.value))
  : list (string * Py.value) :=
  List.filter (fun kv => is_tcp_series (fst kv)) d.

(** A string without a whitespace character. *)
Definition no_space (s : string) : Prop :=
  Forall (fun c => Re.is_space c = false) (list_ascii_of_string s).

(** ** The regular expression *)

Section regex.

Lemma lazy_group_spec s g :
  Re.lazy_group s = Some g ->
  exists c post,
    s = (g ++ String c post)%string
    /\ Re.is_space c = true
    /\ Forall (fun x => Re.is_space x = false) (list_ascii_of_string g).
Proof.
  revert g. induction s as [|c s IH]; intros g; simpl; [discriminate|].
  destruct (Re.is_space c) eqn:Hc.
  - intros [= <-]. exists c, s. repeat split; [assumption|constructor].
  - destruct (Re.is_dot c); [|discriminate].
    destruct (Re.lazy_group s) as [g'|]; [|discriminate].
    intros [= <-]. destruct (IH g' eq_refl) as (c' & post & -> & Hc' & Hg).
    exists c', post. repeat split; [assumption|].
    simpl. constructor; assumption.
Qed.

(** A match of [\s-t\s(.*?)\s]: the group is the run of non-blank
    characters, possibly empty, between the blank after [-t] and the next
    blank. *)
Lemma search_spec s g :
  Re.search s = Some g ->
  exists pre c0 c1 c2 post,
    s = (pre ++ String c0 ("-t" ++ String c1 (g ++ String c2 post)))%string
    /\ Re.is_space c0 = true /\ Re.is_space c1 = true
    /\ Re.is_space c2 = true
    /\ Forall (fun x => Re.is_space x = false) (list_ascii_of_string g).
Proof.
  induction s as [|c s IH].
  - simpl. discriminate.
  - cbn [Re.search]. destruct (Re.match_here (String c s)) as [g'|] eqn:Hm.
    + intros [= ->]. unfold Re.match_here in Hm.
      destruct s as [|a [|b [|c1 rest]]]; try discriminate.
      destruct (Re.is_space c) eqn:H0; [|discriminate].
      destruct (Ascii.eqb_spec a "-"); [subst a|discriminate].
      destruct (Ascii.eqb_spec b "t"); [subst b|discriminate].
      destruct (Re.is_space c1) eqn:H1; [|discriminate].
      simpl in Hm. apply lazy_group_spec in Hm as (c2 & post & -> & H2 & Hg).
      exists EmptyString, c, c1, c2, post. auto.
    + intros H. destruct (IH H) as (pre & c0 & c1 & c2 & post & -> & ?).
      exists (String c pre), c0, c1, c2, post. auto.
Qed.

End regex.

(** ** The KPI extractor *)

Lemma bind_Ok {A B} (a : A) (k : A -> Py.result B) :
  (Py.Ok a ≫= k) = k a.
Proof. reflexivity. Qed.

Lemma bind_Raise {A B} (e : Py.exn) (k : A -> Py.result B) :
  (Py.Raise e ≫= k) = Py.Raise e.
Proof. reflexivity. Qed.

Lemma bind_inv {A B} (r : Py.result A) (k : A -> Py.result B) b :
  (r ≫= k) = Py.Ok b -> exists a, r = Py.Ok a /\ k a = Py.Ok b.
Proof. destruct r as [a|e]; [eauto | discriminate]. Qed.

(** One step back through a bind that went well. *)
Ltac bind_inversion H x Hx :=
  apply bind_inv in H as (x & Hx & H);
  cbv beta zeta in H; rewrite ?bind_Ok in H.

Section extractor.

Lemma is_tcp_series_iff name :
  is_tcp_series name = true <-> name = "TCP upload" \/ name = "TCP download".
Proof.
  unfold is_tcp_series. rewrite orb_true_iff, !String.eqb_eq. reflexivity.
Qed.

Lemma tcp_not_ping name :
  is_tcp_series name = true -> String.eqb name "Ping (ms) ICMP" = false.
Proof. rewrite is_tcp_series_iff. intros [-> | ->]; reflexivity. Qed.

Lemma series_kpis_other series_meta name perf_kpi :
  is_tcp_series name = false ->
  series_kpis series_meta name perf_kpi = Py.Ok perf_kpi.
Proof.
  intros H. unfold series_kpis. rewrite H.
  destruct (String.eqb name "Ping (ms) ICMP"); reflexivity.
Qed.

Lemma getitem_Dict d name series :
  Py.dict_get name d = Some series ->
  Py.getitem (Py.Dict d) name = Py.Ok series.
Proof. intros H. simpl. rewrite H. reflexivity. Qed.

Lemma series_kpis_tcp d name series type bw msize perf_kpi :
  is_tcp_series name = true ->
  Py.dict_get name d = Some series ->
  derived series type bw msize ->
  series_kpis (Py.Dict d) name perf_kpi
  = Py.Ok (<["msize" := msize]>
             (<["bw" := bw]> (<["type" := Py.Str type]> perf_kpi))).
Proof.
  intros Htcp Hget (command & send_size & Hc & Hs & Hu & Hm & Hz & Hd).
  unfold series_kpis. rewrite (tcp_not_ping _ Htcp), Htcp.
  rewrite (getitem_Dict _ _ _ Hget), !bind_Ok, Hc, bind_Ok.
  unfold Re.search_group1. rewrite Hs, bind_Ok. cbv zeta.
  rewrite bind_Ok, Hu, bind_Ok.
  change (Py.ne_str (Py.Str "Mbits/s") "Mbits/s") with false. cbv iota.
  rewrite bind_Ok, Hm, bind_Ok. cbv zeta.
  rewrite bind_Ok, Hz, bind_Ok, Hd, bind_Ok. reflexivity.
Qed.

Lemma ne_str_false v s : Py.ne_str v s = false -> v = Py.Str s.
Proof.
  unfold Py.ne_str. destruct v; simpl; try discriminate.
  rewrite negb_false_iff, String.eqb_eq. congruence.
Qed.

(** What a successful visit of a TCP series has read and written. *)
Lemma series_kpis_tcp_inv series_meta name perf_kpi perf_kpi' :
  is_tcp_series name = true ->
  series_kpis series_meta name perf_kpi = Py.Ok perf_kpi' ->
  exists series type bw msize,
    Py.getitem series_meta name = Py.Ok series
    /\ derived series type bw msize
    /\ perf_kpi' = <["msize" := msize]>
                     (<["bw" := bw]> (<["type" := Py.Str type]> perf_kpi)).
Proof.
  intros Htcp. unfold series_kpis. rewrite (tcp_not_ping _ Htcp), Htcp.
  intros H.
  bind_inversion H series Hseries. rewrite Hseries in H.
  bind_inversion H command Hc.
  bind_inversion H type Ht.
  bind_inversion H units Hu.
  destruct (Py.ne_str units "Mbits/s") eqn:Hne; [discriminate|].
  apply ne_str_false in Hne. subst units. rewrite ?bind_Ok in H.
  bind_inversion H bw Hbw.
  bind_inversion H send_size Hss.
  bind_inversion H msize Hms.
  injection H as <-.
  unfold Re.search_group1 in Ht.
  destruct command as [| | | |command| |]; try discriminate.
  destruct (Re.search command) as [g|] eqn:Hg; [|discriminate].
  injection Ht as <-.
  exists series, g, bw, msize. split; [assumption|]. split; [|reflexivity].
  exists command, send_size. repeat split; assumption.
Qed.

(** Only the TCP series count: the loop can as well run over them alone. *)
Lemma scan_series_tcp series_meta names perf_kpi :
  scan_series series_meta names perf_kpi
  = scan_series series_meta (List.filter is_tcp_series names) perf_kpi.
Proof.
  revert perf_kpi. induction names as [|name names IH]; intros perf_kpi.
  - reflexivity.
  - cbn [scan_series List.filter]. destruct (is_tcp_series name) eqn:Htcp.
    + cbn [scan_series].
      destruct (series_kpis series_meta name perf_kpi);
        [rewrite !bind_Ok; apply IH | reflexivity].
    + rewrite series_kpis_other by assumption. rewrite bind_Ok. apply IH.
Qed.

Lemma scan_series_app series_meta names1 names2 perf_kpi :
  scan_series series_meta (names1 ++ names2) perf_kpi
  = (scan_series series_meta names1 perf_kpi
     ≫= scan_series series_meta names2).
Proof.
  revert perf_kpi. induction names1 as [|name names1 IH]; intros perf_kpi.
  - reflexivity.
  - cbn [scan_series app].
    destruct (series_kpis series_meta name perf_kpi);
      [rewrite !bind_Ok; apply IH | reflexivity].
Qed.

Lemma kpis_try_unfold raw_data d :
  series_meta_of raw_data d ->
  kpis_try raw_data
  = (perf_kpi ← scan_series (Py.Dict d) (tcp_names d) ∅;
     Py.Ok (default_NaN "backend"
              (default_NaN "round"
                 (default_NaN "format" (default_NaN "driver" perf_kpi))))).
Proof.
  intros (metadata & Hm & Hs). unfold kpis_try.
  rewrite Hm, bind_Ok, Hs, bind_Ok. simpl Py.keys. rewrite bind_Ok.
  rewrite scan_series_tcp. reflexivity.
Qed.

Lemma kpis_try_series_meta raw_data perf_kpi :
  kpis_try raw_data = Py.Ok perf_kpi -> exists d, series_meta_of raw_data d.
Proof.
  unfold kpis_try. intros H.
  apply bind_inv in H as (metadata & Hm & H).
  apply bind_inv in H as (series_meta & Hs & H).
  apply bind_inv in H as (names & Hn & H).
  destruct series_meta; try discriminate.
  eexists. exists metadata. eauto.
Qed.

Lemma series_meta_not_empty_string raw_data d :
  series_meta_of raw_data d -> Py.eq_str raw_data "" = false.
Proof.
  intros (metadata & Hm & _). destruct raw_data; try reflexivity.
  discriminate.
Qed.

Lemma _get_kpis_from_raw_data_Ok raw_data perf_kpi w :
  kpis_try raw_data = Py.Ok perf_kpi ->
  _get_kpis_from_raw_data raw_data w = ((0, Some perf_kpi), w).
Proof.
  intros H. unfold _get_kpis_from_raw_data.
  destruct (kpis_try_series_meta _ _ H) as (d & Hd).
  rewrite (series_meta_not_empty_string _ _ Hd), H. reflexivity.
Qed.

Lemma _get_kpis_from_raw_data_Raise raw_data err w :
  kpis_try raw_data = Py.Raise err ->
  fst (_get_kpis_from_raw_data raw_data w) = (1, None).
Proof.
  intros H. unfold _get_kpis_from_raw_data.
  destruct (Py.eq_str raw_data ""); [reflexivity|]. rewrite H. reflexivity.
Qed.

(** The status tells whether the [try] block went through. *)
Lemma _get_kpis_from_raw_data_inv raw_data w result perf_kpi w' :
  _get_kpis_from_raw_data raw_data w = ((result, perf_kpi), w') ->
  (result = 0 /\ w' = w
   /\ exists k, perf_kpi = Some k /\ kpis_try raw_data = Py.Ok k)
  \/ (result = 1 /\ perf_kpi = None
      /\ raw_data_list w' = raw_data_list w
      /\ perf_kpi_list w' = perf_kpi_list w /\ fs w' = fs w).
Proof.
  unfold _get_kpis_from_raw_data.
  destruct (Py.eq_str raw_data "").
  - intros [= <- <- <-]. right. auto.
  - destruct (kpis_try raw_data) as [k|err].
    + intros [= <- <- <-]. left. eauto.
    + intros [= <- <- <-]. right. auto.
Qed.

End extractor.

(** ** What the extractor returns *)

Section extractor_claims.

(** C1 (as amended). A record with exactly one TCP series, whose [COMMAND]
    is a string the pattern [\s-t\s(.*?)\s] matches, whose [UNITS] is
    "Mbits/s", and which has a [MEAN_VALUE] and an integer [SEND_SIZE]:
    the extractor returns status 0 and a dict whose [type] is group 1 of
    the first match, whose [bw] is [MEAN_VALUE] and whose [msize] is
    [SEND_SIZE // 1024]. Nothing is printed. *)
Theorem C1_single_tcp_series
    raw_data d name series command token mean_value send_size w :
  series_meta_of raw_data d ->
  tcp_names d = [name] ->
  Py.dict_get name d = Some series ->
  Py.getitem series "COMMAND" = Py.Ok (Py.Str command) ->
  Re.search command = Some token ->
  Py.getitem series "UNITS" = Py.Ok (Py.Str "Mbits/s") ->
  Py.getitem series "MEAN_VALUE" = Py.Ok mean_value ->
  Py.getitem series "SEND_SIZE" = Py.Ok (Py.Int send_size) ->
  exists perf_kpi,
    _get_kpis_from_raw_data raw_data w = ((0, Some perf_kpi), w)
    /\ perf_kpi !! "type" = Some (Py.Str token)
    /\ perf_kpi !! "bw" = Some mean_value
    /\ perf_kpi !! "msize" = Some (Py.Int (send_size / 1024)).
Proof.
  intros Hmeta Hnames Hget Hc Hs Hu Hm Hz.
  assert (Htcp : is_tcp_series name = true).
  { assert (Hin : In name (tcp_names d)) by (rewrite Hnames; left; reflexivity).
    apply filter_In in Hin. tauto. }
  assert (Hder : derived series token mean_value (Py.Int (send_size / 1024))).
  { exists command, (Py.Int send_size). repeat split; assumption. }
  eexists. split.
  - apply _get_kpis_from_raw_data_Ok.
    rewrite (kpis_try_unfold _ _ Hmeta), Hnames. cbn [scan_series].
    rewrite (series_kpis_tcp _ _ _ _ _ _ _ Htcp Hget Hder), !bind_Ok.
    reflexivity.
  - unfold default_NaN. simplify_map_eq. auto.
Qed.

Lemma C1_single_tcp_series_witness :
  exists perf_kpi,
    _get_kpis_from_raw_data
      (Sample.record [("Ping (ms) ICMP", Py.None_);
                      ("TCP upload", Sample.upload)])
      Sample.empty_world
    = ((0, Some perf_kpi), Sample.empty_world)
    /\ perf_kpi !! "type" = Some (Py.Str "tcp_up")
    /\ perf_kpi !! "bw" = Some (Py.Int 941)
    /\ perf_kpi !! "msize" = Some (Py.Int (131072 / 1024)).
Proof.
  apply (C1_single_tcp_series _
           [("Ping (ms) ICMP", Py.None_); ("TCP upload", Sample.upload)]
           "TCP upload" Sample.upload "flent -t tcp_up -l 60").
  - eexists. split; reflexivity.
  - reflexivity.
  - reflexivity.
  - reflexivity.
  - reflexivity.
  - reflexivity.
  - reflexivity.
  - reflexivity.
Defined.

(** C1 (as stated) fails: one "TCP upload" series that reports in Mbits/s
    and has every field of the input contract, but whose command ends
    right after the test type. The pattern wants a blank after the token,
    so the extractor returns failure. *)
Lemma C1_counterexample :
  series_meta_of (Sample.record [("TCP upload", Sample.upload_at_end)])
    [("TCP upload", Sample.upload_at_end)]
  /\ tcp_names [("TCP upload", Sample.upload_at_end)] = ["TCP upload"]
  /\ Py.getitem Sample.upload_at_end "UNITS" = Py.Ok (Py.Str "Mbits/s")
  /\ Py.getitem Sample.upload_at_end "COMMAND"
     = Py.Ok (Py.Str "flent -t tcp_up")
  /\ Py.getitem Sample.upload_at_end "MEAN_VALUE" = Py.Ok (Py.Int 941)
  /\ Py.getitem Sample.upload_at_end "SEND_SIZE" = Py.Ok (Py.Int 131072)
  /\ fst (_get_kpis_from_raw_data
            (Sample.record [("TCP upload", Sample.upload_at_end)])
            Sample.empty_world) = (1, None).
Proof.
  split; [eexists; split; reflexivity|].
  repeat split; reflexivity.
Qed.

(** With two blanks after [-t] the extractor succeeds with an empty
    [type]: the group closes at the second blank. *)
Example type_after_two_blanks :
  Re.search "flent -t  tcp_up -l 60" = Some EmptyString.
Proof. reflexivity. Qed.

Lemma default_NaN_dom key (perf_kpi : gmap string Py.value) :
  dom (default_NaN key perf_kpi) = {[ key ]} ∪ dom perf_kpi.
Proof.
  unfold default_NaN. destruct (perf_kpi !! key) eqn:H.
  - apply (elem_of_dom_2 (D := gset string)) in H. set_solver.
  - apply dom_insert_L.
Qed.

Lemma default_NaN_lookup key (perf_kpi : gmap string Py.value) :
  key ∉ dom perf_kpi ->
  default_NaN key perf_kpi !! key = Some (Py.Str "NaN").
Proof.
  intros H. apply not_elem_of_dom in H. unfold default_NaN. rewrite H.
  apply lookup_insert_eq.
Qed.

Lemma default_NaN_lookup_ne key key' (perf_kpi : gmap string Py.value) :
  key <> key' -> default_NaN key perf_kpi !! key' = perf_kpi !! key'.
Proof.
  intros H. unfold default_NaN. destruct (perf_kpi !! key); [reflexivity|].
  apply lookup_insert_ne. assumption.
Qed.

(** The keys the loop has written: none without a TCP series, the three
    derived ones with at least one. *)
Lemma scan_series_dom series_meta names perf_kpi perf_kpi' :
  Forall (fun name => is_tcp_series name = true) names ->
  scan_series series_meta names perf_kpi = Py.Ok perf_kpi' ->
  match names with
  | [] => perf_kpi' = perf_kpi
  | _ :: _ => dom perf_kpi' = derived_keys ∪ dom perf_kpi
  end.
Proof.
  intros Hall. revert perf_kpi.
  induction Hall as [|name names Htcp Hall IH]; intros perf_kpi H.
  - injection H as <-. reflexivity.
  - cbn [scan_series] in H. bind_inversion H k1 H1.
    apply (series_kpis_tcp_inv _ _ _ _ Htcp) in H1
      as (series & type & bw & msize & _ & _ & ->).
    specialize (IH _ H). destruct names.
    + subst perf_kpi'. rewrite !dom_insert_L. unfold derived_keys.
      set_solver.
    + rewrite IH, !dom_insert_L. unfold derived_keys. set_solver.
Qed.

Lemma tcp_names_Forall d :
  Forall (fun name => is_tcp_series name = true) (tcp_names d).
Proof.
  apply List.Forall_forall. intros name H. apply filter_In in H. tauto.
Qed.

(** C3 (as amended). When extraction succeeds, the four contextual fields
    are the string "NaN", and the dict holds them alone when the record
    has no TCP series, and them together with [type], [bw] and [msize]
    when it has one; it never holds another key. *)
Theorem C3_keys_of_a_kpi_record raw_data w perf_kpi w' :
  _get_kpis_from_raw_data raw_data w = ((0, Some perf_kpi), w') ->
  exists d,
    series_meta_of raw_data d
    /\ (forall key, key ∈ contextual_keys ->
                    perf_kpi !! key = Some (Py.Str "NaN"))
    /\ dom perf_kpi
       = match tcp_names d with
         | [] => contextual_keys
         | _ :: _ => derived_keys ∪ contextual_keys
         end.
Proof.
  intros H. apply _get_kpis_from_raw_data_inv in H
    as [(_ & _ & k & [= <-] & H) | (? & _)]; [|discriminate].
  destruct (kpis_try_series_meta _ _ H) as (d & Hd).
  exists d. split; [assumption|].
  rewrite (kpis_try_unfold _ _ Hd) in H. bind_inversion H k0 Hscan.
  injection H as <-.
  apply (scan_series_dom _ _ _ _ (tcp_names_Forall d)) in Hscan.
  assert (Hdom : dom k0 = ∅ \/ dom k0 = derived_keys).
  { destruct (tcp_names d); [left; subst k0; apply dom_empty_L|].
    right. rewrite Hscan, dom_empty_L. set_solver. }
  split.
  - intros key Hkey. unfold contextual_keys in Hkey.
    assert (Hnot : forall x, x ∈ contextual_keys -> x ∉ dom k0).
    { unfold contextual_keys.
      destruct Hdom as [-> | ->]; unfold derived_keys; set_solver. }
    unfold contextual_keys in Hnot.
    assert (Hk : key = "driver" \/ key = "format" \/ key = "round"
                 \/ key = "backend") by set_solver.
    destruct Hk as [-> | [-> | [-> | ->]]].
    + rewrite !default_NaN_lookup_ne by discriminate.
      apply default_NaN_lookup. set_solver.
    + rewrite !default_NaN_lookup_ne by discriminate.
      apply default_NaN_lookup. rewrite default_NaN_dom. set_solver.
    + rewrite !default_NaN_lookup_ne by discriminate.
      apply default_NaN_lookup. rewrite !default_NaN_dom. set_solver.
    + apply default_NaN_lookup. rewrite !default_NaN_dom. set_solver.
  - rewrite !default_NaN_dom. unfold contextual_keys.
    destruct (tcp_names d).
    + subst k0. rewrite dom_empty_L. set_solver.
    + rewrite Hscan, dom_empty_L. set_solver.
Qed.

Lemma C3_keys_of_a_kpi_record_witness :
  exists d,
    series_meta_of (Sample.record [("TCP upload", Sample.upload)]) d
    /\ (forall key, key ∈ contextual_keys ->
          default (∅ : gmap string Py.value)
            (snd (fst (_get_kpis_from_raw_data
                         (Sample.record [("TCP upload", Sample.upload)])
                         Sample.empty_world))) !! key
          = Some (Py.Str "NaN"))
    /\ dom (default (∅ : gmap string Py.value)
              (snd (fst (_get_kpis_from_raw_data
                           (Sample.record [("TCP upload", Sample.upload)])
                           Sample.empty_world))))
       = match tcp_names d with
         | [] => contextual_keys
         | _ :: _ => derived_keys ∪ contextual_keys
         end.
Proof.
  apply (C3_keys_of_a_kpi_record
           (Sample.record [("TCP upload", Sample.upload)])
           Sample.empty_world _ Sample.empty_world).
  reflexivity.
Defined.

(** C3 (as stated) fails: a record with no TCP series is extracted with
    status 0 and a dict of four keys; [type], [bw] and [msize] are absent. *)
Lemma C3_counterexample :
  exists perf_kpi,
    _get_kpis_from_raw_data
      (Sample.record [("Ping (ms) ICMP", Py.None_)]) Sample.empty_world
    = ((0, Some perf_kpi), Sample.empty_world)
    /\ perf_kpi !! "type" = None
    /\ perf_kpi !! "bw" = None
    /\ perf_kpi !! "msize" = None
    /\ dom perf_kpi <> derived_keys ∪ contextual_keys.
Proof.
  eexists. split; [reflexivity|]. repeat split; try reflexivity.
  intros H. assert (Hin : "type" ∈ derived_keys ∪ contextual_keys).
  { unfold derived_keys. set_solver. }
  rewrite <- H in Hin. apply elem_of_dom in Hin as [v Hv].
  vm_compute in Hv. discriminate.
Qed.

End extractor_claims.

(** ** The batch stage *)

Section batch.

Lemma extracts_iff raw_data perf_kpi :
  extracts raw_data perf_kpi <-> kpis_try raw_data = Py.Ok perf_kpi.
Proof.
  split.
  - intros H. specialize (H Sample.empty_world).
    apply _get_kpis_from_raw_data_inv in H
      as [(_ & _ & k & [= <-] & H) | (? & _)]; [assumption|discriminate].
  - intros H w. apply _get_kpis_from_raw_data_Ok. assumption.
Qed.

Lemma extraction_fails_iff raw_data :
  extraction_fails raw_data <-> exists err, kpis_try raw_data = Py.Raise err.
Proof.
  split.
  - intros H. destruct (kpis_try raw_data) as [k|err] eqn:Hk; [|eauto].
    specialize (H Sample.empty_world).
    rewrite (_get_kpis_from_raw_data_Ok _ _ _ Hk) in H. discriminate.
  - intros [err H] w. eapply _get_kpis_from_raw_data_Raise. eassumption.
Qed.

(** The records that extract are appended one after the other. *)
Lemma calculate_loop_app before kpis rest w :
  Forall2 extracts before kpis ->
  calculate_loop (before ++ rest) w
  = calculate_loop rest
      (mkWorld (raw_data_list w) (perf_kpi_list w ++ kpis) (fs w)
         (stdout w)).
Proof.
  intros H. revert w.
  induction H as [|raw_data k before kpis Hk _ IH]; intros w.
  - simpl. rewrite app_nil_r. destruct w; reflexivity.
  - cbn [app calculate_loop]. rewrite (Hk w). cbn [Z.eqb].
    rewrite IH. unfold perf_kpi_list_append. cbn [raw_data_list
      perf_kpi_list fs stdout]. rewrite <- app_assoc. reflexivity.
Qed.

(** The loop stops at the first record whose extraction fails: one line is
    printed and the rest of the list is not visited. *)
Lemma calculate_loop_fails raw_data rest w :
  extraction_fails raw_data ->
  exists m,
    calculate_loop (raw_data :: rest) w = (1, print m w).
Proof.
  intros H. specialize (H w). cbn [calculate_loop].
  unfold _get_kpis_from_raw_data in *.
  destruct (Py.eq_str raw_data ""); [eexists; reflexivity|].
  destruct (kpis_try raw_data); [discriminate|]. eexists; reflexivity.
Qed.

Lemma calculate_loop_fs todo w : fs (snd (calculate_loop todo w)) = fs w.
Proof.
  revert w. induction todo as [|raw_data todo IH]; intros w; [reflexivity|].
  cbn [calculate_loop].
  destruct (_get_kpis_from_raw_data raw_data w) as [[result k] w1] eqn:H.
  apply _get_kpis_from_raw_data_inv in H
    as [(-> & -> & k' & -> & _) | (-> & -> & _ & _ & Hfs)].
  - cbn [Z.eqb]. rewrite IH. reflexivity.
  - assumption.
Qed.

Lemma calculate_loop_In raw_data todo w :
  extraction_fails raw_data -> In raw_data todo ->
  fst (calculate_loop todo w) = 1.
Proof.
  intros Hfail. revert w.
  induction todo as [|raw_data' todo IH]; intros w Hin; [destruct Hin|].
  destruct Hin as [-> | Hin].
  - destruct (calculate_loop_fails raw_data todo w Hfail) as (m & ->).
    reflexivity.
  - cbn [calculate_loop].
    destruct (_get_kpis_from_raw_data raw_data' w) as [[result k] w1] eqn:H.
    apply _get_kpis_from_raw_data_inv in H
      as [(-> & -> & k' & -> & _) | (-> & -> & _)].
    + cbn [Z.eqb]. apply IH. assumption.
    + reflexivity.
Qed.

End batch.

(** ** Unit mismatch, two TCP series, failure half way *)

Section failure_claims.

Variable json_load : string -> option Py.value.
Variable os_system : string -> Os.filesystem -> Os.filesystem.
Variable repr : Py.value -> string.

Lemma dict_get_In name d series :
  Py.dict_get name d = Some series -> In name (map fst d).
Proof.
  induction d as [|[k v] d IH]; simpl; [discriminate|].
  destruct (String.eqb_spec name k); [auto|]. intros H. right. auto.
Qed.

Lemma scan_series_Raise series_meta name names :
  In name names ->
  (forall perf_kpi, exists err,
      series_kpis series_meta name perf_kpi = Py.Raise err) ->
  forall perf_kpi, exists err,
      scan_series series_meta names perf_kpi = Py.Raise err.
Proof.
  intros Hin Hfail.
  induction names as [|name' names IH]; intros perf_kpi; [destruct Hin|].
  cbn [scan_series]. destruct Hin as [-> | Hin].
  - destruct (Hfail perf_kpi) as (err & ->). eauto.
  - destruct (series_kpis series_meta name' perf_kpi) as [k|err]; [|eauto].
    rewrite bind_Ok. apply IH. assumption.
Qed.

(** A TCP series that reports in another unit makes the extraction fail. *)
Lemma unit_mismatch_fails raw_data d name series units :
  series_meta_of raw_data d ->
  is_tcp_series name = true ->
  Py.dict_get name d = Some series ->
  Py.getitem series "UNITS" = Py.Ok (Py.Str units) ->
  units <> "Mbits/s" ->
  extraction_fails raw_data.
Proof.
  intros Hmeta Htcp Hget Hu Hne. apply extraction_fails_iff.
  rewrite (kpis_try_unfold _ _ Hmeta).
  destruct (scan_series_Raise (Py.Dict d) name (tcp_names d)) with (perf_kpi := (∅ : gmap string Py.value))
    as (err & ->); [| |eauto].
  - apply filter_In. split; [|assumption]. eapply dict_get_In. eassumption.
  - intros perf_kpi.
    destruct (series_kpis (Py.Dict d) name perf_kpi) as [k|err] eqn:H;
      [|eauto].
    apply (series_kpis_tcp_inv _ _ _ _ Htcp) in H
      as (series' & type & bw & msize & Hs & Hder & _).
    rewrite (getitem_Dict _ _ _ Hget) in Hs. injection Hs as <-.
    destruct Hder as (? & ? & _ & _ & Hu' & _). congruence.
Qed.

Lemma calculate_fails_in_driver result_path report_csv w w1 :
  load_raw_data_from_flent_logs json_load os_system new
    {[ "result_path" := result_path ]} w = (Py.Ok 0, w1) ->
  fst (calculate_performance_kpis new w1) = 1 ->
  exists w2,
    generate_flent_test_report json_load os_system repr
      result_path report_csv w = (Exit 1, w2)
    /\ fs w2 = fs w1.
Proof.
  intros Hload Hcalc. unfold generate_flent_test_report. rewrite Hload.
  cbn [Z.eqb negb].
  pose proof (calculate_loop_fs (raw_data_list w1) w1) as Hfs.
  unfold calculate_performance_kpis in *.
  destruct (calculate_loop (raw_data_list w1) w1) as [return_value w2].
  cbn [fst snd] in *. subst return_value. cbn [Z.eqb negb]. eauto.
Qed.

(** C2. A record with a TCP series whose [UNITS] is a string other than
    "Mbits/s" fails to extract; the batch stage returns 1 for any list that
    holds it, and stops at it when the records before it extract (they
    are appended, one line is printed, nothing after it is visited); the
    driver then exits with status 1 and writes no file. *)
Theorem C2_unit_mismatch_aborts raw_data d name series units :
  series_meta_of raw_data d ->
  is_tcp_series name = true ->
  Py.dict_get name d = Some series ->
  Py.getitem series "UNITS" = Py.Ok (Py.Str units) ->
  units <> "Mbits/s" ->
  extraction_fails raw_data
  /\ (forall self w,
         In raw_data (raw_data_list w) ->
         fst (calculate_performance_kpis self w) = 1)
  /\ (forall self before kpis rest w,
         raw_data_list w = (before ++ raw_data :: rest)%list ->
         Forall2 extracts before kpis ->
         exists m,
           calculate_performance_kpis self w
           = (1, print m (mkWorld (raw_data_list w)
                            (perf_kpi_list w ++ kpis) (fs w) (stdout w))))
  /\ (forall result_path report_csv w w1,
         load_raw_data_from_flent_logs json_load os_system new
           {[ "result_path" := result_path ]} w = (Py.Ok 0, w1) ->
         In raw_data (raw_data_list w1) ->
         exists w2,
           generate_flent_test_report json_load os_system repr
             result_path report_csv w = (Exit 1, w2)
           /\ fs w2 = fs w1).
Proof.
  intros Hmeta Htcp Hget Hu Hne.
  pose proof (unit_mismatch_fails _ _ _ _ _ Hmeta Htcp Hget Hu Hne) as Hfail.
  split; [assumption|]. split; [|split].
  - intros self w Hin. apply (calculate_loop_In raw_data); assumption.
  - intros self before kpis rest w Hlist Hbefore.
    pose proof (calculate_loop_app before kpis (raw_data :: rest) w Hbefore)
      as Happ.
    rewrite <- Hlist in Happ. unfold calculate_performance_kpis.
    rewrite Happ. apply calculate_loop_fails. assumption.
  - intros result_path report_csv w w1 Hload Hin.
    apply calculate_fails_in_driver; [assumption|].
    apply (calculate_loop_In raw_data); assumption.
Qed.

(** C9. The batch stage is not atomic: when the record at some position
    fails and those before it extract, the stage returns 1 and the KPI list
    has grown by the KPIs of the records before it. *)
Theorem C9_batch_not_atomic self before kpis raw_data rest w :
  raw_data_list w = (before ++ raw_data :: rest)%list ->
  Forall2 extracts before kpis ->
  extraction_fails raw_data ->
  exists w',
    calculate_performance_kpis self w = (1, w')
    /\ perf_kpi_list w' = (perf_kpi_list w ++ kpis)%list.
Proof.
  intros Hlist Hbefore Hfail.
  pose proof (calculate_loop_app before kpis (raw_data :: rest) w Hbefore)
    as Happ.
  rewrite <- Hlist in Happ. unfold calculate_performance_kpis. rewrite Happ.
  destruct (calculate_loop_fails raw_data rest
              (mkWorld (raw_data_list w)
                 (perf_kpi_list w ++ kpis) (fs w) (stdout w)) Hfail)
    as (m & ->).
  eexists. split; reflexivity.
Qed.

(** C7. With two TCP series in the map, both well formed, the extractor
    returns the fields derived from the one visited second. *)
Theorem C7_last_write_wins
    raw_data d first second series1 series2
    type1 bw1 msize1 type2 bw2 msize2 w :
  series_meta_of raw_data d ->
  tcp_names d = [first; second] ->
  Py.dict_get first d = Some series1 ->
  Py.dict_get second d = Some series2 ->
  derived series1 type1 bw1 msize1 ->
  derived series2 type2 bw2 msize2 ->
  exists perf_kpi,
    _get_kpis_from_raw_data raw_data w = ((0, Some perf_kpi), w)
    /\ perf_kpi !! "type" = Some (Py.Str type2)
    /\ perf_kpi !! "bw" = Some bw2
    /\ perf_kpi !! "msize" = Some msize2.
Proof.
  intros Hmeta Hnames Hget1 Hget2 Hder1 Hder2.
  assert (Htcp : Forall (fun n => is_tcp_series n = true) [first; second]).
  { rewrite <- Hnames. apply tcp_names_Forall. }
  inversion Htcp as [|? ? Htcp1 Htcp']; subst.
  inversion Htcp' as [|? ? Htcp2 _]; subst.
  eexists. split.
  - apply _get_kpis_from_raw_data_Ok.
    rewrite (kpis_try_unfold _ _ Hmeta), Hnames. cbn [scan_series].
    rewrite (series_kpis_tcp _ _ _ _ _ _ _ Htcp1 Hget1 Hder1), !bind_Ok.
    rewrite (series_kpis_tcp _ _ _ _ _ _ _ Htcp2 Hget2 Hder2), !bind_Ok.
    reflexivity.
  - unfold default_NaN. simplify_map_eq. auto.
Qed.

End failure_claims.

Lemma C2_unit_mismatch_aborts_witness :
  extraction_fails (Sample.record [("TCP upload", Sample.upload_kbits)])
  /\ exists w2,
      generate_flent_test_report Sample.json_load Sample.os_system
        Sample.repr "logs" "logs/flent_report.csv"
        (Sample.logs_world [("a.flent", "upload"); ("b.flent", "kbits")])
      = (Exit 1, w2)
      /\ perf_kpi_list w2
         = [default ∅ (snd (fst (_get_kpis_from_raw_data
                                   (Sample.record
                                      [("TCP upload", Sample.upload)])
                                   Sample.empty_world)))]
      /\ Os.resolve (fs w2) "logs/flent_report.csv" = None.
Proof.
  destruct (C2_unit_mismatch_aborts Sample.json_load Sample.os_system
              Sample.repr
              (Sample.record [("TCP upload", Sample.upload_kbits)])
              [("TCP upload", Sample.upload_kbits)]
              "TCP upload" Sample.upload_kbits "Kbits/s")
    as (Hfail & _ & _ & Hdriver).
  - eexists. split; reflexivity.
  - reflexivity.
  - reflexivity.
  - reflexivity.
  - discriminate.
  - split; [exact Hfail|].
    eexists. split; [|split]; reflexivity.
Defined.

Lemma C9_batch_not_atomic_witness :
  exists w',
    calculate_performance_kpis new
      (mkWorld [Sample.record [("TCP upload", Sample.upload)];
                Sample.record [("TCP upload", Sample.upload_kbits)];
                Sample.record [("TCP download", Sample.download)]]
         [] Sample.empty_fs [])
    = (1, w')
    /\ perf_kpi_list w'
       = ([] ++ [default ∅ (snd (fst (_get_kpis_from_raw_data
                                         (Sample.record
                                            [("TCP upload", Sample.upload)])
                                         Sample.empty_world)))])%list.
Proof.
  apply (C9_batch_not_atomic new
           [Sample.record [("TCP upload", Sample.upload)]] _
           (Sample.record [("TCP upload", Sample.upload_kbits)])
           [Sample.record [("TCP download", Sample.download)]]).
  - reflexivity.
  - constructor; [|constructor]. intros w. reflexivity.
  - intros w. reflexivity.
Defined.

Lemma C7_last_write_wins_witness :
  exists perf_kpi,
    _get_kpis_from_raw_data
      (Sample.record [("TCP upload", Sample.upload);
                      ("TCP download", Sample.download)])
      Sample.empty_world
    = ((0, Some perf_kpi), Sample.empty_world)
    /\ perf_kpi !! "type" = Some (Py.Str "tcp_down")
    /\ perf_kpi !! "bw" = Some (Py.Int 512)
    /\ perf_kpi !! "msize" = Some (Py.Int 64).
Proof.
  apply (C7_last_write_wins _
           [("TCP upload", Sample.upload); ("TCP download", Sample.download)]
           "TCP upload" "TCP download" Sample.upload Sample.download
           "tcp_up" (Py.Int 941) (Py.Int 128)).
  - eexists. split; reflexivity.
  - reflexivity.
  - reflexivity.
  - reflexivity.
  - eexists _, _. repeat split; reflexivity.
  - eexists _, _. repeat split; reflexivity.
Defined.

(** ** The loader and the shared lists *)

Section loader.

Variable json_load : string -> option Py.value.
Variable os_system : string -> Os.filesystem -> Os.filesystem.

Lemma _get_raw_data_from_flent_log_inv data_file w result raw_data w' :
  _get_raw_data_from_flent_log json_load data_file w
  = ((result, raw_data), w') ->
  raw_data_list w' = raw_data_list w
  /\ perf_kpi_list w' = perf_kpi_list w
  /\ fs w' = fs w
  /\ ((result = 0 /\ w' = w /\ exists v, raw_data = Some v)
      \/ (result = 1 /\ raw_data = None)).
Proof.
  unfold _get_raw_data_from_flent_log.
  destruct (String.eqb data_file "").
  - intros [= <- <- <-]. repeat split; auto.
  - destruct (Os.read (fs w) data_file) as [content|err]; simpl.
    + destruct (json_load content) as [v|]; simpl;
        intros [= <- <- <-]; repeat split; eauto.
    + intros [= <- <- <-]. repeat split; auto.
Qed.

(** Loading a file appends at most one record and leaves the rest of the
    state alone, printing aside. *)
Lemma load_file_lists filename w :
  exists new,
    raw_data_list (load_file json_load filename w)
    = (raw_data_list w ++ new)%list
    /\ perf_kpi_list (load_file json_load filename w) = perf_kpi_list w
    /\ fs (load_file json_load filename w) = fs w.
Proof.
  unfold load_file.
  destruct (Os.endswith filename ".flent" && Os.isfile (fs w) filename).
  2:{ exists []. rewrite app_nil_r. auto. }
  destruct (_get_raw_data_from_flent_log json_load filename w)
    as [[result raw_data] w1] eqn:H.
  apply _get_raw_data_from_flent_log_inv in H
    as (Hraw & Hkpi & Hfs & [(-> & -> & v & ->) | (-> & ->)]).
  - exists [v]. cbn. auto.
  - exists []. rewrite app_nil_r. cbn. auto.
Qed.

Lemma load_entry_lists result_path fname w :
  exists new,
    raw_data_list (load_entry json_load os_system result_path fname w)
    = (raw_data_list w ++ new)%list
    /\ perf_kpi_list (load_entry json_load os_system result_path fname w)
       = perf_kpi_list w.
Proof.
  unfold load_entry.
  destruct (tarball_support os_system result_path fname w)
    as [filename w1] eqn:Htar.
  assert (H1 : raw_data_list w1 = raw_data_list w
               /\ perf_kpi_list w1 = perf_kpi_list w).
  { unfold tarball_support in Htar.
    destruct (_ && _) in Htar; injection Htar as <- <-; auto. }
  destruct H1 as [Hraw Hkpi].
  destruct (load_file_lists filename w1) as (new & Hr & Hk & _).
  exists new. unfold cleanup, set_fs. cbn. rewrite Hr, Hk, Hraw, Hkpi. auto.
Qed.

Lemma load_loop_lists result_path fnames w :
  exists new,
    raw_data_list (load_loop json_load os_system result_path fnames w)
    = (raw_data_list w ++ new)%list
    /\ perf_kpi_list (load_loop json_load os_system result_path fnames w)
       = perf_kpi_list w.
Proof.
  revert w. induction fnames as [|fname fnames IH]; intros w.
  - exists []. rewrite app_nil_r. auto.
  - unfold load_loop in *. cbn [foldl].
    destruct (load_entry_lists result_path fname w) as (new1 & Hr1 & Hk1).
    destruct (IH (load_entry json_load os_system result_path fname w))
      as (new2 & Hr2 & Hk2).
    exists (new1 ++ new2)%list. rewrite Hr2, Hk2, Hr1, Hk1, app_assoc. auto.
Qed.

(** Whatever the instance and the outcome, the loader only appends to the
    raw-data list of the class. *)
Lemma load_raw_data_lists self params w :
  exists new,
    raw_data_list
      (snd (load_raw_data_from_flent_logs json_load os_system self params w))
    = (raw_data_list w ++ new)%list
    /\ perf_kpi_list
         (snd (load_raw_data_from_flent_logs json_load os_system self
                 params w))
       = perf_kpi_list w.
Proof.
  unfold load_raw_data_from_flent_logs.
  destruct (params !! "result_path") as [result_path|].
  - destruct (Os.listdir (fs w) result_path) as [fnames|err].
    + apply load_loop_lists.
    + exists []. rewrite app_nil_r. auto.
  - exists []. rewrite app_nil_r. auto.
Qed.

(** The loader returns 0 as soon as the directory can be listed. *)
Lemma load_raw_data_status self params result_path fnames w :
  params !! "result_path" = Some result_path ->
  Os.listdir (fs w) result_path = Py.Ok fnames ->
  load_raw_data_from_flent_logs json_load os_system self params w
  = (Py.Ok 0, load_loop json_load os_system result_path fnames w).
Proof.
  intros Hp Hl. unfold load_raw_data_from_flent_logs. rewrite Hp, Hl.
  reflexivity.
Qed.

(** The batch stage only appends to the KPI list of the class. *)
Lemma calculate_loop_lists todo w :
  raw_data_list (snd (calculate_loop todo w)) = raw_data_list w
  /\ exists new,
      perf_kpi_list (snd (calculate_loop todo w))
      = (perf_kpi_list w ++ new)%list.
Proof.
  revert w. induction todo as [|raw_data todo IH]; intros w.
  - split; [reflexivity|]. exists []. rewrite app_nil_r. reflexivity.
  - cbn [calculate_loop].
    destruct (_get_kpis_from_raw_data raw_data w) as [[result k] w1] eqn:H.
    apply _get_kpis_from_raw_data_inv in H
      as [(-> & -> & k' & -> & _) | (-> & -> & Hr & Hk & _)].
    + cbn [Z.eqb]. destruct (IH (perf_kpi_list_append k' w)) as (Hr & new & Hk).
      split; [exact Hr|]. exists (k' :: new). rewrite Hk. cbn.
      rewrite <- app_assoc. reflexivity.
    + cbn. split; [assumption|]. exists []. rewrite app_nil_r. assumption.
Qed.

Lemma calculate_loop_all todo kpis w :
  Forall2 extracts todo kpis ->
  calculate_loop todo w
  = (0, mkWorld (raw_data_list w) (perf_kpi_list w ++ kpis) (fs w)
          (stdout w)).
Proof.
  intros H. rewrite <- (app_nil_r todo).
  rewrite (calculate_loop_app _ _ _ _ H). reflexivity.
Qed.

End loader.

Section shared_state_claims.

Variable json_load : string -> option Py.value.
Variable os_system : string -> Os.filesystem -> Os.filesystem.

(** C10. The two accumulators belong to the class. Whatever the two
    instances, when the first loads and extracts and the second then loads
    and extracts, the second appends to the lists the first has filled:
    the raw-data list and the KPI list only grow, and the second batch
    stage extracts again every record the first run had loaded. *)
Theorem C10_class_level_accumulators self1 self2 params1 params2 w :
  let w1 :=
    snd (load_raw_data_from_flent_logs json_load os_system self1 params1 w) in
  let w2 := snd (calculate_performance_kpis self1 w1) in
  let w3 :=
    snd (load_raw_data_from_flent_logs json_load os_system self2 params2 w2) in
  let w4 := snd (calculate_performance_kpis self2 w3) in
  (exists new1 new2,
      raw_data_list w2 = (raw_data_list w ++ new1)%list
      /\ raw_data_list w4 = (raw_data_list w ++ new1 ++ new2)%list)
  /\ (exists kpis1 kpis2,
         perf_kpi_list w2 = (perf_kpi_list w ++ kpis1)%list
         /\ perf_kpi_list w4 = (perf_kpi_list w ++ kpis1 ++ kpis2)%list)
  /\ (forall kpis,
         Forall2 extracts (raw_data_list w3) kpis ->
         perf_kpi_list w4 = (perf_kpi_list w2 ++ kpis)%list).
Proof.
  intros w1 w2 w3 w4.
  destruct (load_raw_data_lists json_load os_system self1 params1 w)
    as (new1 & Hr1 & Hk1).
  destruct (calculate_loop_lists (raw_data_list w1) w1) as (Hr2 & kpis1 & Hk2).
  destruct (load_raw_data_lists json_load os_system self2 params2 w2)
    as (new2 & Hr3 & Hk3).
  destruct (calculate_loop_lists (raw_data_list w3) w3) as (Hr4 & kpis2 & Hk4).
  fold w1 in Hr1, Hk1. fold w3 in Hr3, Hk3.
  change (snd (calculate_loop (raw_data_list w1) w1)) with w2 in Hr2, Hk2.
  change (snd (calculate_loop (raw_data_list w3) w3)) with w4 in Hr4, Hk4.
  split; [|split].
  - exists new1, new2. split; [congruence|].
    rewrite Hr4, Hr3, Hr2, Hr1, app_assoc. reflexivity.
  - exists kpis1, kpis2. split; [congruence|].
    rewrite Hk4, Hk3, Hk2, Hk1, app_assoc. reflexivity.
  - intros kpis Hall. unfold w4, calculate_performance_kpis.
    rewrite (calculate_loop_all _ _ _ Hall). cbn. congruence.
Qed.

End shared_state_claims.

Lemma C10_class_level_accumulators_witness :
  exists k,
    extracts (Sample.record [("TCP upload", Sample.upload)]) k
    /\ perf_kpi_list
         (snd (calculate_performance_kpis new
            (snd (load_raw_data_from_flent_logs Sample.json_load
                    Sample.os_system new {[ "result_path" := "logs" ]}
               (snd (calculate_performance_kpis new
                  (snd (load_raw_data_from_flent_logs Sample.json_load
                          Sample.os_system new {[ "result_path" := "logs" ]}
                          (Sample.logs_world [("a.flent", "upload")])))))))))
       = [k; k; k].
Proof.
  pose (k := default (∅ : gmap string Py.value)
               (snd (fst (_get_kpis_from_raw_data
                            (Sample.record [("TCP upload", Sample.upload)])
                            Sample.empty_world)))).
  exists k. split; [intros w; reflexivity|].
  pose proof (C10_class_level_accumulators Sample.json_load Sample.os_system
                new new {[ "result_path" := "logs" ]}
                {[ "result_path" := "logs" ]}
                (Sample.logs_world [("a.flent", "upload")])) as H.
  cbv zeta in H. destruct H as (_ & _ & H).
  rewrite (H [k; k]).
  - reflexivity.
  - constructor; [|constructor; [|constructor]]; intros w; reflexivity.
Defined.

(** ** Sorting the report *)

Section lex_order.

Context {A : Type} (cmp : A -> A -> comparison).
Hypothesis cmp_opp : forall x y, cmp y x = CompOpp (cmp x y).
Hypothesis cmp_eq : forall x y, cmp x y = Eq -> x = y.
Hypothesis cmp_trans :
  forall x y z, cmp x y = Lt -> cmp y z = Lt -> cmp x z = Lt.

Lemma cmp_refl x : cmp x x = Eq.
Proof.
  pose proof (cmp_opp x x) as H. destruct (cmp x x); simpl in H; congruence.
Qed.

Lemma lex_opp l1 l2 : Pd.lex cmp l2 l1 = CompOpp (Pd.lex cmp l1 l2).
Proof.
  revert l2. induction l1 as [|x l1 IH]; intros [|y l2]; simpl; try reflexivity.
  rewrite (cmp_opp x y). destruct (cmp x y); simpl; auto.
Qed.

Lemma lex_eq l1 l2 : Pd.lex cmp l1 l2 = Eq -> l1 = l2.
Proof.
  revert l2. induction l1 as [|x l1 IH]; intros [|y l2]; simpl;
    try discriminate; [reflexivity|].
  destruct (cmp x y) eqn:H; try discriminate.
  intros Hl. rewrite (cmp_eq _ _ H), (IH _ Hl). reflexivity.
Qed.

Lemma lex_refl l : Pd.lex cmp l l = Eq.
Proof. induction l as [|x l IH]; simpl; [|rewrite cmp_refl]; auto. Qed.

Lemma lex_trans l1 l2 l3 :
  Pd.lex cmp l1 l2 = Lt -> Pd.lex cmp l2 l3 = Lt -> Pd.lex cmp l1 l3 = Lt.
Proof.
  revert l2 l3.
  induction l1 as [|x l1 IH]; intros [|y l2] [|z l3]; simpl;
    try discriminate; try reflexivity.
  destruct (cmp x y) eqn:Hxy; try discriminate;
    destruct (cmp y z) eqn:Hyz; try discriminate; intros H1 H2.
  - apply cmp_eq in Hxy, Hyz. subst. rewrite cmp_refl. eauto.
  - apply cmp_eq in Hxy. subst. rewrite Hyz. reflexivity.
  - apply cmp_eq in Hyz. subst. rewrite Hxy. reflexivity.
  - rewrite (cmp_trans _ _ _ Hxy Hyz). reflexivity.
Qed.

End lex_order.

Section sorting.

Lemma Z_compare_opp (x y : Z) : (y ?= x) = CompOpp (x ?= y).
Proof. apply Z.compare_antisym. Qed.

Lemma Z_compare_trans (x y z : Z) :
  (x ?= y) = Lt -> (y ?= z) = Lt -> (x ?= z) = Lt.
Proof. rewrite !Z.compare_lt_iff. lia. Qed.

Lemma key_compare_opp k1 k2 :
  Pd.key_compare k2 k1 = CompOpp (Pd.key_compare k1 k2).
Proof.
  apply lex_opp. intros x y. apply lex_opp. exact Z_compare_opp.
Qed.

Lemma key_compare_eq k1 k2 : Pd.key_compare k1 k2 = Eq -> k1 = k2.
Proof.
  apply lex_eq. intros x y. apply lex_eq. exact Z.compare_eq.
Qed.

Lemma key_compare_refl k : Pd.key_compare k k = Eq.
Proof.
  apply lex_refl. intros x y. apply lex_opp. exact Z_compare_opp.
Qed.

Lemma key_compare_trans k1 k2 k3 :
  Pd.key_compare k1 k2 = Lt -> Pd.key_compare k2 k3 = Lt ->
  Pd.key_compare k1 k3 = Lt.
Proof.
  apply lex_trans.
  - intros x y. apply lex_opp. exact Z_compare_opp.
  - intros x y. apply lex_eq. exact Z.compare_eq.
  - intros x y z. apply lex_trans.
    + exact Z_compare_opp.
    + exact Z.compare_eq.
    + exact Z_compare_trans.
Qed.

(** The order of the report is a total preorder on rows. *)
Lemma key_le_refl r : key_le r r.
Proof. unfold key_le. rewrite key_compare_refl. discriminate. Qed.

Lemma key_le_trans r1 r2 r3 : key_le r1 r2 -> key_le r2 r3 -> key_le r1 r3.
Proof.
  unfold key_le.
  destruct (Pd.key_compare (Pd.row_key key_positions r1)
              (Pd.row_key key_positions r2)) eqn:H12; [| |congruence];
    destruct (Pd.key_compare (Pd.row_key key_positions r2)
                (Pd.row_key key_positions r3)) eqn:H23; try congruence;
    intros _ _.
  - apply key_compare_eq in H12, H23. rewrite H12, H23, key_compare_refl.
    discriminate.
  - apply key_compare_eq in H12. rewrite H12, H23. discriminate.
  - apply key_compare_eq in H23. rewrite <- H23, H12. discriminate.
  - rewrite (key_compare_trans _ _ _ H12 H23). discriminate.
Qed.

Lemma key_le_total r1 r2 : key_le r1 r2 \/ key_le r2 r1.
Proof.
  unfold key_le.
  rewrite (key_compare_opp (Pd.row_key key_positions r1)).
  destruct (Pd.key_compare (Pd.row_key key_positions r1)
              (Pd.row_key key_positions r2));
    simpl; [left|left|right]; discriminate.
Qed.


Lemma insert_row_Permutation r l :
  Permutation (Pd.insert_row key_positions r l) (r :: l).
Proof.
  induction l as [|r' l IH]; simpl; [reflexivity|].
  destruct (Pd.key_compare _ _); try reflexivity.
  rewrite IH. apply perm_swap.
Qed.

Lemma stable_sort_Permutation l :
  Permutation (Pd.stable_sort key_positions l) l.
Proof.
  induction l as [|r l IH]; simpl; [reflexivity|].
  unfold Pd.stable_sort in *. cbn [foldr].
  rewrite insert_row_Permutation, IH. reflexivity.
Qed.

Lemma insert_row_sorted r l :
  StronglySorted key_le l ->
  StronglySorted key_le (Pd.insert_row key_positions r l).
Proof.
  induction 1 as [|r' l Hs IH Hall]; cbn [Pd.insert_row].
  - repeat constructor.
  - destruct (Pd.key_compare (Pd.row_key key_positions r)
                (Pd.row_key key_positions r')) eqn:Hc.
    + constructor; [constructor; assumption|].
      assert (Hle : key_le r r') by (unfold key_le; congruence).
      constructor; [assumption|].
      eapply List.Forall_impl; [|exact Hall].
      intros x Hx. eapply key_le_trans; eassumption.
    + constructor; [constructor; assumption|].
      assert (Hle : key_le r r') by (unfold key_le; congruence).
      constructor; [assumption|].
      eapply List.Forall_impl; [|exact Hall].
      intros x Hx. eapply key_le_trans; eassumption.
    + constructor; [assumption|].
      assert (Hle : key_le r' r).
      { unfold key_le. rewrite key_compare_opp, Hc. discriminate. }
      eapply Permutation_Forall.
      * symmetry. apply insert_row_Permutation.
      * constructor; assumption.
Qed.

(** The rows come out in ascending key order. *)
Lemma stable_sort_sorted l :
  StronglySorted key_le (Pd.stable_sort key_positions l).
Proof.
  induction l as [|r l IH]; [constructor|].
  unfold Pd.stable_sort in *. cbn [foldr]. apply insert_row_sorted, IH.
Qed.

End sorting.

(** ** The report frame *)

Section report.



Lemma drop_index_cells label cells :
  map snd (List.filter
             (fun cv : string * Py.value =>
                negb (existsb (String.eqb (fst cv)) ["index"]))
             (zip ("index" :: display_columns) (Py.Int label :: cells)))
  = take 7 cells.
Proof.
  do 7 (destruct cells as [|? cells]; [reflexivity|]). reflexivity.
Qed.

(** What [_format_report_dataframe] makes of a frame with the report
    columns: the rows sorted, renumbered and rounded, unless a key column
    holds a list or a dict. *)
Lemma format_report l :
  _format_report_dataframe
    (mkInstance (Some (Pd.mkDataFrame display_columns l)))
  = if forallb (fun j => Pd.sortable (Pd.column j (map snd l)))
         key_positions
    then Py.Ok
           (mkInstance
              (Some (Pd.round 4
                       (Pd.mkDataFrame display_columns
                          (imap (fun i cells => (Z.of_nat i, take 7 cells))
                             (map snd
                                (Pd.stable_sort key_positions l)))))))
    else Py.Raise Py.TypeError.
Proof.
  unfold _format_report_dataframe. cbn [df_report].
  unfold Pd.sort_values. cbn [Pd.columns Pd.rows].
  change (Pd.positions sort_keys display_columns) with (Py.Ok key_positions).
  rewrite bind_Ok.
  destruct (forallb _ key_positions); [|reflexivity].
  rewrite bind_Ok. unfold Pd.reset_index. cbn [Pd.columns Pd.rows].
  change (existsb (String.eqb "index") display_columns) with false.
  cbv iota. rewrite bind_Ok. unfold Pd.drop. cbn [Pd.columns Pd.rows].
  change (Pd.positions ["index"] ("index" :: display_columns))
    with (Py.Ok [0%nat]).
  rewrite bind_Ok.
  change (List.filter _ ("index" :: display_columns)) with display_columns.
  change (map ?f (imap ?g ?x)) with (f <$> imap g x).
  rewrite fmap_imap.
  change (map snd ?x) with (snd <$> x). rewrite imap_fmap.
  rewrite bind_Ok. do 5 f_equal.
  apply imap_ext. intros i r _. unfold compose. cbn [fst snd].
  f_equal. apply drop_index_cells.
Qed.

Lemma report_frame_eq kpis :
  report_frame kpis
  = Pd.mkDataFrame display_columns
      (imap (fun i r => (Z.of_nat i, r))
         (Pd.infer_objects
            (map (fun d : gmap string Py.value =>
                    map (fun c => default Pd.nan (d !! c)) report_columns)
               kpis))).
Proof. reflexivity. Qed.

Lemma snd_imap_label {A} (l : list A) :
  map snd (imap (fun i r => (Z.of_nat i, r)) l) = l.
Proof.
  change (map snd ?x) with (snd <$> x). rewrite fmap_imap.
  transitivity (imap (const id) l).
  - apply imap_ext. intros; reflexivity.
  - rewrite imap_const. apply list_fmap_id.
Qed.

End report.

(** ** The order of the rows *)

Section row_order.










End row_order.

(** ** Reports of extracted records *)

Section typed_records.

Lemma floordiv_1024_number send_size msize :
  Py.floordiv_1024 send_size = Py.Ok msize ->
  number_or_missing msize = true.
Proof. destruct send_size; simpl; intros [= <-]; reflexivity. Qed.

Lemma contextual_keys_cases key :
  key ∈ contextual_keys ->
  key = "driver" \/ key = "format" \/ key = "round" \/ key = "backend".
Proof. unfold contextual_keys. set_solver. Qed.

Lemma scan_series_typed series_meta names perf_kpi perf_kpi' :
  Forall (fun name => is_tcp_series name = true) names ->
  scan_series series_meta names perf_kpi = Py.Ok perf_kpi' ->
  text_or_missing (default Pd.nan (perf_kpi !! "type")) = true
  /\ number_or_missing (default Pd.nan (perf_kpi !! "msize")) = true
  /\ (forall key, key ∈ contextual_keys -> perf_kpi !! key = None) ->
  text_or_missing (default Pd.nan (perf_kpi' !! "type")) = true
  /\ number_or_missing (default Pd.nan (perf_kpi' !! "msize")) = true
  /\ (forall key, key ∈ contextual_keys -> perf_kpi' !! key = None).
Proof.
  intros Hall. revert perf_kpi.
  induction Hall as [|name names Htcp Hall IH]; intros perf_kpi H Hk.
  - injection H as <-. assumption.
  - cbn [scan_series] in H. bind_inversion H k1 H1.
    apply (series_kpis_tcp_inv _ _ _ _ Htcp) in H1
      as (series & type & bw & msize & _ & Hder & ->).
    apply (IH _ H). destruct Hk as (_ & _ & Hctx).
    destruct Hder as (? & send_size & _ & _ & _ & _ & _ & Hdiv).
    split; [|split].
    + simplify_map_eq. reflexivity.
    + simplify_map_eq. cbn. eapply floordiv_1024_number. eassumption.
    + intros key Hkey. specialize (Hctx key Hkey).
      apply contextual_keys_cases in Hkey as [-> | [-> | [-> | ->]]];
        rewrite !lookup_insert_ne by discriminate; assumption.
Qed.

(** Every dict the extractor returns has the four contextual fields set
    to "NaN", a string or nothing as [type], and a number or nothing as
    [msize]. *)
Lemma kpis_try_typed raw_data perf_kpi :
  kpis_try raw_data = Py.Ok perf_kpi -> typed_kpi perf_kpi.
Proof.
  intros H. destruct (kpis_try_series_meta _ _ H) as (d & Hd).
  rewrite (kpis_try_unfold _ _ Hd) in H. bind_inversion H k0 Hscan.
  injection H as <-.
  apply (scan_series_typed _ _ _ _ (tcp_names_Forall d)) in Hscan
    as (Ht & Hm & Hctx).
  2:{ repeat split; intros; apply lookup_empty. }
  assert (Hnot : forall key, key ∈ contextual_keys -> key ∉ dom k0).
  { intros key Hkey. apply not_elem_of_dom. auto. }
  unfold contextual_keys in Hnot.
  split; [|split].
  - intros key Hkey.
    apply contextual_keys_cases in Hkey as [-> | [-> | [-> | ->]]].
    + rewrite !default_NaN_lookup_ne by discriminate.
      apply default_NaN_lookup. apply Hnot. set_solver.
    + rewrite !default_NaN_lookup_ne by discriminate.
      apply default_NaN_lookup. rewrite default_NaN_dom.
      assert ("format" ∉ dom k0) by (apply Hnot; set_solver). set_solver.
    + rewrite !default_NaN_lookup_ne by discriminate.
      apply default_NaN_lookup. rewrite !default_NaN_dom.
      assert ("round" ∉ dom k0) by (apply Hnot; set_solver). set_solver.
    + apply default_NaN_lookup. rewrite !default_NaN_dom.
      assert ("backend" ∉ dom k0) by (apply Hnot; set_solver). set_solver.
  - rewrite !default_NaN_lookup_ne by discriminate. assumption.
  - rewrite !default_NaN_lookup_ne by discriminate. assumption.
Qed.

Lemma sortable_text col :
  forallb text_or_missing col = true -> Pd.sortable col = true.
Proof.
  intros H. unfold Pd.sortable.
  induction col as [|v col IH]; [reflexivity|].
  simpl in H. apply andb_true_iff in H as [Hv H].
  simpl. rewrite negb_orb, (IH H), andb_true_r.
  destruct v as [| | |[]| | |]; try discriminate; reflexivity.
Qed.

Lemma sortable_number col :
  forallb number_or_missing col = true -> Pd.sortable col = true.
Proof.
  intros H. unfold Pd.sortable.
  induction col as [|v col IH]; [reflexivity|].
  simpl in H. apply andb_true_iff in H as [Hv H].
  simpl. rewrite negb_orb, (IH H), andb_true_r.
  destruct v; try discriminate; reflexivity.
Qed.

Lemma to_float64_text b v :
  text_or_missing v = true ->
  text_or_missing (if b : bool then Pd.to_float64 v else v) = true.
Proof.
  destruct b; [|auto]. destruct v as [| | |[]| | |]; try discriminate;
    reflexivity.
Qed.

Lemma to_float64_number b v :
  number_or_missing v = true ->
  number_or_missing (if b : bool then Pd.to_float64 v else v) = true.
Proof. destruct b; [|auto]. destruct v; try discriminate; reflexivity. Qed.

Lemma typed_kpi_cells perf_kpi :
  typed_kpi perf_kpi ->
  let cell c := default Pd.nan (perf_kpi !! c) in
  text_or_missing (cell "backend") = true
  /\ text_or_missing (cell "driver") = true
  /\ text_or_missing (cell "format") = true
  /\ text_or_missing (cell "type") = true
  /\ number_or_missing (cell "msize") = true
  /\ text_or_missing (cell "round") = true.
Proof.
  intros (Hctx & Ht & Hm). cbv beta zeta.
  rewrite (Hctx "backend"), (Hctx "driver"), (Hctx "format"),
    (Hctx "round") by (unfold contextual_keys; set_solver).
  repeat split; first [assumption | reflexivity].
Qed.

(** Report generation does not raise on the dicts of the extractor. *)
Lemma report_frame_sortable kpis :
  Forall typed_kpi kpis ->
  forallb (fun j => Pd.sortable
                      (Pd.column j (map snd (Pd.rows (report_frame kpis)))))
    key_positions = true.
Proof.
  intros Hall. rewrite report_frame_eq. cbn [Pd.rows].
  rewrite snd_imap_label. unfold Pd.infer_objects.
  set (m := map _ kpis).
  cbn [forallb key_positions].
  rewrite !andb_true_iff. repeat split; try reflexivity;
    [apply sortable_text | apply sortable_text | apply sortable_text
    |apply sortable_text | apply sortable_number | apply sortable_text].
  all: apply forallb_forall; intros v Hv; unfold Pd.column in Hv;
    apply in_map_iff in Hv as (r' & <- & Hr');
    apply in_map_iff in Hr' as (r & <- & Hr);
    apply in_map_iff in Hr as (k & <- & Hk);
    rewrite List.Forall_forall in Hall;
    destruct (typed_kpi_cells k (Hall k Hk)) as (H0 & H1 & H2 & H3 & H4 & H5);
    cbn [report_columns map imap nth compose].
  all: first [apply to_float64_text | apply to_float64_number]; assumption.
Qed.

End typed_records.

(** ** Writing a file *)

Section writing.

Lemma write_writable f path content :
  Os.writable f path = true ->
  Os.write f path content = (Py.Ok tt, Os.put path content f).
Proof.
  unfold Os.writable, Os.write.
  destruct (Os.on_write f path); [reflexivity|discriminate..].
Qed.

(** A write that does not go through raises [OSError]; it leaves the file
    system as it was, or the destination with the start of the text. *)
Lemma write_not_writable f path content :
  Os.writable f path = false ->
  exists f',
    Os.write f path content = (Py.Raise Py.OSError, f')
    /\ (f' = f
        \/ exists n, f' = Os.put path (String.substring 0 n content) f).
Proof.
  unfold Os.writable, Os.write.
  destruct (Os.on_write f path) as [| |n]; [discriminate| |]; intros _;
    eexists; (split; [reflexivity|]); [left|right; exists n]; reflexivity.
Qed.

Lemma put_resolve path content f :
  Os.resolve (Os.put path content f) path = Some (Os.File content).
Proof. cbn. rewrite String.eqb_refl. reflexivity. Qed.

Lemma put_resolve_ne path content f p :
  p <> path -> Os.resolve (Os.put path content f) p = Os.resolve f p.
Proof.
  intros Hne. cbn. destruct (String.eqb_spec p path); [contradiction|].
  reflexivity.
Qed.

End writing.

(** ** The whole run *)

Section pipeline.

Variable json_load : string -> option Py.value.
Variable os_system : string -> Os.filesystem -> Os.filesystem.
Variable repr : Py.value -> string.

Lemma endswith_flent s :
  Os.endswith s ".flent" = true ->
  Os.endswith s ".tar.gz" = false /\ String.eqb s "" = false.
Proof.
  unfold Os.endswith. rewrite bool_decide_eq_true. intros [k Hk]. split.
  - apply bool_decide_eq_false. intros [k' Hk']. rewrite Hk in Hk'.
    apply (f_equal last) in Hk'. rewrite !last_app in Hk'. discriminate.
  - destruct s; [|reflexivity]. destruct k; discriminate.
Qed.

(** A plain [.flent] file: its record is appended when the text parses,
    and an error is printed when it does not; then the clean-up runs. *)
Lemma load_entry_plain result_path fname content w :
  Os.endswith (result_path ++ "/" ++ fname) ".flent" = true ->
  Os.resolve (fs w) (result_path ++ "/" ++ fname) = Some (Os.File content) ->
  load_entry json_load os_system result_path fname w
  = cleanup os_system
      match json_load content with
      | Some v => raw_data_list_append v w
      | None => print (ERROR_json_file Py.JSONDecodeError) w
      end.
Proof.
  intros Hflent Hres. destruct (endswith_flent _ Hflent) as [Htar Hne].
  unfold load_entry, tarball_support. unfold Os.sep. rewrite Htar.
  cbn [andb]. unfold load_file. rewrite Hflent.
  unfold Os.isfile. rewrite Hres. cbn [andb].
  unfold _get_raw_data_from_flent_log. rewrite Hne.
  unfold Os.read. rewrite Hres, bind_Ok.
  destruct (json_load content); reflexivity.
Qed.

Lemma rows_round decimals df :
  length (Pd.rows (Pd.round decimals df)) = length (Pd.rows df).
Proof. unfold Pd.round. cbn [Pd.rows]. apply length_map. Qed.

(** On the dicts of the extractor the report is built, with one row for
    each of them. *)
Lemma generate_report_dataframe_typed self w :
  Forall typed_kpi (perf_kpi_list w) ->
  exists df,
    generate_report_dataframe self w = Py.Ok (mkInstance (Some df))
    /\ length (Pd.rows df) = length (perf_kpi_list w).
Proof.
  intros Hall. unfold generate_report_dataframe, _create_report_dataframe.
  fold (report_frame (perf_kpi_list w)).
  pose proof (report_frame_sortable _ Hall) as Hs.
  rewrite report_frame_eq in *. rewrite format_report.
  cbn [Pd.rows] in Hs. rewrite Hs. eexists. split; [reflexivity|].
  rewrite rows_round. cbn [Pd.rows].
  rewrite length_imap, length_map.
  rewrite (Permutation_length (stable_sort_Permutation _)).
  rewrite length_imap. unfold Pd.infer_objects. rewrite !length_map.
  reflexivity.
Qed.

Lemma extracts_typed raw_data perf_kpi :
  extracts raw_data perf_kpi -> typed_kpi perf_kpi.
Proof. rewrite extracts_iff. apply kpis_try_typed. Qed.

Lemma Forall2_extracts_typed todo kpis :
  Forall2 extracts todo kpis -> Forall typed_kpi kpis.
Proof.
  induction 1; constructor; [eapply extracts_typed; eassumption|assumption].
Qed.

(** A run whose records all extract and whose destination can be written
    ends with status 0 and the report in the destination file. *)
Lemma driver_success result_path report_csv w w1 kpis :
  load_raw_data_from_flent_logs json_load os_system new
    {[ "result_path" := result_path ]} w = (Py.Ok 0, w1) ->
  Forall2 extracts (raw_data_list w1) kpis ->
  Forall typed_kpi (perf_kpi_list w1) ->
  Os.writable (fs w1) report_csv = true ->
  exists w' df,
    generate_flent_test_report json_load os_system repr
      result_path report_csv w = (Exit 0, w')
    /\ raw_data_list w' = raw_data_list w1
    /\ perf_kpi_list w' = (perf_kpi_list w1 ++ kpis)%list
    /\ generate_report_dataframe new w' = Py.Ok (mkInstance (Some df))
    /\ length (Pd.rows df) = length (perf_kpi_list w1 ++ kpis)%list
    /\ Os.resolve (fs w') report_csv
       = Some (Os.File (Pd.to_csv repr df)).
Proof.
  intros Hload Hall Htyped Hw.
  unfold generate_flent_test_report. rewrite Hload. cbn [Z.eqb negb].
  unfold calculate_performance_kpis. rewrite (calculate_loop_all _ _ _ Hall).
  cbn [Z.eqb negb].
  set (w2 := mkWorld _ _ _ _).
  destruct (generate_report_dataframe_typed new w2) as (df & Hdf & Hlen).
  { unfold w2. cbn [perf_kpi_list]. apply Forall_app. split; [assumption|].
    eapply Forall2_extracts_typed. eassumption. }
  rewrite Hdf. unfold report_dataframe_to_csv.
  rewrite lookup_singleton_eq. cbn [df_report fs print w2].
  rewrite (write_writable _ _ _ Hw). cbn [Z.eqb negb].
  eexists _, df. split; [reflexivity|].
  split; [reflexivity|]. split; [reflexivity|]. split; [exact Hdf|].
  split; [exact Hlen|].
  cbn. rewrite String.eqb_refl. reflexivity.
Qed.

Lemma infers_float64_single v :
  (if Pd.infers_float64 [v] then Pd.to_float64 v else v) = v.
Proof.
  destruct (Pd.infers_float64 [v]) eqn:E; [|reflexivity].
  destruct v; try reflexivity; exfalso; unfold Pd.infers_float64 in E;
    cbn [forallb existsb Pd.is_int Pd.is_none Pd.is_float negb andb] in E;
    rewrite ?andb_false_r in E; discriminate.
Qed.

Lemma imap_pointwise_id {A} (f : nat -> A -> A) (d : A) (l : list A) :
  (forall j, f j (nth j l d) = nth j l d) -> imap f l = l.
Proof.
  intros H. transitivity (imap (const id) l).
  - apply imap_ext. intros j x Hx.
    specialize (H j). rewrite nth_lookup, Hx in H. exact H.
  - rewrite imap_const. apply list_fmap_id.
Qed.

Lemma imap_pointwise_map {A} (f : nat -> A -> A) (g : A -> A) (d : A)
    (l : list A) :
  (forall j x, l !! j = Some x -> f j x = g x) -> imap f l = map g l.
Proof.
  intros H. transitivity (imap (const g) l).
  - apply imap_ext. exact H.
  - apply imap_const.
Qed.

(** A table of one row keeps its cells as they are. *)
Lemma infer_objects_single r : Pd.infer_objects [r] = [r].
Proof.
  unfold Pd.infer_objects. cbn [map]. f_equal.
  apply (imap_pointwise_id _ Pd.nan). intros j. unfold Pd.column.
  cbn [map]. apply infers_float64_single.
Qed.

(** Rounding a frame of one row rounds each float. *)
Lemma round_single cols label r :
  Pd.round 4 (Pd.mkDataFrame cols [(label, r)])
  = Pd.mkDataFrame cols [(label, map rounded r)].
Proof.
  unfold Pd.round. cbn [Pd.rows Pd.columns map fst snd]. do 3 f_equal.
  apply (imap_pointwise_map _ _ Pd.nan). intros j x Hx.
  unfold Pd.column. cbn [map]. rewrite nth_lookup, Hx. cbn [default].
  destruct x; reflexivity.
Qed.

(** The report of a single record of the extractor is the row of its
    cells, floats rounded, under the label 0. *)
Lemma generate_report_dataframe_single self w perf_kpi :
  perf_kpi_list w = [perf_kpi] ->
  typed_kpi perf_kpi ->
  generate_report_dataframe self w
  = Py.Ok (mkInstance
             (Some (Pd.mkDataFrame display_columns
                      [(0, report_row perf_kpi)]))).
Proof.
  intros Hlist Htyped.
  unfold generate_report_dataframe, _create_report_dataframe.
  fold (report_frame (perf_kpi_list w)).
  assert (Hall : Forall typed_kpi (perf_kpi_list w)).
  { rewrite Hlist. constructor; [assumption|constructor]. }
  pose proof (report_frame_sortable _ Hall) as Hs.
  rewrite report_frame_eq in *. rewrite format_report.
  cbn [Pd.rows] in Hs. rewrite Hs. rewrite Hlist. cbn [map].
  rewrite infer_objects_single.
  cbn [imap Pd.stable_sort foldr Pd.insert_row map snd report_columns take].
  rewrite round_single. unfold report_row. cbn [map report_columns].
  reflexivity.
Qed.

(** The CSV text of a frame of one row labelled 0. *)
Lemma to_csv_single r :
  Pd.to_csv repr (Pd.mkDataFrame display_columns [(0, r)])
  = (header
     ++ Pd.csv_line (repr (Py.Int 0) :: map (Pd.cell_text repr) r))%string.
Proof.
  unfold Pd.to_csv. cbn [Pd.columns Pd.rows map fst snd String.concat].
  reflexivity.
Qed.

End pipeline.

(** ** The order of the report and the order of the input *)

Section order_claims.


End order_claims.


(** Where the proviso of C4 bites beyond equal inputs: beside a missing
    cell, the message sizes [2^63] and [2^63 + 1] are stored as the same
    binary64 number, so the two rows share their sort key although their
    bandwidths differ, and they stay in input order. *)
Lemma large_sizes_share_a_key :
  let missing : gmap string Py.value :=
    default_NaN "backend"
      (default_NaN "round"
         (default_NaN "format" (default_NaN "driver" ∅))) in
  let kpis := [Sample.kpi "tcp_up" (2 ^ 63) 1;
               Sample.kpi "tcp_up" (2 ^ 63 + 1) 2; missing] in
  Pd.column 4 (map snd (Pd.rows (report_frame kpis)))
  = [Py.Float (binary_normalize Py.prec Py.emax (2 ^ 63) 0 false);
     Py.Float (binary_normalize Py.prec Py.emax (2 ^ 63) 0 false); Pd.nan]
  /\ ~ key_determines_row (report_frame kpis).
Proof.
  cbv zeta. split; [vm_compute; reflexivity|].
  intros H.
  specialize (H (0, nth 0 (map snd (Pd.rows (report_frame
                   [Sample.kpi "tcp_up" (2 ^ 63) 1;
                    Sample.kpi "tcp_up" (2 ^ 63 + 1) 2;
                    default_NaN "backend"
                      (default_NaN "round"
                         (default_NaN "format"
                            (default_NaN "driver" ∅)))]))) [])
                (1, nth 1 (map snd (Pd.rows (report_frame
                   [Sample.kpi "tcp_up" (2 ^ 63) 1;
                    Sample.kpi "tcp_up" (2 ^ 63 + 1) 2;
                    default_NaN "backend"
                      (default_NaN "round"
                         (default_NaN "format"
                            (default_NaN "driver" ∅)))]))) [])).
  vm_compute in H.
  specialize (H (or_introl eq_refl) (or_intror (or_introl eq_refl)) eq_refl).
  discriminate.
Qed.

Section pipeline_claims.

Variable json_load : string -> option Py.value.
Variable os_system : string -> Os.filesystem -> Os.filesystem.
Variable repr : Py.value -> string.

(** C8. The accumulators are empty and the loader finds nothing to load:
    the run still ends with status 0, provided the destination can be
    written, and the file holds the header line and nothing else. *)
Theorem C8_empty_report result_path report_csv w w1 :
  perf_kpi_list w = [] ->
  load_raw_data_from_flent_logs json_load os_system new
    {[ "result_path" := result_path ]} w = (Py.Ok 0, w1) ->
  raw_data_list w1 = [] ->
  Os.writable (fs w1) report_csv = true ->
  exists w',
    generate_flent_test_report json_load os_system repr
      result_path report_csv w = (Exit 0, w')
    /\ perf_kpi_list w' = []
    /\ Os.resolve (fs w') report_csv = Some (Os.File header).
Proof.
  intros Hkpi Hload Hraw Hw.
  assert (Hkpi1 : perf_kpi_list w1 = []).
  { destruct (load_raw_data_lists json_load os_system new
                {[ "result_path" := result_path ]} w) as (? & _ & H).
    rewrite Hload in H. cbn [snd] in H. congruence. }
  destruct (driver_success json_load os_system repr result_path report_csv
              w w1 [] Hload)
    as (w' & df & Hrun & _ & Hlist & Hdf & _ & Hfile).
  - rewrite Hraw. constructor.
  - rewrite Hkpi1. constructor.
  - assumption.
  - exists w'. split; [assumption|].
    split; [rewrite Hlist, Hkpi1; reflexivity|].
    rewrite Hkpi1 in Hlist. cbn [app] in Hlist.
    unfold generate_report_dataframe, _create_report_dataframe in Hdf.
    rewrite Hlist in Hdf. vm_compute in Hdf. injection Hdf as <-.
    rewrite Hfile. reflexivity.
Qed.

(** C5. A file that does not parse costs the loader nothing: the loader
    returns 0 for any directory it can list; a [.flent] file whose text is
    not JSON adds no record and one printed line; and a directory with one
    such file and one file whose record extracts, in either order, ends
    with status 0 and a report of one row, the KPIs of the second file:
    the row holds the cells of that record, floats rounded, and the
    destination holds the header line and the line of that row. *)
Theorem C5_unparsable_file_is_skipped :
  (forall self params result_path fnames w,
      params !! "result_path" = Some result_path ->
      Os.listdir (fs w) result_path = Py.Ok fnames ->
      fst (load_raw_data_from_flent_logs json_load os_system self params w)
      = Py.Ok 0)
  /\ (forall filename content w,
         Os.endswith filename ".flent" = true ->
         Os.resolve (fs w) filename = Some (Os.File content) ->
         json_load content = None ->
         load_file json_load filename w
         = print (ERROR_json_file Py.JSONDecodeError) w)
  /\ (forall result_path report_csv bad good bad_text good_text
             raw_data perf_kpi fs0 out,
         Os.listdir fs0 result_path = Py.Ok [bad; good]
         \/ Os.listdir fs0 result_path = Py.Ok [good; bad] ->
         Os.endswith (result_path ++ "/" ++ bad) ".flent" = true ->
         Os.endswith (result_path ++ "/" ++ good) ".flent" = true ->
         Os.resolve fs0 (result_path ++ "/" ++ bad)
         = Some (Os.File bad_text) ->
         json_load bad_text = None ->
         Os.resolve fs0 (result_path ++ "/" ++ good)
         = Some (Os.File good_text) ->
         json_load good_text = Some raw_data ->
         extracts raw_data perf_kpi ->
         cleanup_keeps os_system (result_path ++ "/" ++ bad) ->
         cleanup_keeps os_system (result_path ++ "/" ++ good) ->
         cleanup_keeps os_system report_csv ->
         Os.writable fs0 report_csv = true ->
         exists w' df,
           generate_flent_test_report json_load os_system repr
             result_path report_csv (mkWorld [] [] fs0 out) = (Exit 0, w')
           /\ raw_data_list w' = [raw_data]
           /\ perf_kpi_list w' = [perf_kpi]
           /\ generate_report_dataframe new w' = Py.Ok (mkInstance (Some df))
           /\ length (Pd.rows df) = 1%nat
           /\ Os.resolve (fs w') report_csv
              = Some (Os.File (Pd.to_csv repr df))
           /\ Pd.rows df = [(0, report_row perf_kpi)]
           /\ Os.resolve (fs w') report_csv
              = Some (Os.File (report_text repr perf_kpi))).
Proof.
  split; [|split].
  - intros self params result_path fnames w Hp Hl.
    rewrite (load_raw_data_status _ _ _ _ _ _ _ Hp Hl). reflexivity.
  - intros filename content w Hflent Hres Hjson.
    destruct (endswith_flent _ Hflent) as [_ Hne].
    unfold load_file. rewrite Hflent. unfold Os.isfile. rewrite Hres.
    cbn [andb]. unfold _get_raw_data_from_flent_log. rewrite Hne.
    unfold Os.read. rewrite Hres, bind_Ok, Hjson. reflexivity.
  - intros result_path report_csv bad good bad_text good_text raw_data
      perf_kpi fs0 out Hdir Hb Hg Hbres Hbjson Hgres Hgjson Hk
      Kbad Kgood Kcsv Hw.
    set (w := mkWorld [] [] fs0 out).
    assert (Hload : exists w1,
               load_raw_data_from_flent_logs json_load os_system new
                 {[ "result_path" := result_path ]} w = (Py.Ok 0, w1)
               /\ raw_data_list w1 = [raw_data]
               /\ perf_kpi_list w1 = []
               /\ Os.writable (fs w1) report_csv = true).
    { unfold load_raw_data_from_flent_logs. rewrite lookup_singleton_eq.
      cbn [fs w]. destruct Hdir as [-> | ->]; eexists; (split; [reflexivity|]);
        unfold load_loop; cbn [foldl].
      - rewrite (load_entry_plain _ _ _ _ bad_text w Hb Hbres), Hbjson.
        rewrite (load_entry_plain _ _ _ _ good_text); [|assumption|].
        2:{ cbn [cleanup set_fs fs print w]. rewrite (proj1 (Kgood _)).
            assumption. }
        rewrite Hgjson. cbn. rewrite !(proj2 (Kcsv _)). auto.
      - rewrite (load_entry_plain _ _ _ _ good_text w Hg Hgres), Hgjson.
        rewrite (load_entry_plain _ _ _ _ bad_text); [|assumption|].
        2:{ cbn [cleanup set_fs fs raw_data_list_append w].
            rewrite (proj1 (Kbad _)). assumption. }
        rewrite Hbjson. cbn. rewrite !(proj2 (Kcsv _)). auto. }
    destruct Hload as (w1 & Hload & Hraw & Hkpi & Hw1).
    destruct (driver_success json_load os_system repr result_path report_csv
                w w1 [perf_kpi] Hload)
      as (w' & df & Hrun & Hraw' & Hlist & Hdf & Hlen & Hfile).
    + rewrite Hraw. constructor; [assumption|constructor].
    + rewrite Hkpi. constructor.
    + assumption.
    + rewrite Hkpi in *. cbn [app length] in *.
      assert (Hone : df = Pd.mkDataFrame display_columns
                            [(0, report_row perf_kpi)]).
      { rewrite (generate_report_dataframe_single new w' perf_kpi Hlist)
          in Hdf by (eapply extracts_typed; eassumption).
        congruence. }
      exists w', df. repeat split; try assumption.
      * congruence.
      * rewrite Hone. reflexivity.
      * rewrite Hfile, Hone, to_csv_single. reflexivity.
Qed.

End pipeline_claims.

Lemma C8_empty_report_witness :
  exists w',
    generate_flent_test_report Sample.json_load Sample.os_system Sample.repr
      "logs" "logs/flent_report.csv" (Sample.logs_world [])
    = (Exit 0, w')
    /\ perf_kpi_list w' = []
    /\ Os.resolve (fs w') "logs/flent_report.csv" = Some (Os.File header).
Proof.
  eapply (C8_empty_report Sample.json_load Sample.os_system Sample.repr
            "logs" "logs/flent_report.csv" (Sample.logs_world [])).
  - reflexivity.
  - reflexivity.
  - reflexivity.
  - reflexivity.
Defined.

Lemma C5_unparsable_file_is_skipped_witness :
  exists w' df,
    generate_flent_test_report Sample.json_load Sample.os_system Sample.repr
      "logs" "logs/flent_report.csv"
      (mkWorld [] []
         (Sample.logs_fs [("a.flent", "not json"); ("b.flent", "upload")])
         [])
    = (Exit 0, w')
    /\ raw_data_list w' = [Sample.record [("TCP upload", Sample.upload)]]
    /\ perf_kpi_list w' = [Sample.kpi "tcp_up" 128 941]
    /\ generate_report_dataframe new w' = Py.Ok (mkInstance (Some df))
    /\ length (Pd.rows df) = 1%nat
    /\ Os.resolve (fs w') "logs/flent_report.csv"
       = Some (Os.File (Pd.to_csv Sample.repr df))
    /\ Pd.rows df
       = [(0, [Py.Str "NaN"; Py.Str "NaN"; Py.Str "NaN"; Py.Str "tcp_up";
               Py.Int 128; Py.Str "NaN"; Py.Int 941])]
    /\ Os.resolve (fs w') "logs/flent_report.csv"
       = Some (Os.File
                 (",Backend,Driver,Format,Type,MSize(Kbits),Round,BW(Mbits/s)"
                  ++ Pd.newline
                  ++ "0,NaN,NaN,NaN,tcp_up,128,NaN,941" ++ Pd.newline)).
Proof.
  apply (proj2 (proj2 (C5_unparsable_file_is_skipped Sample.json_load
                         Sample.os_system Sample.repr))
           "logs" "logs/flent_report.csv" "a.flent" "b.flent"
           "not json" "upload").
  - left. reflexivity.
  - reflexivity.
  - reflexivity.
  - reflexivity.
  - reflexivity.
  - reflexivity.
  - reflexivity.
  - intros w. reflexivity.
  - intros f. split; reflexivity.
  - intros f. split; reflexivity.
  - intros f. split; reflexivity.
  - reflexivity.
Defined.

(** ** Rounding, on an example *)

(** [np.round(x, 4)] takes the binary64 number nearest to 123.456789 to
    the binary64 number nearest to 123.4568. *)
Example np_round_123_456789 :
  Pd.np_round 4
    (SFdiv Py.prec Py.emax
       (binary_normalize Py.prec Py.emax 123456789 0 false)
       (binary_normalize Py.prec Py.emax 1000000 0 false))
  = SFdiv Py.prec Py.emax
      (binary_normalize Py.prec Py.emax 1234568 0 false)
      (binary_normalize Py.prec Py.emax 10000 0 false).
Proof. vm_compute. reflexivity. Qed.

(** * Further properties *)

(** ** The pattern of the test type *)

Section regex_more.

Lemma not_dot_is_space c : Re.is_dot c = false -> Re.is_space c = true.
Proof.
  destruct c as [[] [] [] [] [] [] [] []]; try discriminate; reflexivity.
Qed.

Lemma lazy_group_token token c post :
  no_space token -> Re.is_space c = true ->
  Re.lazy_group (token ++ String c post) = Some token.
Proof.
  unfold no_space. intros Htoken Hc.
  induction token as [|x token IH]; simpl.
  - rewrite Hc. reflexivity.
  - simpl in Htoken. inversion Htoken as [|? ? Hx Hrest]; subst.
    rewrite Hx. destruct (Re.is_dot x) eqn:Hdot.
    + rewrite (IH Hrest). reflexivity.
    + apply not_dot_is_space in Hdot. congruence.
Qed.

Lemma lazy_group_blank mid c post :
  Re.is_space c = true ->
  exists g, Re.lazy_group (mid ++ String c post) = Some g.
Proof.
  intros Hc. induction mid as [|x mid [g IH]]; simpl.
  - rewrite Hc. eauto.
  - destruct (Re.is_space x) eqn:Hx; [eauto|].
    destruct (Re.is_dot x) eqn:Hdot.
    + rewrite IH. eauto.
    + apply not_dot_is_space in Hdot. congruence.
Qed.

Lemma space_not_flag c :
  Re.is_space c = true -> Ascii.eqb c "-" = false /\ Ascii.eqb c "t" = false.
Proof.
  destruct c as [[] [] [] [] [] [] [] []]; try discriminate; split; reflexivity.
Qed.

(** No match starts inside a prefix when the head of the pattern does not
    occur in the prefix and the blank that follows it. *)
Lemma match_here_no_flag a pre c0 tail :
  delimited_flag (String a (pre ++ String c0 EmptyString)) = false ->
  Re.is_space c0 = true ->
  Re.match_here (String a (pre ++ String c0 tail)) = None.
Proof.
  intros Hpre Hc0. destruct (space_not_flag _ Hc0) as [Hd Ht].
  unfold Re.match_here.
  destruct pre as [|x [|y [|z pre]]].
  - simpl. destruct tail as [|? [|? ?]]; try reflexivity.
    rewrite Hd, andb_false_r. reflexivity.
  - simpl. destruct tail as [|? ?]; try reflexivity.
    rewrite Ht, andb_false_r. reflexivity.
  - change (delimited_flag
              (String a (String x (String y (String c0 EmptyString))))
            = false) in Hpre.
    cbn [delimited_flag] in Hpre.
    apply orb_false_iff in Hpre as [Hp _].
    change (String x (String y EmptyString) ++ String c0 tail)%string
      with (String x (String y (String c0 tail))).
    cbv iota. rewrite Hp. reflexivity.
  - change (String x (String y (String z pre)) ++ ?t)%string
      with (String x (String y (String z (pre ++ t)))) in *.
    cbn [delimited_flag] in Hpre.
    apply orb_false_iff in Hpre as [Hp _].
    cbv iota. rewrite Hp. reflexivity.
Qed.

Lemma delimited_flag_tail a s :
  delimited_flag (String a s) = false -> delimited_flag s = false.
Proof.
  cbn [delimited_flag]. intros H. apply orb_false_iff in H. tauto.
Qed.

(** The test type is the word after the first whitespace-delimited [-t]:
    when the head of the pattern (a blank, [-t], a blank) does not occur
    before the flag, up to and including the blank in front of it, the
    search returns the word between the blank after the flag and the next
    blank. A [-t] inside a word of the prefix does not count. *)
Theorem search_first_flag pre c0 c1 token c2 post :
  delimited_flag (pre ++ String c0 EmptyString) = false ->
  Re.is_space c0 = true -> Re.is_space c1 = true -> Re.is_space c2 = true ->
  no_space token ->
  Re.search (pre ++ String c0 ("-t" ++ String c1 (token ++ String c2 post)))
  = Some token.
Proof.
  intros Hpre H0 H1 H2 Htoken.
  induction pre as [|a pre IH].
  - change (Re.search
              (String c0 (String "-" (String "t"
                 (String c1 (token ++ String c2 post))))) = Some token).
    cbn [Re.search Re.match_here].
    rewrite H0, H1. cbn [Ascii.eqb Bool.eqb andb].
    rewrite (lazy_group_token _ _ _ Htoken H2). reflexivity.
  - change (String a pre ++ ?x)%string with (String a (pre ++ x)) in *.
    cbn [Re.search].
    rewrite (match_here_no_flag a pre c0 _ Hpre H0).
    apply IH. eapply delimited_flag_tail. eassumption.
Qed.

Lemma search_first_flag_witness :
  Re.search ("flent-tokyo -H host-t" ++ String " " ("-t" ++ String " "
                ("tcp_up" ++ String " " "-t tcp_down -l 60")))
  = Some "tcp_up".
Proof.
  apply search_first_flag; try reflexivity.
  repeat constructor.
Defined.

(** The search succeeds exactly on the commands that hold a blank, [-t],
    a blank, and a blank somewhere after. *)
Theorem search_succeeds_iff s :
  (exists g, Re.search s = Some g)
  <-> exists pre c0 c1 mid c2 post,
        s = (pre ++ String c0 ("-t" ++ String c1 (mid ++ String c2 post)))%string
        /\ Re.is_space c0 = true /\ Re.is_space c1 = true
        /\ Re.is_space c2 = true.
Proof.
  split.
  - intros [g H]. apply search_spec in H
      as (pre & c0 & c1 & c2 & post & -> & H0 & H1 & H2 & _).
    exists pre, c0, c1, g, c2, post. auto.
  - intros (pre & c0 & c1 & mid & c2 & post & -> & H0 & H1 & H2).
    induction pre as [|a pre IH].
    + change (exists g,
                 Re.search
                   (String c0 (String "-" (String "t"
                      (String c1 (mid ++ String c2 post))))) = Some g).
      cbn [Re.search Re.match_here].
      rewrite H0, H1. cbn [Ascii.eqb Bool.eqb andb].
      destruct (lazy_group_blank mid c2 post H2) as [g ->]. eauto.
    + change (String a pre ++ ?x)%string with (String a (pre ++ x)).
      cbn [Re.search]. destruct (Re.match_here _); eauto.
Qed.

End regex_more.

(** ** More on the extractor *)

Section extractor_more.

Lemma getitem_Dict_inv d name series :
  Py.getitem (Py.Dict d) name = Py.Ok series ->
  Py.dict_get name d = Some series.
Proof.
  simpl. destruct (Py.dict_get name d); [congruence|discriminate].
Qed.

(** After the loop, the three derived fields are those of the last TCP
    series visited. *)
Lemma scan_series_last series_meta names name perf_kpi perf_kpi' :
  Forall (fun n => is_tcp_series n = true) names ->
  last names = Some name ->
  scan_series series_meta names perf_kpi = Py.Ok perf_kpi' ->
  exists series type bw msize,
    Py.getitem series_meta name = Py.Ok series
    /\ derived series type bw msize
    /\ perf_kpi' !! "type" = Some (Py.Str type)
    /\ perf_kpi' !! "bw" = Some bw
    /\ perf_kpi' !! "msize" = Some msize.
Proof.
  intros Hall. revert perf_kpi.
  induction Hall as [|n names Htcp Hall IH]; intros perf_kpi Hlast H;
    [discriminate|].
  cbn [scan_series] in H. bind_inversion H k1 H1.
  destruct names as [|n' names].
  - injection Hlast as <-. injection H as <-.
    apply (series_kpis_tcp_inv _ _ _ _ Htcp) in H1
      as (series & type & bw & msize & Hs & Hder & ->).
    exists series, type, bw, msize. simplify_map_eq. auto.
  - rewrite last_cons_cons in Hlast. eapply IH; eassumption.
Qed.

Lemma defaults_lookup key (k0 : gmap string Py.value) :
  key ∉ contextual_keys ->
  default_NaN "backend"
    (default_NaN "round" (default_NaN "format" (default_NaN "driver" k0)))
  !! key = k0 !! key.
Proof.
  intros H. unfold contextual_keys in H.
  rewrite !default_NaN_lookup_ne by set_solver. reflexivity.
Qed.

Lemma extracted_last raw_data d name perf_kpi :
  extracts raw_data perf_kpi ->
  series_meta_of raw_data d ->
  last (tcp_names d) = Some name ->
  exists series type bw msize,
    Py.dict_get name d = Some series
    /\ derived series type bw msize
    /\ perf_kpi !! "type" = Some (Py.Str type)
    /\ perf_kpi !! "bw" = Some bw
    /\ perf_kpi !! "msize" = Some msize.
Proof.
  intros Hk Hd Hlast. apply extracts_iff in Hk.
  rewrite (kpis_try_unfold _ _ Hd) in Hk. bind_inversion Hk k0 Hscan.
  injection Hk as <-.
  destruct (scan_series_last _ _ _ _ _ (tcp_names_Forall d) Hlast Hscan)
    as (series & type & bw & msize & Hs & Hder & Ht & Hb & Hm).
  exists series, type, bw, msize.
  rewrite !defaults_lookup by (unfold contextual_keys; set_solver).
  apply getitem_Dict_inv in Hs. auto.
Qed.

(** However many TCP series the map has, a successful extraction returns
    the fields derived from the last one in iteration order. *)
Theorem extracted_fields_are_the_last_series raw_data d name perf_kpi :
  extracts raw_data perf_kpi ->
  series_meta_of raw_data d ->
  last (tcp_names d) = Some name ->
  exists series type bw msize,
    Py.dict_get name d = Some series
    /\ derived series type bw msize
    /\ perf_kpi !! "type" = Some (Py.Str type)
    /\ perf_kpi !! "bw" = Some bw
    /\ perf_kpi !! "msize" = Some msize.
Proof. apply extracted_last. Qed.

(** The extracted test type never holds a whitespace character. *)
Theorem extracted_type_has_no_blank raw_data d name perf_kpi :
  extracts raw_data perf_kpi ->
  series_meta_of raw_data d ->
  last (tcp_names d) = Some name ->
  exists type,
    perf_kpi !! "type" = Some (Py.Str type) /\ no_space type.
Proof.
  intros Hk Hd Hlast.
  destruct (extracted_last _ _ _ _ Hk Hd Hlast)
    as (series & type & bw & msize & _ & Hder & Ht & _).
  exists type. split; [assumption|].
  destruct Hder as (command & ? & _ & Hs & _).
  apply search_spec in Hs as (? & ? & ? & ? & ? & _ & _ & _ & _ & Hg).
  exact Hg.
Qed.

(** For an integer [SEND_SIZE] the message size is the floor of
    [SEND_SIZE / 1024], also below zero:
    [1024 * msize <= SEND_SIZE < 1024 * (msize + 1)]. *)
Theorem extracted_msize_is_floor raw_data d name series send_size perf_kpi :
  extracts raw_data perf_kpi ->
  series_meta_of raw_data d ->
  last (tcp_names d) = Some name ->
  Py.dict_get name d = Some series ->
  Py.getitem series "SEND_SIZE" = Py.Ok (Py.Int send_size) ->
  exists msize,
    perf_kpi !! "msize" = Some (Py.Int msize)
    /\ 1024 * msize <= send_size < 1024 * (msize + 1).
Proof.
  intros Hk Hd Hlast Hget Hsend.
  destruct (extracted_last _ _ _ _ Hk Hd Hlast)
    as (series' & type & bw & msize & Hget' & Hder & _ & _ & Hm).
  assert (series' = series) by congruence. subst series'.
  destruct Hder as (? & s & _ & _ & _ & _ & Hs & Hdiv).
  rewrite Hsend in Hs. injection Hs as <-. simpl in Hdiv.
  injection Hdiv as <-. exists (send_size / 1024). split; [assumption|].
  pose proof (Z.div_mod send_size 1024 ltac:(lia)).
  pose proof (Z.mod_pos_bound send_size 1024 ltac:(lia)). lia.
Qed.

Lemma scan_series_all_derived d names perf_kpi :
  Forall (fun name => is_tcp_series name = true) names ->
  Forall (fun name =>
            exists series type bw msize,
              Py.dict_get name d = Some series
              /\ derived series type bw msize) names ->
  exists perf_kpi', scan_series (Py.Dict d) names perf_kpi = Py.Ok perf_kpi'.
Proof.
  intros Htcp Hall. revert perf_kpi.
  induction Hall as [|name names (series & t & b & m & Hget & Hder) _ IH];
    intros perf_kpi; [simpl; eauto|].
  inversion Htcp as [|? ? Hn Hrest]; subst.
  cbn [scan_series].
  rewrite (series_kpis_tcp _ _ _ _ _ _ _ Hn Hget Hder), bind_Ok.
  apply IH. assumption.
Qed.

Lemma scan_series_Ok_derived d names perf_kpi perf_kpi' :
  Forall (fun name => is_tcp_series name = true) names ->
  scan_series (Py.Dict d) names perf_kpi = Py.Ok perf_kpi' ->
  Forall (fun name =>
            exists series type bw msize,
              Py.dict_get name d = Some series
              /\ derived series type bw msize) names.
Proof.
  intros Htcp. revert perf_kpi.
  induction Htcp as [|name names Hn _ IH]; intros perf_kpi H; [constructor|].
  cbn [scan_series] in H. bind_inversion H k1 H1.
  constructor; [|eapply IH; eassumption].
  apply (series_kpis_tcp_inv _ _ _ _ Hn) in H1
    as (series & type & bw & msize & Hs & Hder & _).
  apply getitem_Dict_inv in Hs. eauto 6.
Qed.

Lemma series_meta_of_unique raw_data d1 d2 :
  series_meta_of raw_data d1 -> series_meta_of raw_data d2 -> d1 = d2.
Proof. intros (m1 & H1 & H1') (m2 & H2 & H2'). congruence. Qed.

(** Extraction succeeds on the well-formed records and on no other: the
    record must have [metadata] and, in it, a mapping [SERIES_META], and
    each TCP series must have a [COMMAND] the pattern matches, [UNITS]
    "Mbits/s", a [MEAN_VALUE] and a numeric [SEND_SIZE]. Every other record
    gives the failure status. *)
Theorem extraction_succeeds_iff_well_formed raw_data :
  ((exists perf_kpi, extracts raw_data perf_kpi)
   <-> well_formed_record raw_data)
  /\ (extraction_fails raw_data <-> ~ well_formed_record raw_data).
Proof.
  assert (Hiff : (exists perf_kpi, extracts raw_data perf_kpi)
                 <-> well_formed_record raw_data).
  { split.
    - intros [k Hk]. apply extracts_iff in Hk.
      destruct (kpis_try_series_meta _ _ Hk) as (d & Hd).
      exists d. split; [assumption|].
      rewrite (kpis_try_unfold _ _ Hd) in Hk. bind_inversion Hk k0 Hscan.
      eapply scan_series_Ok_derived; [apply tcp_names_Forall|eassumption].
    - intros (d & Hd & Hall).
      destruct (scan_series_all_derived d (tcp_names d) ∅
                  (tcp_names_Forall d) Hall) as (k0 & Hscan).
      eexists. apply extracts_iff.
      rewrite (kpis_try_unfold _ _ Hd), Hscan, bind_Ok. reflexivity. }
  split; [exact Hiff|].
  rewrite <- Hiff, extraction_fails_iff. split.
  - intros [err Herr] [k Hk]. apply extracts_iff in Hk. congruence.
  - intros Hno. destruct (kpis_try raw_data) as [k|err] eqn:Hk; [|eauto].
    exfalso. apply Hno. exists k. apply extracts_iff. assumption.
Qed.

Lemma tcp_names_entries d : tcp_names d = map fst (tcp_entries d).
Proof.
  unfold tcp_names, tcp_entries. induction d as [|[k v] d IH]; simpl;
    [reflexivity|].
  destruct (is_tcp_series k); simpl; rewrite IH; reflexivity.
Qed.

Lemma dict_get_tcp_entries name d :
  is_tcp_series name = true ->
  Py.dict_get name (tcp_entries d) = Py.dict_get name d.
Proof.
  intros Htcp. unfold tcp_entries. induction d as [|[k v] d IH]; simpl;
    [reflexivity|].
  destruct (is_tcp_series k) eqn:Hk; simpl.
  - rewrite IH. reflexivity.
  - destruct (String.eqb_spec name k); [congruence|assumption].
Qed.

Lemma series_kpis_ext d1 d2 name perf_kpi :
  is_tcp_series name = true ->
  Py.dict_get name d1 = Py.dict_get name d2 ->
  series_kpis (Py.Dict d1) name perf_kpi
  = series_kpis (Py.Dict d2) name perf_kpi.
Proof.
  intros Htcp H. unfold series_kpis, Py.getitem. rewrite H. reflexivity.
Qed.

(** Only the TCP series count: two records whose series maps have the same
    TCP entries, in the same order, are extracted alike, whatever other
    series the maps hold and whatever those series contain. *)
Theorem other_series_are_ignored raw_data1 raw_data2 d1 d2 w :
  series_meta_of raw_data1 d1 ->
  series_meta_of raw_data2 d2 ->
  tcp_entries d1 = tcp_entries d2 ->
  _get_kpis_from_raw_data raw_data1 w = _get_kpis_from_raw_data raw_data2 w.
Proof.
  intros H1 H2 Heq. unfold _get_kpis_from_raw_data.
  rewrite (series_meta_not_empty_string _ _ H1),
    (series_meta_not_empty_string _ _ H2).
  rewrite (kpis_try_unfold _ _ H1), (kpis_try_unfold _ _ H2).
  rewrite !tcp_names_entries, Heq.
  assert (Hscan : forall names k,
             Forall (fun n => is_tcp_series n = true) names ->
             scan_series (Py.Dict d1) names k
             = scan_series (Py.Dict d2) names k).
  { intros names k Hall. revert k.
    induction Hall as [|n names Hn _ IH]; intros k; [reflexivity|].
    cbn [scan_series].
    rewrite (series_kpis_ext d1 d2 n k Hn).
    - destruct (series_kpis (Py.Dict d2) n k); [rewrite !bind_Ok; apply IH|].
      reflexivity.
    - rewrite <- (dict_get_tcp_entries n d1 Hn),
        <- (dict_get_tcp_entries n d2 Hn), Heq. reflexivity. }
  rewrite Hscan; [reflexivity|].
  rewrite <- tcp_names_entries. apply tcp_names_Forall.
Qed.

End extractor_more.

Lemma extracted_fields_are_the_last_series_witness :
  exists series type bw msize,
    Py.dict_get "TCP download"
      [("TCP upload", Sample.upload); ("TCP download", Sample.download)]
    = Some series
    /\ derived series type bw msize
    /\ Sample.kpi "tcp_down" 64 512 !! "type" = Some (Py.Str type)
    /\ Sample.kpi "tcp_down" 64 512 !! "bw" = Some bw
    /\ Sample.kpi "tcp_down" 64 512 !! "msize" = Some msize.
Proof.
  apply (extracted_fields_are_the_last_series
           (Sample.record [("TCP upload", Sample.upload);
                           ("TCP download", Sample.download)])).
  - intros w. reflexivity.
  - eexists. split; reflexivity.
  - reflexivity.
Defined.

Lemma extracted_type_has_no_blank_witness :
  exists type,
    Sample.kpi "tcp_up" 128 941 !! "type" = Some (Py.Str type)
    /\ no_space type.
Proof.
  apply (extracted_type_has_no_blank
           (Sample.record [("TCP upload", Sample.upload)])
           [("TCP upload", Sample.upload)] "TCP upload").
  - intros w. reflexivity.
  - eexists. split; reflexivity.
  - reflexivity.
Defined.

Lemma extracted_msize_is_floor_witness :
  exists msize,
    Sample.kpi "tcp_up" 128 941 !! "msize" = Some (Py.Int msize)
    /\ 1024 * msize <= 131072 < 1024 * (msize + 1).
Proof.
  apply (extracted_msize_is_floor
           (Sample.record [("TCP upload", Sample.upload)])
           [("TCP upload", Sample.upload)] "TCP upload" Sample.upload).
  - intros w. reflexivity.
  - eexists. split; reflexivity.
  - reflexivity.
  - reflexivity.
  - reflexivity.
Defined.

Lemma other_series_are_ignored_witness :
  _get_kpis_from_raw_data
    (Sample.record [("Ping (ms) ICMP", Py.None_);
                    ("TCP upload", Sample.upload);
                    ("UDP stream", Py.Str "anything")])
    Sample.empty_world
  = _get_kpis_from_raw_data
      (Sample.record [("TCP upload", Sample.upload)]) Sample.empty_world.
Proof.
  eapply other_series_are_ignored.
  - eexists. split; reflexivity.
  - eexists. split; reflexivity.
  - reflexivity.
Defined.

(** ** More on the batch stage *)

Section batch_more.

Lemma calculate_loop_status_0 todo w :
  fst (calculate_loop todo w) = 0 ->
  exists kpis, Forall2 extracts todo kpis.
Proof.
  revert w. induction todo as [|raw_data todo IH]; intros w H.
  - exists []. constructor.
  - cbn [calculate_loop] in H.
    destruct (_get_kpis_from_raw_data raw_data w) as [[result k] w1] eqn:Hk.
    apply _get_kpis_from_raw_data_inv in Hk
      as [(-> & -> & k' & -> & Hk) | (-> & -> & _)].
    + cbn [Z.eqb] in H. destruct (IH _ H) as (kpis & Hall).
      exists (k' :: kpis). constructor; [|assumption].
      apply extracts_iff. assumption.
    + discriminate.
Qed.

Lemma calculate_loop_stdout todo w :
  stdout (snd (calculate_loop todo w)) = stdout w
  \/ exists m, stdout (snd (calculate_loop todo w)) = (stdout w ++ [m])%list.
Proof.
  revert w. induction todo as [|raw_data todo IH]; intros w; [left; reflexivity|].
  cbn [calculate_loop].
  destruct (_get_kpis_from_raw_data raw_data w) as [[result k] w1] eqn:Hk.
  unfold _get_kpis_from_raw_data in Hk.
  destruct (Py.eq_str raw_data "").
  - injection Hk as <- <- <-. right. eexists. reflexivity.
  - destruct (kpis_try raw_data).
    + injection Hk as <- <- <-. cbn [Z.eqb].
      apply (IH (perf_kpi_list_append _ w)).
    + injection Hk as <- <- <-. right. eexists. reflexivity.
Qed.

Lemma calculate_loop_status_01 todo w :
  fst (calculate_loop todo w) = 0 \/ fst (calculate_loop todo w) = 1.
Proof.
  revert w. induction todo as [|raw_data todo IH]; intros w;
    [left; reflexivity|].
  cbn [calculate_loop].
  destruct (_get_kpis_from_raw_data raw_data w) as [[result k] w1] eqn:Hk.
  apply _get_kpis_from_raw_data_inv in Hk
    as [(-> & -> & k' & -> & _) | (-> & -> & _)].
  - cbn [Z.eqb]. apply IH.
  - right. reflexivity.
Qed.

(** The batch stage returns 0 exactly when every loaded record extracts,
    and then it has appended their KPIs, in order, and printed nothing;
    otherwise it returns 1. *)
Theorem calculate_returns_0_iff_all_extract self w :
  (fst (calculate_performance_kpis self w) = 0
   <-> exists kpis, Forall2 extracts (raw_data_list w) kpis)
  /\ (forall kpis,
         Forall2 extracts (raw_data_list w) kpis ->
         calculate_performance_kpis self w
         = (0, mkWorld (raw_data_list w) (perf_kpi_list w ++ kpis) (fs w)
                 (stdout w)))
  /\ (fst (calculate_performance_kpis self w) = 0
      \/ fst (calculate_performance_kpis self w) = 1).
Proof.
  unfold calculate_performance_kpis. split; [split|split].
  - apply calculate_loop_status_0.
  - intros [kpis H]. rewrite (calculate_loop_all _ _ _ H). reflexivity.
  - intros kpis H. apply calculate_loop_all. assumption.
  - apply calculate_loop_status_01.
Qed.

(** The batch stage reads the raw-data list and never changes it, nor any
    file; it only appends to the KPI list, and prints one line at most. *)
Theorem calculate_leaves_its_input self w :
  let w' := snd (calculate_performance_kpis self w) in
  raw_data_list w' = raw_data_list w
  /\ fs w' = fs w
  /\ (exists new, perf_kpi_list w' = (perf_kpi_list w ++ new)%list)
  /\ (stdout w' = stdout w \/ exists m, stdout w' = (stdout w ++ [m])%list).
Proof.
  cbv zeta. unfold calculate_performance_kpis.
  destruct (calculate_loop_lists (raw_data_list w) w) as (Hraw & Hkpi).
  repeat split; [assumption|apply calculate_loop_fs|assumption|].
  apply calculate_loop_stdout.
Qed.

Lemma calculate_loop_typed todo w :
  Forall typed_kpi (perf_kpi_list w) ->
  Forall typed_kpi (perf_kpi_list (snd (calculate_loop todo w))).
Proof.
  revert w. induction todo as [|raw_data todo IH]; intros w H; [assumption|].
  cbn [calculate_loop].
  destruct (_get_kpis_from_raw_data raw_data w) as [[result k] w1] eqn:Hk.
  apply _get_kpis_from_raw_data_inv in Hk
    as [(-> & -> & k' & -> & Hk) | (-> & -> & _ & Hlist & _)].
  - cbn [Z.eqb]. apply IH. cbn. apply Forall_app. split; [assumption|].
    constructor; [|constructor]. eapply kpis_try_typed. eassumption.
  - cbn. rewrite Hlist. assumption.
Qed.

(** Whatever the batch stage has appended, the report can be built from
    it: after the stage, [generate_report_dataframe] does not raise and
    the frame has a row for every KPI record. *)
Theorem report_is_built_after_the_batch_stage self w :
  Forall typed_kpi (perf_kpi_list w) ->
  exists df,
    generate_report_dataframe self
      (snd (calculate_performance_kpis self w))
    = Py.Ok (mkInstance (Some df))
    /\ length (Pd.rows df)
       = length (perf_kpi_list (snd (calculate_performance_kpis self w))).
Proof.
  intros H. apply generate_report_dataframe_typed.
  apply calculate_loop_typed. assumption.
Qed.

End batch_more.

Lemma report_is_built_after_the_batch_stage_witness :
  exists df,
    generate_report_dataframe new
      (snd (calculate_performance_kpis new
              (mkWorld [Sample.record [("TCP upload", Sample.upload)];
                        Sample.record [("Ping (ms) ICMP", Py.None_)]]
                 [] Sample.empty_fs [])))
    = Py.Ok (mkInstance (Some df))
    /\ length (Pd.rows df)
       = length (perf_kpi_list
                   (snd (calculate_performance_kpis new
                           (mkWorld
                              [Sample.record [("TCP upload", Sample.upload)];
                               Sample.record [("Ping (ms) ICMP", Py.None_)]]
                              [] Sample.empty_fs [])))).
Proof.
  apply report_is_built_after_the_batch_stage. constructor.
Defined.

(** ** More on the loader *)

Section loader_more.

Variable json_load : string -> option Py.value.
Variable os_system : string -> Os.filesystem -> Os.filesystem.
Variable repr : Py.value -> string.

Lemma load_entry_not_a_file result_path fname w :
  Os.isfile (fs w) (result_path ++ "/" ++ fname) = false ->
  load_entry json_load os_system result_path fname w = cleanup os_system w.
Proof.
  intros H. unfold load_entry, tarball_support, load_file. unfold Os.sep.
  rewrite H, andb_false_r. cbv iota beta zeta.
  rewrite H, andb_false_r. reflexivity.
Qed.

Lemma load_entry_other_suffix result_path fname w :
  Os.endswith (result_path ++ "/" ++ fname) ".tar.gz" = false ->
  Os.endswith (result_path ++ "/" ++ fname) ".flent" = false ->
  load_entry json_load os_system result_path fname w = cleanup os_system w.
Proof.
  intros H1 H2. unfold load_entry, tarball_support, load_file.
  unfold Os.sep. rewrite H1. cbn [andb]. rewrite H2. reflexivity.
Qed.

(** Entries that are not regular files, and files that are neither
    [.tar.gz] nor [.flent], are passed over: nothing is loaded, nothing is
    printed, only the clean-up command runs. *)
Theorem other_entries_are_skipped result_path fname w :
  Os.isfile (fs w) (result_path ++ "/" ++ fname) = false
  \/ (Os.endswith (result_path ++ "/" ++ fname) ".tar.gz" = false
      /\ Os.endswith (result_path ++ "/" ++ fname) ".flent" = false) ->
  load_entry json_load os_system result_path fname w = cleanup os_system w.
Proof.
  intros [H | [H1 H2]].
  - apply load_entry_not_a_file. assumption.
  - apply load_entry_other_suffix; assumption.
Qed.

(** A tarball whose unpacking leaves no regular file of the expected name
    in the scratch folder is passed over without a message. *)
Theorem tarball_without_log_is_skipped result_path fname w :
  Os.endswith (result_path ++ "/" ++ fname) ".tar.gz" = true ->
  Os.isfile (fs w) (result_path ++ "/" ++ fname) = true ->
  Os.isfile
    (os_system
       ("tar xf " ++ (result_path ++ "/" ++ fname) ++ " -C " ++ tmpfolder)
       (os_system ("mkdir -p " ++ tmpfolder) (fs w)))
    (tmpfolder ++ "/" ++ Os.replace fname ".tar.gz" ".flent") = false ->
  raw_data_list (load_entry json_load os_system result_path fname w)
  = raw_data_list w
  /\ perf_kpi_list (load_entry json_load os_system result_path fname w)
     = perf_kpi_list w
  /\ stdout (load_entry json_load os_system result_path fname w) = stdout w.
Proof.
  intros Htar Hfile Hnone.
  unfold load_entry, tarball_support, load_file. unfold Os.sep.
  rewrite Htar, Hfile. cbn [andb set_fs fs]. rewrite Hnone, andb_false_r.
  auto.
Qed.

Lemma list_ascii_of_string_app s1 s2 :
  list_ascii_of_string (s1 ++ s2)
  = (list_ascii_of_string s1 ++ list_ascii_of_string s2)%list.
Proof. induction s1 as [|c s1 IH]; simpl; [|rewrite IH]; reflexivity. Qed.

Lemma endswith_last s suffix :
  Os.endswith s suffix = true ->
  last (list_ascii_of_string suffix) = None
  \/ last (list_ascii_of_string s) = last (list_ascii_of_string suffix).
Proof.
  unfold Os.endswith. rewrite bool_decide_eq_true. intros [k ->].
  rewrite last_app. destruct (last (list_ascii_of_string suffix)); auto.
Qed.

Lemma default_report_is_no_log result_path :
  Os.endswith (default_report_csv result_path) ".tar.gz" = false
  /\ Os.endswith (default_report_csv result_path) ".flent" = false.
Proof.
  assert (Hlast : last (list_ascii_of_string (default_report_csv result_path))
                  = Some "v"%char).
  { unfold default_report_csv. rewrite !list_ascii_of_string_app, !last_app.
    reflexivity. }
  split.
  - destruct (Os.endswith _ ".tar.gz") eqn:H; [|reflexivity].
    apply endswith_last in H as [H | H]; [discriminate|].
    rewrite Hlast in H. discriminate.
  - destruct (Os.endswith _ ".flent") eqn:H; [|reflexivity].
    apply endswith_last in H as [H | H]; [discriminate|].
    rewrite Hlast in H. discriminate.
Qed.

(** Without [--report_csv] the report goes to [flent_report.csv] in the
    directory of the logs, and a later run on that directory does not take
    the report for a log: its entry is passed over. *)
Theorem default_report_is_not_reloaded result_path w :
  result_path <> "" ->
  cli json_load os_system repr (Some result_path) None w
  = ([WARNING_no_report_csv result_path],
     generate_flent_test_report json_load os_system repr result_path
       (result_path ++ "/" ++ "flent_report.csv") w)
  /\ forall w2,
      load_entry json_load os_system result_path "flent_report.csv" w2
      = cleanup os_system w2.
Proof.
  intros Hne. split.
  - unfold cli, not_given.
    destruct (String.eqb_spec result_path ""); [contradiction|reflexivity].
  - intros w2.
    apply load_entry_other_suffix; apply (default_report_is_no_log result_path).
Qed.

(** Without [--result_path], or with an empty one, [cli] prints an error
    and exits with status 1 before any stage has run. *)
Lemma cli_needs_a_result_path result_path report_csv w :
  not_given result_path = true ->
  cli json_load os_system repr result_path report_csv w
  = ([ERROR_missing_parameter], (Exit 1, w)).
Proof.
  intros H. unfold cli. destruct result_path; [rewrite H|]; reflexivity.
Qed.

Lemma load_entry_flent result_path name w :
  Os.endswith (result_path ++ "/" ++ name) ".flent" = true ->
  raw_data_list (load_entry json_load os_system result_path name w)
  = (raw_data_list w
     ++ option_list
          (parsed_record json_load (fs w) (result_path ++ "/" ++ name)))%list
  /\ fs (load_entry json_load os_system result_path name w)
     = os_system cleanup_command (fs w).
Proof.
  intros Hflent. unfold parsed_record.
  destruct (Os.resolve (fs w) (result_path ++ "/" ++ name))
    as [[content|entries]|] eqn:Hres.
  - rewrite (load_entry_plain _ _ _ _ content w Hflent Hres).
    destruct (json_load content); cbn; rewrite ?app_nil_r; auto.
  - rewrite load_entry_not_a_file
      by (unfold Os.isfile; rewrite Hres; reflexivity).
    cbn. rewrite app_nil_r. auto.
  - rewrite load_entry_not_a_file
      by (unfold Os.isfile; rewrite Hres; reflexivity).
    cbn. rewrite app_nil_r. auto.
Qed.

Lemma load_loop_flent result_path names w :
  Forall (fun name =>
            Os.endswith (result_path ++ "/" ++ name) ".flent" = true
            /\ cleanup_keeps os_system (result_path ++ "/" ++ name)) names ->
  raw_data_list (load_loop json_load os_system result_path names w)
  = (raw_data_list w
     ++ omap (fun name =>
                parsed_record json_load (fs w) (result_path ++ "/" ++ name))
          names)%list.
Proof.
  intros Hall. revert w.
  induction Hall as [|name names [Hflent Hkeep] Hall IH]; intros w.
  - cbn. rewrite app_nil_r. reflexivity.
  - unfold load_loop in *. cbn [foldl].
    destruct (load_entry_flent result_path name w Hflent) as [Hraw Hfs].
    rewrite IH, Hraw, Hfs, <- app_assoc. f_equal.
    assert (Hsame : omap (fun name0 =>
                       parsed_record json_load
                         (os_system cleanup_command (fs w))
                         (result_path ++ "/" ++ name0)) names
                    = omap (fun name0 =>
                         parsed_record json_load (fs w)
                           (result_path ++ "/" ++ name0)) names).
    { clear IH. induction Hall as [|n names [_ Hn] _ IHn]; [reflexivity|].
      assert (Hpar : parsed_record json_load
                       (os_system cleanup_command (fs w))
                       (result_path ++ "/" ++ n)
                     = parsed_record json_load (fs w)
                         (result_path ++ "/" ++ n)).
      { unfold parsed_record. rewrite (proj1 (Hn (fs w))). reflexivity. }
      cbn [omap list_omap]. rewrite Hpar, IHn. reflexivity. }
    rewrite Hsame. cbn [omap list_omap].
    destruct (parsed_record json_load (fs w) (result_path ++ "/" ++ name));
      reflexivity.
Qed.

(** A directory of [.flent] entries is loaded in listing order: the
    raw-data list grows by the records of the regular files whose text
    parses, one after the other; the other entries leave no trace in it.
    (The clean-up command is taken to leave the entries alone.) *)
Theorem logs_are_loaded_in_listing_order self params result_path names w :
  params !! "result_path" = Some result_path ->
  Os.listdir (fs w) result_path = Py.Ok names ->
  Forall (fun name =>
            Os.endswith (result_path ++ "/" ++ name) ".flent" = true
            /\ cleanup_keeps os_system (result_path ++ "/" ++ name)) names ->
  exists w',
    load_raw_data_from_flent_logs json_load os_system self params w
    = (Py.Ok 0, w')
    /\ raw_data_list w'
       = (raw_data_list w
          ++ omap (fun name =>
                     parsed_record json_load (fs w)
                       (result_path ++ "/" ++ name)) names)%list
    /\ perf_kpi_list w' = perf_kpi_list w.
Proof.
  intros Hp Hl Hall. eexists. split; [|split].
  - apply load_raw_data_status; eassumption.
  - apply load_loop_flent. assumption.
  - destruct (load_loop_lists json_load os_system result_path names w)
      as (? & _ & H). exact H.
Qed.

End loader_more.

Lemma other_entries_are_skipped_witness :
  load_entry Sample.json_load Sample.os_system "logs" "notes.txt"
    (Sample.logs_world [("notes.txt", "upload")])
  = cleanup Sample.os_system (Sample.logs_world [("notes.txt", "upload")]).
Proof.
  apply other_entries_are_skipped. right. split; reflexivity.
Defined.

Lemma tarball_without_log_is_skipped_witness :
  raw_data_list
    (load_entry Sample.json_load Sample.os_system "logs" "a.tar.gz"
       (Sample.logs_world [("a.tar.gz", "upload")]))
  = []
  /\ perf_kpi_list
       (load_entry Sample.json_load Sample.os_system "logs" "a.tar.gz"
          (Sample.logs_world [("a.tar.gz", "upload")]))
     = []
  /\ stdout
       (load_entry Sample.json_load Sample.os_system "logs" "a.tar.gz"
          (Sample.logs_world [("a.tar.gz", "upload")]))
     = [].
Proof.
  apply (tarball_without_log_is_skipped Sample.json_load Sample.os_system
           "logs" "a.tar.gz" (Sample.logs_world [("a.tar.gz", "upload")]));
    reflexivity.
Defined.

Lemma default_report_is_not_reloaded_witness :
  cli Sample.json_load Sample.os_system Sample.repr (Some "logs") None
    (Sample.logs_world [("flent_report.csv", "upload")])
  = ([WARNING_no_report_csv "logs"],
     generate_flent_test_report Sample.json_load Sample.os_system
       Sample.repr "logs" ("logs" ++ "/" ++ "flent_report.csv")
       (Sample.logs_world [("flent_report.csv", "upload")]))
  /\ forall w2,
      load_entry Sample.json_load Sample.os_system "logs"
        "flent_report.csv" w2
      = cleanup Sample.os_system w2.
Proof.
  apply default_report_is_not_reloaded. discriminate.
Defined.

Lemma logs_are_loaded_in_listing_order_witness :
  exists w',
    load_raw_data_from_flent_logs Sample.json_load Sample.os_system new
      {[ "result_path" := "logs" ]}
      (Sample.logs_world [("b.flent", "download"); ("x.flent", "not json");
                          ("a.flent", "upload")])
    = (Py.Ok 0, w')
    /\ raw_data_list w'
       = ([] ++ omap (fun name =>
                        parsed_record Sample.json_load
                          (Sample.logs_fs
                             [("b.flent", "download");
                              ("x.flent", "not json");
                              ("a.flent", "upload")])
                          ("logs" ++ "/" ++ name))
                 ["b.flent"; "x.flent"; "a.flent"])%list
    /\ perf_kpi_list w' = [].
Proof.
  apply (logs_are_loaded_in_listing_order Sample.json_load Sample.os_system
           new {[ "result_path" := "logs" ]} "logs"
           ["b.flent"; "x.flent"; "a.flent"]).
  - reflexivity.
  - reflexivity.
  - repeat constructor; intros f; reflexivity.
Defined.

(** ** More on the report *)

Section report_more.

Lemma fst_imap_label {A B} (h : A -> B) (l : list A) :
  map fst (imap (fun i c => (Z.of_nat i, h c)) l)
  = map Z.of_nat (seq 0 (length l)).
Proof.
  change (map fst ?x) with (fst <$> x). rewrite fmap_imap.
  transitivity (imap (fun i (_ : A) => Z.of_nat i) l).
  { apply imap_ext. intros; reflexivity. }
  assert (H : forall (g : nat -> Z),
             imap (fun i (_ : A) => g i) l
             = map g (seq 0 (length l))).
  { induction l as [|x l IH]; intros g; [reflexivity|].
    rewrite imap_cons. cbn [length seq map]. f_equal.
    rewrite <- seq_shift, map_map. apply (IH (fun i => g (S i))). }
  apply H.
Qed.

Lemma rows_round_fst decimals df :
  map fst (Pd.rows (Pd.round decimals df)) = map fst (Pd.rows df).
Proof.
  unfold Pd.round. cbn [Pd.rows]. rewrite map_map. reflexivity.
Qed.

Lemma rows_round_length decimals df n :
  Forall (fun r => length (snd r) = n) (Pd.rows df) ->
  Forall (fun r => length (snd r) = n) (Pd.rows (Pd.round decimals df)).
Proof.
  unfold Pd.round. cbn [Pd.rows]. intros H. apply List.Forall_map.
  eapply List.Forall_impl; [|exact H]. intros r Hr. cbn.
  rewrite length_imap. assumption.
Qed.

Lemma infer_objects_length m n :
  Forall (fun r => length r = n) m ->
  Forall (fun r => length r = n) (Pd.infer_objects m).
Proof.
  unfold Pd.infer_objects. intros H. apply List.Forall_map.
  eapply List.Forall_impl; [|exact H]. intros r Hr.
  rewrite length_imap. assumption.
Qed.

(** The shape of the report: the seven display columns, one row for each
    KPI record, each with seven cells, numbered from zero without a gap. *)
Theorem report_shape self w result :
  generate_report_dataframe self w = Py.Ok result ->
  exists df,
    df_report result = Some df
    /\ Pd.columns df = display_columns
    /\ length (Pd.rows df) = length (perf_kpi_list w)
    /\ map fst (Pd.rows df)
       = map Z.of_nat (seq 0 (length (perf_kpi_list w)))
    /\ Forall (fun r => length (snd r) = 7%nat) (Pd.rows df).
Proof.
  unfold generate_report_dataframe, _create_report_dataframe.
  fold (report_frame (perf_kpi_list w)).
  rewrite report_frame_eq, format_report.
  destruct (forallb _ key_positions); [|discriminate].
  intros [= <-]. eexists. split; [reflexivity|].
  set (m := map _ (perf_kpi_list w)).
  set (sorted := map snd (Pd.stable_sort key_positions _)).
  assert (Hlen : length sorted = length (perf_kpi_list w)).
  { unfold sorted. rewrite length_map.
    rewrite (Permutation_length (stable_sort_Permutation _)).
    rewrite length_imap. unfold Pd.infer_objects, m. rewrite !length_map.
    reflexivity. }
  assert (Hcells : Forall (fun r : list Py.value => length r = 7%nat) sorted).
  { unfold sorted. rewrite stable_sort_Permutation, snd_imap_label.
    apply infer_objects_length. unfold m. apply List.Forall_map.
    apply List.Forall_forall. intros; reflexivity. }
  split; [reflexivity|]. split; [|split].
  - rewrite rows_round. cbn [Pd.rows]. rewrite length_imap. exact Hlen.
  - rewrite rows_round_fst. cbn [Pd.rows]. rewrite fst_imap_label, Hlen.
    reflexivity.
  - apply rows_round_length. cbn [Pd.rows].
    apply List.Forall_forall. intros r Hr.
    apply list_elem_of_In, elem_of_lookup_imap in Hr
      as (i & c & -> & Hc).
    cbn. rewrite length_take.
    rewrite List.Forall_forall in Hcells.
    rewrite (Hcells c); [reflexivity|].
    apply list_elem_of_In. eapply list_elem_of_lookup_2. eassumption.
Qed.

Lemma sortable_rows l j :
  Forall (fun r : Z * list Py.value =>
            Pd.is_container (nth j (snd r) Pd.nan) = false) l ->
  Pd.sortable (Pd.column j (map snd l)) = true.
Proof.
  unfold Pd.sortable, Pd.column. induction 1 as [|r l Hr _ IH];
    [reflexivity|].
  cbn [map existsb]. rewrite Hr. exact IH.
Qed.

(** The sort of the report frame: the rows come out as a permutation of
    the rows that went in, in ascending order of the six-column key, under
    the same columns. It goes through whenever no key cell is a list or a
    dict, also on a key column that mixes numbers and strings: there a
    number comes before a string, and a string before a missing cell. *)
Theorem sort_values_sorts_the_rows l :
  (forall df,
      Pd.sort_values sort_keys (Pd.mkDataFrame display_columns l) = Py.Ok df ->
      Pd.columns df = display_columns
      /\ Permutation (Pd.rows df) l
      /\ StronglySorted key_le (Pd.rows df))
  /\ ((forall r j,
          In r l -> In j key_positions ->
          Pd.is_container (nth j (snd r) Pd.nan) = false) ->
      exists df,
        Pd.sort_values sort_keys (Pd.mkDataFrame display_columns l)
        = Py.Ok df)
  /\ (forall number text missing,
         Pd.is_number number = true -> Pd.isna missing = true ->
         Pd.lex Z.compare (Pd.cell_key number) (Pd.cell_key (Py.Str text))
         = Lt
         /\ Pd.lex Z.compare (Pd.cell_key (Py.Str text))
              (Pd.cell_key missing) = Lt).
Proof.
  unfold Pd.sort_values. cbn [Pd.columns Pd.rows].
  change (Pd.positions sort_keys display_columns) with (Py.Ok key_positions).
  rewrite bind_Ok. split; [|split].
  - destruct (forallb _ key_positions); [|discriminate].
    intros df [= <-]. cbn [Pd.columns Pd.rows].
    split; [reflexivity|]. split.
    + apply stable_sort_Permutation.
    + apply stable_sort_sorted.
  - intros Hcells.
    assert (Hs : forallb (fun j => Pd.sortable (Pd.column j (map snd l)))
                   key_positions = true).
    { apply forallb_forall. intros j Hj. apply sortable_rows.
      apply List.Forall_forall. intros r Hr. apply Hcells; assumption. }
    rewrite Hs. eexists. reflexivity.
  - intros number text missing Hn Hm. split.
    + destruct number as [| | |[]| | |]; try discriminate; reflexivity.
    + destruct missing as [| | |[]| | |]; try discriminate; reflexivity.
Qed.

Lemma insert_row_filter key r l :
  List.filter (fun x => bool_decide (Pd.row_key key_positions x = key))
    (Pd.insert_row key_positions r l)
  = List.filter (fun x => bool_decide (Pd.row_key key_positions x = key))
      (r :: l).
Proof.
  induction l as [|r' l IH]; [reflexivity|].
  cbn [Pd.insert_row].
  destruct (Pd.key_compare (Pd.row_key key_positions r)
              (Pd.row_key key_positions r')) eqn:Hc; try reflexivity.
  cbn [List.filter] in *. rewrite IH.
  destruct (bool_decide (Pd.row_key key_positions r' = key)) eqn:H';
    [|reflexivity].
  destruct (bool_decide (Pd.row_key key_positions r = key)) eqn:H;
    [|reflexivity].
  apply bool_decide_eq_true in H, H'.
  rewrite H, H', key_compare_refl in Hc. discriminate.
Qed.

(** The sort is stable: the rows that share a sort key come out in the
    order they went in. *)
Theorem sort_values_is_stable l df key :
  Pd.sort_values sort_keys (Pd.mkDataFrame display_columns l) = Py.Ok df ->
  List.filter (fun r => bool_decide (Pd.row_key key_positions r = key))
    (Pd.rows df)
  = List.filter (fun r => bool_decide (Pd.row_key key_positions r = key)) l.
Proof.
  unfold Pd.sort_values. cbn [Pd.columns Pd.rows].
  change (Pd.positions sort_keys display_columns) with (Py.Ok key_positions).
  rewrite bind_Ok. destruct (forallb _ key_positions); [|discriminate].
  intros [= <-]. cbn [Pd.rows]. clear.
  induction l as [|r l IH]; [reflexivity|].
  unfold Pd.stable_sort in *. cbn [foldr].
  rewrite insert_row_filter. cbn [List.filter]. rewrite IH. reflexivity.
Qed.

End report_more.

(** ** The bandwidth column *)

Section bandwidth_claims.






End bandwidth_claims.



(** ** More on the sink and the driver *)

Section driver_more.

Variable json_load : string -> option Py.value.
Variable os_system : string -> Os.filesystem -> Os.filesystem.
Variable repr : Py.value -> string.

(** The ways the sink can end, with the file system it leaves. *)
Lemma report_dataframe_to_csv_cases self params w status w' :
  report_dataframe_to_csv repr self params w = (status, w') ->
  raw_data_list w' = raw_data_list w
  /\ perf_kpi_list w' = perf_kpi_list w
  /\ ((status = 0
       /\ exists report_csv df,
           params !! "report_csv" = Some report_csv
           /\ df_report self = Some df
           /\ Os.writable (fs w) report_csv = true
           /\ fs w' = Os.put report_csv (Pd.to_csv repr df) (fs w))
      \/ (status = 1
          /\ fs w' = fs w
          /\ (params !! "report_csv" = None
              \/ df_report self = None
              \/ exists report_csv,
                  params !! "report_csv" = Some report_csv
                  /\ Os.on_write (fs w) report_csv = Os.Refused))
      \/ (status = 1
          /\ exists report_csv df n,
              params !! "report_csv" = Some report_csv
              /\ df_report self = Some df
              /\ Os.on_write (fs w) report_csv = Os.Cut n
              /\ fs w'
                 = Os.put report_csv
                     (String.substring 0 n (Pd.to_csv repr df)) (fs w))).
Proof.
  unfold report_dataframe_to_csv.
  destruct (params !! "report_csv") as [report_csv|].
  2:{ intros [= <- <-]. repeat split. right. left. auto. }
  destruct (df_report self) as [df|].
  2:{ intros [= <- <-]. repeat split. right. left. auto. }
  unfold Os.write. cbn [fs print].
  destruct (Os.on_write (fs w) report_csv) as [| |n] eqn:Hw;
    intros [= <- <-]; (split; [reflexivity|]); (split; [reflexivity|]).
  - left. split; [reflexivity|]. exists report_csv, df.
    unfold Os.writable. rewrite Hw. repeat split; reflexivity.
  - right. left. split; [reflexivity|]. split; [reflexivity|].
    right. right. exists report_csv. split; [reflexivity|assumption].
  - right. right. split; [reflexivity|]. exists report_csv, df, n.
    repeat split; first [reflexivity | assumption].
Qed.

(** The sink returns 0 only after the whole CSV text of the frame is in
    the destination. It returns 1 with every file as it was when the
    destination is not named, when there is no frame yet, or when the
    destination cannot be opened; and it returns 1 with the start of the
    text in the destination when the write fails after the file has been
    opened. It never changes another path, nor the two lists. *)
Theorem report_dataframe_to_csv_outcomes self params w status w' :
  report_dataframe_to_csv repr self params w = (status, w') ->
  raw_data_list w' = raw_data_list w
  /\ perf_kpi_list w' = perf_kpi_list w
  /\ (forall report_csv path,
         params !! "report_csv" = Some report_csv -> path <> report_csv ->
         Os.resolve (fs w') path = Os.resolve (fs w) path)
  /\ ((status = 0
       /\ exists report_csv df,
           params !! "report_csv" = Some report_csv
           /\ df_report self = Some df
           /\ Os.writable (fs w) report_csv = true
           /\ Os.resolve (fs w') report_csv
              = Some (Os.File (Pd.to_csv repr df)))
      \/ (status = 1
          /\ fs w' = fs w
          /\ (params !! "report_csv" = None
              \/ df_report self = None
              \/ exists report_csv,
                  params !! "report_csv" = Some report_csv
                  /\ Os.on_write (fs w) report_csv = Os.Refused))
      \/ (status = 1
          /\ exists report_csv df n,
              params !! "report_csv" = Some report_csv
              /\ df_report self = Some df
              /\ Os.on_write (fs w) report_csv = Os.Cut n
              /\ Os.resolve (fs w') report_csv
                 = Some (Os.File
                           (String.substring 0 n (Pd.to_csv repr df))))).
Proof.
  intros H. apply report_dataframe_to_csv_cases in H
    as (Hraw & Hkpi & [(-> & csv & df & Hc & Hd & Hw & Hfs)
                      | [(-> & Hfs & Hwhy)
                        | (-> & csv & df & n & Hc & Hd & Hw & Hfs)]]).
  - split; [assumption|]. split; [assumption|]. split.
    + intros csv' path Hc' Hne. rewrite Hfs. apply put_resolve_ne.
      congruence.
    + left. split; [reflexivity|]. exists csv, df.
      rewrite Hfs, put_resolve. auto.
  - split; [assumption|]. split; [assumption|]. split.
    + intros. rewrite Hfs. reflexivity.
    + right. left. auto.
  - split; [assumption|]. split; [assumption|]. split.
    + intros csv' path Hc' Hne. rewrite Hfs. apply put_resolve_ne.
      congruence.
    + right. right. split; [reflexivity|]. exists csv, df, n.
      rewrite Hfs, put_resolve. auto.
Qed.

(** The driver ends with a traceback only when the directory cannot be
    listed, and then nothing has been loaded or printed. (The KPI list is
    taken to hold dicts of the extractor, as it does from the start.) *)
Theorem driver_traceback_only_from_listdir result_path report_csv w err w' :
  Forall typed_kpi (perf_kpi_list w) ->
  generate_flent_test_report json_load os_system repr result_path
    report_csv w = (Traceback err, w') ->
  Os.listdir (fs w) result_path = Py.Raise err /\ w' = w.
Proof.
  intros Htyped. unfold generate_flent_test_report,
    load_raw_data_from_flent_logs.
  rewrite lookup_singleton_eq.
  destruct (Os.listdir (fs w) result_path) as [names|e].
  2:{ intros [= <- <-]. auto. }
  cbn [Z.eqb negb].
  set (w1 := load_loop json_load os_system result_path names w).
  assert (Htyped1 : Forall typed_kpi (perf_kpi_list w1)).
  { unfold w1.
    destruct (load_loop_lists json_load os_system result_path names w)
      as (? & _ & ->). assumption. }
  pose proof (calculate_loop_typed (raw_data_list w1) w1 Htyped1) as Htyped2.
  unfold calculate_performance_kpis.
  destruct (calculate_loop (raw_data_list w1) w1) as [r w2].
  cbn [snd] in Htyped2.
  destruct (negb (r =? 0)); [discriminate|].
  destruct (generate_report_dataframe_typed new w2 Htyped2) as (df & -> & _).
  destruct (report_dataframe_to_csv _ _ _ _) as [r3 w3].
  destruct (negb (r3 =? 0)); discriminate.
Qed.

(** The driver exits with status 0 exactly when the directory can be
    listed, every loaded record extracts, and the destination can be
    written. *)
Theorem driver_exits_0_iff result_path report_csv w :
  Forall typed_kpi (perf_kpi_list w) ->
  fst (generate_flent_test_report json_load os_system repr result_path
         report_csv w) = Exit 0
  <-> exists names kpis,
        Os.listdir (fs w) result_path = Py.Ok names
        /\ Forall2 extracts
             (raw_data_list
                (load_loop json_load os_system result_path names w)) kpis
        /\ Os.writable
             (fs (load_loop json_load os_system result_path names w))
             report_csv = true.
Proof.
  intros Htyped. split.
  - unfold generate_flent_test_report, load_raw_data_from_flent_logs.
    rewrite lookup_singleton_eq.
    destruct (Os.listdir (fs w) result_path) as [names|e]; [|discriminate].
    cbn [Z.eqb negb].
    set (w1 := load_loop json_load os_system result_path names w).
    unfold calculate_performance_kpis.
    pose proof (calculate_loop_status_0 (raw_data_list w1) w1) as Hall.
    pose proof (calculate_loop_fs (raw_data_list w1) w1) as Hfs.
    destruct (calculate_loop (raw_data_list w1) w1) as [r w2].
    cbn [fst snd] in Hall, Hfs.
    destruct (Z.eqb_spec r 0) as [->|]; [|discriminate]. cbn [negb].
    destruct (Hall eq_refl) as (kpis & Hkpis).
    destruct (generate_report_dataframe new w2) as [self|]; [|discriminate].
    destruct (report_dataframe_to_csv repr self {[ "report_csv" := report_csv ]}
                w2) as [r3 w3] eqn:Hsink.
    destruct (Z.eqb_spec r3 0) as [->|]; [|discriminate]. intros _.
    apply report_dataframe_to_csv_cases in Hsink
      as (_ & _ & [(_ & csv & df & Hcsv & _ & Hw & _)
                  | [(? & _) | (? & _)]]);
      [|discriminate..].
    rewrite lookup_singleton_eq in Hcsv. injection Hcsv as <-.
    exists names, kpis. split; [reflexivity|]. split; [exact Hkpis|].
    change (Os.writable (fs w1) report_csv = true).
    rewrite <- Hfs. exact Hw.
  - intros (names & kpis & Hl & Hall & Hw).
    destruct (driver_success json_load os_system repr result_path report_csv
                w (load_loop json_load os_system result_path names w) kpis)
      as (w' & df & -> & _); try assumption; [| |reflexivity].
    + apply load_raw_data_status; [apply lookup_singleton_eq|assumption].
    + destruct (load_loop_lists json_load os_system result_path names w)
        as (? & _ & ->). assumption.
Qed.

(** A run that does not exit with status 0 leaves the files as the loader
    left them, with one exception: when the destination is opened and the
    write fails afterwards, the destination holds the start of the report
    text in place of what it held. No other path is changed. *)
Theorem failed_run_leaves_at_most_a_cut_report
    result_path report_csv names w t w' :
  Os.listdir (fs w) result_path = Py.Ok names ->
  generate_flent_test_report json_load os_system repr result_path
    report_csv w = (t, w') ->
  t <> Exit 0 ->
  fs w' = fs (load_loop json_load os_system result_path names w)
  \/ exists df n,
      generate_report_dataframe new w' = Py.Ok (mkInstance (Some df))
      /\ Os.on_write
           (fs (load_loop json_load os_system result_path names w))
           report_csv = Os.Cut n
      /\ fs w'
         = Os.put report_csv (String.substring 0 n (Pd.to_csv repr df))
             (fs (load_loop json_load os_system result_path names w)).
Proof.
  intros Hl. unfold generate_flent_test_report,
    load_raw_data_from_flent_logs.
  rewrite lookup_singleton_eq, Hl. cbn [Z.eqb negb].
  set (w1 := load_loop json_load os_system result_path names w).
  unfold calculate_performance_kpis.
  pose proof (calculate_loop_fs (raw_data_list w1) w1) as Hfs.
  destruct (calculate_loop (raw_data_list w1) w1) as [r w2].
  cbn [snd] in Hfs.
  destruct (negb (r =? 0)); [intros [= <- <-]; auto|].
  unfold generate_report_dataframe at 1, _create_report_dataframe at 1.
  destruct (_format_report_dataframe _) as [self|e] eqn:Hgen;
    [|intros [= <- <-]; auto].
  destruct (report_dataframe_to_csv repr self {[ "report_csv" := report_csv ]}
              w2) as [r3 w3] eqn:Hsink.
  apply report_dataframe_to_csv_cases in Hsink
    as (_ & Hkpi & [(-> & _)
                   | [(-> & Hfs3 & _)
                     | (-> & csv & df & n & Hc & Hd & Hw & Hfs3)]]).
  - cbn [Z.eqb negb]. intros [= <- <-] Hne. contradiction.
  - cbn [Z.eqb negb]. intros [= <- <-] _. left. congruence.
  - cbn [Z.eqb negb]. intros [= <- <-] _. right.
    rewrite lookup_singleton_eq in Hc. injection Hc as <-.
    exists df, n. rewrite <- Hfs. split; [|auto].
    unfold generate_report_dataframe, _create_report_dataframe.
    rewrite Hkpi, Hgen. destruct self as [d]. cbn [df_report] in Hd.
    rewrite Hd. reflexivity.
Qed.

End driver_more.

Lemma report_dataframe_to_csv_outcomes_witness :
  exists w',
    report_dataframe_to_csv Sample.repr
      (mkInstance (Some (report_frame [])))
      {[ "report_csv" := "out.csv" ]}
      (mkWorld [] [] (Sample.failing_fs [] (Os.Cut 9)) []) = (1, w')
    /\ Os.resolve (fs w') "out.csv" = Some (Os.File ",Backend,")
    /\ Os.resolve (fs w') "logs" = Some (Os.Directory [])
    /\ perf_kpi_list w' = [].
Proof.
  exists (snd (report_dataframe_to_csv Sample.repr
                 (mkInstance (Some (report_frame [])))
                 {[ "report_csv" := "out.csv" ]}
                 (mkWorld [] [] (Sample.failing_fs [] (Os.Cut 9)) []))).
  assert (E : report_dataframe_to_csv Sample.repr
                (mkInstance (Some (report_frame [])))
                {[ "report_csv" := "out.csv" ]}
                (mkWorld [] [] (Sample.failing_fs [] (Os.Cut 9)) [])
              = (1, snd (report_dataframe_to_csv Sample.repr
                           (mkInstance (Some (report_frame [])))
                           {[ "report_csv" := "out.csv" ]}
                           (mkWorld [] [] (Sample.failing_fs [] (Os.Cut 9))
                              []))))
    by reflexivity.
  split; [exact E|].
  destruct (report_dataframe_to_csv_outcomes Sample.repr
              (mkInstance (Some (report_frame [])))
              {[ "report_csv" := "out.csv" ]}
              (mkWorld [] [] (Sample.failing_fs [] (Os.Cut 9)) []) 1 _ E)
    as (_ & Hk & Hother & _).
  split; [reflexivity|]. split; [|exact Hk].
  rewrite (Hother "out.csv" "logs"); [reflexivity| |discriminate].
  apply lookup_singleton_eq.
Defined.

Lemma report_shape_witness :
  exists result df,
    generate_report_dataframe new
      (mkWorld [] [Sample.kpi "tcp_up" 128 941; Sample.kpi "tcp_down" 64 512]
         Sample.empty_fs [])
    = Py.Ok result
    /\ df_report result = Some df
    /\ Pd.columns df = display_columns
    /\ length (Pd.rows df) = 2%nat
    /\ map fst (Pd.rows df) = [0; 1]
    /\ Forall (fun r => length (snd r) = 7%nat) (Pd.rows df).
Proof.
  destruct (generate_report_dataframe new
              (mkWorld [] [Sample.kpi "tcp_up" 128 941;
                           Sample.kpi "tcp_down" 64 512]
                 Sample.empty_fs [])) as [result|err] eqn:E;
    [|vm_compute in E; discriminate].
  exists result.
  destruct (report_shape new _ result E) as (df & H).
  exists df. split; [reflexivity|exact H].
Defined.

Lemma sort_values_is_stable_witness :
  exists df,
    Pd.sort_values sort_keys
      (report_frame [Sample.kpi "tcp_up" 128 941;
                     Sample.kpi "tcp_down" 64 512;
                     Sample.kpi "tcp_up" 128 950])
    = Py.Ok df
    /\ map fst
         (List.filter
            (fun r => bool_decide
                        (Pd.row_key key_positions r
                         = Pd.row_key key_positions
                             (0, [Py.Str "NaN"; Py.Str "NaN"; Py.Str "NaN";
                                  Py.Str "tcp_up"; Py.Int 128;
                                  Py.Str "NaN"; Py.Int 941])))
            (Pd.rows df))
       = [0; 2].
Proof.
  destruct (Pd.sort_values sort_keys
              (report_frame [Sample.kpi "tcp_up" 128 941;
                             Sample.kpi "tcp_down" 64 512;
                             Sample.kpi "tcp_up" 128 950]))
    as [df|err] eqn:E; [|vm_compute in E; discriminate].
  exists df. split; [reflexivity|].
  rewrite (sort_values_is_stable
             (Pd.rows (report_frame [Sample.kpi "tcp_up" 128 941;
                                     Sample.kpi "tcp_down" 64 512;
                                     Sample.kpi "tcp_up" 128 950]))
             df _ E).
  reflexivity.
Defined.

Lemma driver_traceback_only_from_listdir_witness :
  generate_flent_test_report Sample.json_load Sample.os_system Sample.repr
    "logs" "out.csv" Sample.empty_world
  = (Traceback Py.OSError, Sample.empty_world)
  /\ Os.listdir (fs Sample.empty_world) "logs" = Py.Raise Py.OSError.
Proof.
  split; [reflexivity|].
  apply (driver_traceback_only_from_listdir Sample.json_load
           Sample.os_system Sample.repr "logs" "out.csv" Sample.empty_world
           Py.OSError Sample.empty_world).
  - constructor.
  - reflexivity.
Defined.

Lemma driver_exits_0_iff_witness :
  fst (generate_flent_test_report Sample.json_load Sample.os_system
         Sample.repr "logs" "logs/flent_report.csv"
         (Sample.logs_world [("a.flent", "upload"); ("b.flent", "kbits")]))
  = Exit 0
  <-> exists names kpis,
        Os.listdir
          (fs (Sample.logs_world [("a.flent", "upload");
                                  ("b.flent", "kbits")])) "logs"
        = Py.Ok names
        /\ Forall2 extracts
             (raw_data_list
                (load_loop Sample.json_load Sample.os_system "logs" names
                   (Sample.logs_world [("a.flent", "upload");
                                       ("b.flent", "kbits")]))) kpis
        /\ Os.writable
             (fs (load_loop Sample.json_load Sample.os_system "logs" names
                    (Sample.logs_world [("a.flent", "upload");
                                        ("b.flent", "kbits")])))
             "logs/flent_report.csv" = true.
Proof.
  apply driver_exits_0_iff. constructor.
Defined.

Lemma failed_run_leaves_at_most_a_cut_report_witness :
  generate_flent_test_report Sample.json_load Sample.os_system Sample.repr
    "logs" "logs/flent_report.csv"
    (mkWorld [] [] (Sample.failing_fs [("a.flent", "upload")] (Os.Cut 9)) [])
  = (Exit 1,
     snd (generate_flent_test_report Sample.json_load Sample.os_system
            Sample.repr "logs" "logs/flent_report.csv"
            (mkWorld [] []
               (Sample.failing_fs [("a.flent", "upload")] (Os.Cut 9)) [])))
  /\ Os.resolve
       (fs (snd (generate_flent_test_report Sample.json_load
                   Sample.os_system Sample.repr "logs"
                   "logs/flent_report.csv"
                   (mkWorld [] []
                      (Sample.failing_fs [("a.flent", "upload")] (Os.Cut 9))
                      []))))
       "logs/flent_report.csv" = Some (Os.File ",Backend,")
  /\ Os.resolve
       (fs (snd (generate_flent_test_report Sample.json_load
                   Sample.os_system Sample.repr "logs"
                   "logs/flent_report.csv"
                   (mkWorld [] []
                      (Sample.failing_fs [("a.flent", "upload")] (Os.Cut 9))
                      []))))
       "logs/a.flent" = Some (Os.File "upload").
Proof.
  assert (E : generate_flent_test_report Sample.json_load Sample.os_system
                Sample.repr "logs" "logs/flent_report.csv"
                (mkWorld [] []
                   (Sample.failing_fs [("a.flent", "upload")] (Os.Cut 9)) [])
              = (Exit 1,
                 snd (generate_flent_test_report Sample.json_load
                        Sample.os_system Sample.repr "logs"
                        "logs/flent_report.csv"
                        (mkWorld [] []
                           (Sample.failing_fs [("a.flent", "upload")]
                              (Os.Cut 9)) []))))
    by reflexivity.
  split; [exact E|].
  destruct (failed_run_leaves_at_most_a_cut_report Sample.json_load
              Sample.os_system Sample.repr "logs" "logs/flent_report.csv"
              ["a.flent"]
              (mkWorld [] []
                 (Sample.failing_fs [("a.flent", "upload")] (Os.Cut 9)) [])
              _ _ eq_refl E ltac:(discriminate))
    as [H | (df & n & _ & Hn & H)]; split; reflexivity.
Defined.

(** ** What a run prints *)

Section output_more.

Variable json_load : string -> option Py.value.
Variable os_system : string -> Os.filesystem -> Os.filesystem.
Variable repr : Py.value -> string.

Lemma load_file_trace filename w :
  let w' := load_file json_load filename w in
  (raw_data_list w' = raw_data_list w /\ stdout w' = stdout w)
  \/ (exists raw_data,
         raw_data_list w' = (raw_data_list w ++ [raw_data])%list
         /\ stdout w' = stdout w)
  \/ (exists err,
         raw_data_list w' = raw_data_list w
         /\ stdout w' = (stdout w ++ [ERROR_json_file err])%list).
Proof.
  unfold load_file.
  destruct (Os.endswith filename ".flent") eqn:Hflent; cbn [andb];
    [|left; split; reflexivity].
  destruct (Os.isfile (fs w) filename); [|left; split; reflexivity].
  apply endswith_flent in Hflent as [_ Hne].
  unfold _get_raw_data_from_flent_log. rewrite Hne.
  destruct (Os.read (fs w) filename) as [content|err].
  - rewrite bind_Ok. destruct (json_load content) as [json_data|].
    + right. left. exists json_data. split; reflexivity.
    + right. right. eexists. split; reflexivity.
  - rewrite bind_Raise. right. right. eexists. split; reflexivity.
Qed.

Lemma load_entry_trace result_path fname w :
  let w' := load_entry json_load os_system result_path fname w in
  (raw_data_list w' = raw_data_list w /\ stdout w' = stdout w)
  \/ (exists raw_data,
         raw_data_list w' = (raw_data_list w ++ [raw_data])%list
         /\ stdout w' = stdout w)
  \/ (exists err,
         raw_data_list w' = raw_data_list w
         /\ stdout w' = (stdout w ++ [ERROR_json_file err])%list).
Proof.
  unfold load_entry.
  destruct (tarball_support os_system result_path fname w)
    as [filename w1] eqn:Htar.
  assert (H1 : raw_data_list w1 = raw_data_list w /\ stdout w1 = stdout w).
  { unfold tarball_support in Htar.
    destruct (_ && _) in Htar; injection Htar as <- <-; auto. }
  destruct H1 as [<- <-]. exact (load_file_trace filename w1).
Qed.

(** The loader adds, for each directory entry, one record or one line
    about a file it could not read or parse, never both and never more;
    no other line is printed, so the check for an empty file name never
    fires. *)
Theorem loader_adds_a_record_or_an_error_line result_path names w :
  exists records errs,
    raw_data_list (load_loop json_load os_system result_path names w)
    = (raw_data_list w ++ records)%list
    /\ stdout (load_loop json_load os_system result_path names w)
       = (stdout w ++ map ERROR_json_file errs)%list
    /\ (length records + length errs <= length names)%nat.
Proof.
  revert w. induction names as [|fname names IH]; intros w.
  - exists [], []. cbn. rewrite !app_nil_r. auto.
  - unfold load_loop. cbn [foldl].
    fold (load_loop json_load os_system result_path names
            (load_entry json_load os_system result_path fname w)).
    destruct (IH (load_entry json_load os_system result_path fname w))
      as (records & errs & -> & -> & Hlen).
    destruct (load_entry_trace result_path fname w)
      as [[-> ->] | [(raw_data & -> & ->) | (err & -> & ->)]].
    + exists records, errs. cbn [length]. repeat split; auto with arith.
    + exists (raw_data :: records), errs. rewrite <- app_assoc.
      cbn [length Nat.add app]. repeat split. lia.
    + exists records, (err :: errs). rewrite <- app_assoc.
      cbn [length Nat.add app map]. repeat split. lia.
Qed.

Lemma calculate_loop_trace todo w :
  (fst (calculate_loop todo w) = 0
   /\ stdout (snd (calculate_loop todo w)) = stdout w)
  \/ (fst (calculate_loop todo w) = 1
      /\ exists m,
          stdout (snd (calculate_loop todo w)) = (stdout w ++ [m])%list
          /\ (m = ERROR_missing_params "raw_data"
              \/ exists err, m = ERROR_extracting err)).
Proof.
  revert w. induction todo as [|raw_data todo IH]; intros w;
    [left; split; reflexivity|].
  cbn [calculate_loop].
  destruct (_get_kpis_from_raw_data raw_data w) as [[result k] w1] eqn:Hk.
  unfold _get_kpis_from_raw_data in Hk.
  destruct (Py.eq_str raw_data "").
  - injection Hk as <- <- <-. right. split; [reflexivity|].
    eexists. split; [reflexivity|]. left. reflexivity.
  - destruct (kpis_try raw_data).
    + injection Hk as <- <- <-. cbn [Z.eqb].
      apply (IH (perf_kpi_list_append _ w)).
    + injection Hk as <- <- <-. right. split; [reflexivity|].
      eexists. split; [reflexivity|]. right. eexists. reflexivity.
Qed.

(** After the loader, a run prints its outcome and nothing else: the two
    notes of the sink when it exits 0; one error line of the extractor
    when a record fails; the note and one error line of the sink when the
    destination cannot be written. *)
Theorem driver_prints_its_outcome result_path report_csv names w t w' :
  Forall typed_kpi (perf_kpi_list w) ->
  Os.listdir (fs w) result_path = Py.Ok names ->
  generate_flent_test_report json_load os_system repr result_path
    report_csv w = (t, w') ->
  (t = Exit 0
   /\ stdout w'
      = (stdout (load_loop json_load os_system result_path names w)
         ++ [NOTE_dumping report_csv; NOTE_finished])%list)
  \/ (t = Exit 1
      /\ exists m,
          stdout w'
          = (stdout (load_loop json_load os_system result_path names w)
             ++ [m])%list
          /\ (m = ERROR_missing_params "raw_data"
              \/ exists err, m = ERROR_extracting err))
  \/ (t = Exit 1
      /\ stdout w'
         = (stdout (load_loop json_load os_system result_path names w)
            ++ [NOTE_dumping report_csv; ERROR_dumping Py.OSError])%list).
Proof.
  intros Htyped Hl. unfold generate_flent_test_report,
    load_raw_data_from_flent_logs.
  rewrite lookup_singleton_eq, Hl. cbn [Z.eqb negb].
  set (w1 := load_loop json_load os_system result_path names w).
  assert (Htyped1 : Forall typed_kpi (perf_kpi_list w1)).
  { unfold w1.
    destruct (load_loop_lists json_load os_system result_path names w)
      as (? & _ & ->). assumption. }
  pose proof (calculate_loop_typed (raw_data_list w1) w1 Htyped1) as Htyped2.
  pose proof (calculate_loop_trace (raw_data_list w1) w1) as Htrace.
  unfold calculate_performance_kpis.
  destruct (calculate_loop (raw_data_list w1) w1) as [r w2].
  cbn [fst snd] in Htyped2, Htrace.
  destruct Htrace as [[-> Hout] | [-> Hout]].
  2:{ cbn [Z.eqb negb]. intros [= <- <-]. right. left. auto. }
  cbn [Z.eqb negb].
  destruct (generate_report_dataframe_typed new w2 Htyped2) as (df & -> & _).
  unfold report_dataframe_to_csv. rewrite lookup_singleton_eq.
  cbn [df_report]. unfold Os.write. cbn [fs print].
  destruct (Os.on_write (fs w2) report_csv).
  - cbn [Z.eqb negb]. intros [= <- <-]. left. split; [reflexivity|].
    cbn. rewrite Hout, <- app_assoc. reflexivity.
  - cbn [Z.eqb negb]. intros [= <- <-]. right. right. split; [reflexivity|].
    cbn. rewrite Hout, <- app_assoc. reflexivity.
  - cbn [Z.eqb negb]. intros [= <- <-]. right. right. split; [reflexivity|].
    cbn. rewrite Hout, <- app_assoc. reflexivity.
Qed.

End output_more.

Lemma driver_prints_its_outcome_witness :
  exists w',
    generate_flent_test_report Sample.json_load Sample.os_system Sample.repr
      "logs" "logs/flent_report.csv"
      (Sample.logs_world [("a.flent", "upload"); ("b.flent", "kbits")])
    = (Exit 1, w')
    /\ stdout w' = [ERROR_extracting (Py.Exception unit_error)].
Proof.
  exists (snd (generate_flent_test_report Sample.json_load Sample.os_system
                 Sample.repr "logs" "logs/flent_report.csv"
                 (Sample.logs_world [("a.flent", "upload");
                                     ("b.flent", "kbits")]))).
  assert (E : generate_flent_test_report Sample.json_load Sample.os_system
                Sample.repr "logs" "logs/flent_report.csv"
                (Sample.logs_world [("a.flent", "upload");
                                    ("b.flent", "kbits")])
              = (Exit 1,
                 snd (generate_flent_test_report Sample.json_load
                        Sample.os_system Sample.repr "logs"
                        "logs/flent_report.csv"
                        (Sample.logs_world [("a.flent", "upload");
                                            ("b.flent", "kbits")]))))
    by reflexivity.
  split; [exact E|].
  destruct (driver_prints_its_outcome Sample.json_load Sample.os_system
              Sample.repr "logs" "logs/flent_report.csv"
              ["a.flent"; "b.flent"]
              (Sample.logs_world [("a.flent", "upload"); ("b.flent", "kbits")])
              _ _ (List.Forall_nil _) eq_refl E)
    as [[H _] | [(_ & m & _) | [_ H]]];
    [discriminate|reflexivity|vm_compute in H; discriminate].
Defined.
